(** * Export Simplifier / Export Tester: a shallow embedding

    The two Blender add-ons [export_simplifier.py] and [export_tester.py]
    are orchestration code over the host's scene graph.  The embedding
    below keeps that shape: the host state the add-ons read and write is
    an explicit record [World], Python exceptions are a result type, and
    every operator method is a computation in the state-and-exception
    monad [Py].  Host operators ([bpy.ops.*]) are modelled by what they do
    to the fields the add-ons observe; where the host may fail, the
    failure is decided by an oracle stored in the world, so that the
    theorems below quantify over every behaviour of the host. *)

From stdpp Require Import gmap strings list fin_maps.
From Stdlib Require Import ZArith QArith Ascii String Lia.

Open Scope string_scope.
Open Scope list_scope.
Open Scope Z_scope.

(** ** Python values and strings *)

(** Values that occur as exporter keyword arguments. *)
Inductive pyval :=
| PStr (s : string)
| PBool (b : bool)
| PNum (q : Q).

(** [str.lower] on the ASCII range. *)
Definition ascii_lower (c : ascii) : ascii :=
  let n := nat_of_ascii c in
  if ((65 <=? n) && (n <=? 90))%nat then ascii_of_nat (n + 32) else c.

Fixpoint lower (s : string) : string :=
  match s with
  | EmptyString => EmptyString
  | String c s' => String (ascii_lower c) (lower s')
  end.

(** Whitespace as [str.strip] sees it (ASCII range). *)
Definition is_space (c : ascii) : bool :=
  let n := nat_of_ascii c in
  ((n =? 32) || ((9 <=? n) && (n <=? 13)) || ((28 <=? n) && (n <=? 31)))%nat.

Fixpoint lstrip (s : string) : string :=
  match s with
  | EmptyString => EmptyString
  | String c s' => if is_space c then lstrip s' else s
  end.

Fixpoint string_rev_app (s acc : string) : string :=
  match s with
  | EmptyString => acc
  | String c s' => string_rev_app s' (String c acc)
  end.

Definition string_rev (s : string) : string := string_rev_app s EmptyString.

Definition strip (s : string) : string :=
  string_rev (lstrip (string_rev (lstrip s))).

Definition ends_with_slash (s : string) : bool :=
  match string_rev s with
  | String c _ => Ascii.eqb c "/"%char
  | EmptyString => false
  end.

(** [os.path.join] for two components (POSIX flavour). *)
Definition path_join (path name : string) : string :=
  if String.prefix "/" name then name
  else if String.eqb path "" then name
  else if ends_with_slash path then path +:+ name
  else path +:+ "/" +:+ name.

(** Python truthiness of an optional string argument. *)
Definition truthy (s : option string) : bool :=
  match s with
  | Some s => negb (String.eqb s "")
  | None => false
  end.

(** ** Exceptions and operator results *)

Inductive exn :=
| RuntimeError | AttributeError | IndexError | KeyError | NameError
| ReferenceError | StopIteration | PermissionError | NotImplementedError.

Inductive res (A : Type) :=
| Ret (a : A)
| Raise (e : exn).
Arguments Ret {A} a.
Arguments Raise {A} e.

Inductive status := FINISHED | CANCELLED.

Inductive level := INFO | ERROR.

(** ** The host's data *)

Definition vec3 : Type := Q * Q * Q.

Inductive Mode := OBJECT | EDIT | SCULPT | VERTEX_PAINT | WEIGHT_PAINT | TEXTURE_PAINT.

Inductive ObjType := MESH | CURVE | LIGHT | CAMERA | EMPTY.

(** A UV map of a mesh; [uv_smart] records that its coordinates are the
    result of the smart projection with the given island margin. *)
Record UVLayer := {
  uv_name : string;
  uv_smart : option Q
}.

(** ID data-blocks are identified by their name, which the host keeps
    unique: a material pointer is the material's name, an image pointer
    the image's name. *)
Record Object := {
  obj_name : string;
  obj_type : ObjType;
  obj_visible : bool;
  obj_selected : bool;
  obj_location : vec3;
  obj_rotation : vec3;
  obj_scale : vec3;
  obj_uv_layers : list UVLayer;
  obj_material_slots : list (option string);
  obj_users_collection0 : string;
  obj_active_material_index : Z
}.

Record Image := {
  img_name : string;
  img_size : Z * Z;
  img_colorspace : string;
  img_filepath_raw : string;
  img_file_format : string
}.

Inductive NodeKind :=
| OUTPUT_MATERIAL | TEX_IMAGE | BSDF_PRINCIPLED | NORMAL_MAP | OTHER_NODE.

Record Node := {
  node_id : nat;
  node_type : NodeKind;
  node_location : Z * Z;
  node_image : option string
}.

Record Link := {
  from_node : nat;
  from_socket : string;
  to_node : nat;
  to_socket : string
}.

Record NodeTree := {
  nodes : list Node;
  links : list Link;
  nodes_active : option nat
}.

(** ** The add-on's property groups *)

Inductive Format := FBX | GLTF | OBJ.
Inductive GltfFormat := GLTF_SEPARATE | GLTF_EMBEDDED | GLB.
Inductive Software := UNREAL.
Inductive Device := CPU | GPU.
Inductive BakeType := DIFFUSE | NORMAL | ROUGHNESS | GLOSSY | ALPHA.
Inductive Engine := CYCLES | BLENDER_EEVEE | BLENDER_WORKBENCH.

Record ExportDataGroup := {
  simplifier_export_dir : string;
  simplifier_format : Format;
  simplifier_gltf_format : GltfFormat;
  simplifier_software : Software;
  simplifier_unwrap : bool;
  simplifier_bake : bool
}.

Record BakeDataGroup := {
  baker_texture_name : string;
  baker_width : Z;
  baker_use_texture : bool;
  baker_height : Z;
  baker_bake_types : list BakeType;
  baker_device : Device;
  baker_export_after : bool
}.

Record MaterialDataGroup := {
  item_name : string;
  item_material : option string;
  item_selected : bool
}.

(** One call of a host exporter, as it is observed from outside:
    the function, the target file, the keyword arguments and the names of
    the objects that were selected when it ran ([use_selection=True]). *)
Record ExportCall := {
  ec_func : string;
  ec_filepath : string;
  ec_kwargs : gmap string pyval;
  ec_objects : list string
}.

Record BakeKwargs := {
  bk_type : string;
  bk_pass_filter : option string;
  bk_margin : Z;
  bk_width : Z;
  bk_height : Z;
  bk_target : string;
  bk_use_clear : bool
}.

(** ** The world *)

Record Scene := {
  objects : list Object;
  active : option string;
  mode : Mode;
  collections : list (string * list string);
  render_engine : Engine;
  cycles_device : Device;
  model_unwrapped : bool;
  simplifier : ExportDataGroup;
  baker : BakeDataGroup;
  material_group : list MaterialDataGroup;
  custom_index : Z
}.

Record BData := {
  images : list Image;
  trees : gmap string NodeTree;
  next_node : nat
}.

(** The environment: file system, host oracles and what the host was
    asked to do.  [blend_filepath] is [bpy.data.filepath]; [fs_readonly]
    lists the directories whose creation is refused with
    [PermissionError]; [bake_failing] the bake pass types on which the
    host's bake raises [RuntimeError]; [export_failing] the target files
    on which a host exporter raises [RuntimeError]. *)
Record Env := {
  blend_filepath : string;
  fs_exists : list string;
  fs_readonly : list string;
  fs_files : list string;
  bake_failing : list string;
  export_failing : list string;
  bake_log : list BakeKwargs;
  export_log : list ExportCall;
  reports : list (level * string)
}.

(** Attributes of the running bake operator instance. *)
Record BakeSelf := {
  texture_nodes : list (string * list (string * nat));
  textures_to_create : list string
}.

Record World := {
  scene : Scene;
  data : BData;
  env : Env;
  self : BakeSelf
}.

(** *** Field updates *)

Definition set_objects (x : list Object) (s : Scene) : Scene :=
  {| objects := x; active := active s; mode := mode s; collections := collections s;
     render_engine := render_engine s; cycles_device := cycles_device s;
     model_unwrapped := model_unwrapped s; simplifier := simplifier s; baker := baker s;
     material_group := material_group s; custom_index := custom_index s |}.

Definition set_active (x : option string) (s : Scene) : Scene :=
  {| objects := objects s; active := x; mode := mode s; collections := collections s;
     render_engine := render_engine s; cycles_device := cycles_device s;
     model_unwrapped := model_unwrapped s; simplifier := simplifier s; baker := baker s;
     material_group := material_group s; custom_index := custom_index s |}.

Definition set_mode (x : Mode) (s : Scene) : Scene :=
  {| objects := objects s; active := active s; mode := x; collections := collections s;
     render_engine := render_engine s; cycles_device := cycles_device s;
     model_unwrapped := model_unwrapped s; simplifier := simplifier s; baker := baker s;
     material_group := material_group s; custom_index := custom_index s |}.

Definition set_render_engine (x : Engine) (s : Scene) : Scene :=
  {| objects := objects s; active := active s; mode := mode s; collections := collections s;
     render_engine := x; cycles_device := cycles_device s;
     model_unwrapped := model_unwrapped s; simplifier := simplifier s; baker := baker s;
     material_group := material_group s; custom_index := custom_index s |}.

Definition set_cycles_device (x : Device) (s : Scene) : Scene :=
  {| objects := objects s; active := active s; mode := mode s; collections := collections s;
     render_engine := render_engine s; cycles_device := x;
     model_unwrapped := model_unwrapped s; simplifier := simplifier s; baker := baker s;
     material_group := material_group s; custom_index := custom_index s |}.

Definition set_model_unwrapped (x : bool) (s : Scene) : Scene :=
  {| objects := objects s; active := active s; mode := mode s; collections := collections s;
     render_engine := render_engine s; cycles_device := cycles_device s;
     model_unwrapped := x; simplifier := simplifier s; baker := baker s;
     material_group := material_group s; custom_index := custom_index s |}.

Definition set_material_group (x : list MaterialDataGroup) (s : Scene) : Scene :=
  {| objects := objects s; active := active s; mode := mode s; collections := collections s;
     render_engine := render_engine s; cycles_device := cycles_device s;
     model_unwrapped := model_unwrapped s; simplifier := simplifier s; baker := baker s;
     material_group := x; custom_index := custom_index s |}.

Definition set_images (x : list Image) (d : BData) : BData :=
  {| images := x; trees := trees d; next_node := next_node d |}.

Definition set_trees (x : gmap string NodeTree) (d : BData) : BData :=
  {| images := images d; trees := x; next_node := next_node d |}.

Definition set_next_node (x : nat) (d : BData) : BData :=
  {| images := images d; trees := trees d; next_node := x |}.

Definition set_fs_exists (x : list string) (e : Env) : Env :=
  {| blend_filepath := blend_filepath e; fs_exists := x;
     fs_readonly := fs_readonly e; fs_files := fs_files e;
     bake_failing := bake_failing e; export_failing := export_failing e;
     bake_log := bake_log e; export_log := export_log e; reports := reports e |}.

Definition set_fs_files (x : list string) (e : Env) : Env :=
  {| blend_filepath := blend_filepath e; fs_exists := fs_exists e;
     fs_readonly := fs_readonly e; fs_files := x;
     bake_failing := bake_failing e; export_failing := export_failing e;
     bake_log := bake_log e; export_log := export_log e; reports := reports e |}.

Definition set_bake_log (x : list BakeKwargs) (e : Env) : Env :=
  {| blend_filepath := blend_filepath e; fs_exists := fs_exists e;
     fs_readonly := fs_readonly e; fs_files := fs_files e;
     bake_failing := bake_failing e; export_failing := export_failing e;
     bake_log := x; export_log := export_log e; reports := reports e |}.

Definition set_export_log (x : list ExportCall) (e : Env) : Env :=
  {| blend_filepath := blend_filepath e; fs_exists := fs_exists e;
     fs_readonly := fs_readonly e; fs_files := fs_files e;
     bake_failing := bake_failing e; export_failing := export_failing e;
     bake_log := bake_log e; export_log := x; reports := reports e |}.

Definition set_reports (x : list (level * string)) (e : Env) : Env :=
  {| blend_filepath := blend_filepath e; fs_exists := fs_exists e;
     fs_readonly := fs_readonly e; fs_files := fs_files e;
     bake_failing := bake_failing e; export_failing := export_failing e;
     bake_log := bake_log e; export_log := export_log e; reports := x |}.

Definition set_texture_nodes (x : list (string * list (string * nat))) (b : BakeSelf) : BakeSelf :=
  {| texture_nodes := x; textures_to_create := textures_to_create b |}.

Definition set_textures_to_create (x : list string) (b : BakeSelf) : BakeSelf :=
  {| texture_nodes := texture_nodes b; textures_to_create := x |}.

Definition on_scene (f : Scene -> Scene) (w : World) : World :=
  {| scene := f (scene w); data := data w; env := env w; self := self w |}.

Definition on_data (f : BData -> BData) (w : World) : World :=
  {| scene := scene w; data := f (data w); env := env w; self := self w |}.

Definition on_env (f : Env -> Env) (w : World) : World :=
  {| scene := scene w; data := data w; env := f (env w); self := self w |}.

Definition on_self (f : BakeSelf -> BakeSelf) (w : World) : World :=
  {| scene := scene w; data := data w; env := env w; self := f (self w) |}.

(** ** The state-and-exception monad

    A Python exception leaves the mutations made so far in place, so a
    computation always returns the world it reached, together with either
    a value or the exception that is propagating. *)

Definition Py (A : Type) : Type := World -> World * res A.

Definition ret {A} (a : A) : Py A := fun w => (w, Ret a).

Definition bind {A B} (m : Py A) (k : A -> Py B) : Py B :=
  fun w =>
    match m w with
    | (w1, Ret a) => k a w1
    | (w1, Raise e) => (w1, Raise e)
    end.

Definition raise {A} (e : exn) : Py A := fun w => (w, Raise e).

Definition gets {A} (f : World -> A) : Py A := fun w => (w, Ret (f w)).

Definition modify (f : World -> World) : Py unit := fun w => (f w, Ret tt).

Notation "x <- m ;; k" := (bind m (fun x => k))
  (at level 100, m at next level, right associativity, only parsing).
Notation "m ;;; k" := (bind m (fun _ => k))
  (at level 100, right associativity, only parsing).

(** [try: m except E: h] where [handler e] is [Some h] for the exception
    classes the clause names. *)
Definition try_except {A} (m : Py A) (handler : exn -> option (Py A)) : Py A :=
  fun w =>
    match m w with
    | (w1, Ret a) => (w1, Ret a)
    | (w1, Raise e) =>
        match handler e with
        | Some h => h w1
        | None => (w1, Raise e)
        end
    end.

(** [try: m finally: f]. *)
Definition try_finally {A} (m : Py A) (f : Py unit) : Py A :=
  fun w =>
    match m w with
    | (w1, r) =>
        match f w1 with
        | (w2, Ret _) => (w2, r)
        | (w2, Raise e) => (w2, Raise e)
        end
    end.

(** A [for] loop whose body has no [return]. *)
Fixpoint for_ {A} (l : list A) (body : A -> Py unit) : Py unit :=
  match l with
  | [] => ret tt
  | x :: l' => bind (body x) (fun _ => for_ l' body)
  end.

(** A [for] loop whose body may [return r] from the enclosing function:
    the body yields [Some r] to return, [None] to go on. *)
Fixpoint for_return {A R} (l : list A) (body : A -> Py (option R)) : Py (option R) :=
  match l with
  | [] => ret None
  | x :: l' =>
      bind (body x) (fun r =>
        match r with
        | Some v => ret (Some v)
        | None => for_return l' body
        end)
  end.

Definition when (b : bool) (m : Py unit) : Py unit := if b then m else ret tt.

(** [self.report({level}, msg)] *)
Definition report (l : level) (msg : string) : Py unit :=
  modify (on_env (fun e => set_reports (reports e ++ [(l, msg)]) e)).

(** ** Insertion-ordered dictionaries, as the bake operator uses them *)

Fixpoint dict_get {V} (k : string) (d : list (string * V)) : option V :=
  match d with
  | [] => None
  | (k', v) :: d' => if String.eqb k k' then Some v else dict_get k d'
  end.

Fixpoint dict_set {V} (k : string) (v : V) (d : list (string * V)) : list (string * V) :=
  match d with
  | [] => [(k, v)]
  | (k', v') :: d' => if String.eqb k k' then (k, v) :: d' else (k', v') :: dict_set k v d'
  end.

Definition dict_values {V} (d : list (string * V)) : list V := map snd d.

Definition str_in (s : string) (l : list string) : bool := existsb (String.eqb s) l.

(** ** Host primitives: objects and selection *)

Definition obj_with_selected (b : bool) (o : Object) : Object :=
  {| obj_name := obj_name o; obj_type := obj_type o; obj_visible := obj_visible o;
     obj_selected := b; obj_location := obj_location o; obj_rotation := obj_rotation o;
     obj_scale := obj_scale o; obj_uv_layers := obj_uv_layers o;
     obj_material_slots := obj_material_slots o;
     obj_users_collection0 := obj_users_collection0 o;
     obj_active_material_index := obj_active_material_index o |}.

Definition obj_with_name (n : string) (o : Object) : Object :=
  {| obj_name := n; obj_type := obj_type o; obj_visible := obj_visible o;
     obj_selected := obj_selected o; obj_location := obj_location o;
     obj_rotation := obj_rotation o; obj_scale := obj_scale o;
     obj_uv_layers := obj_uv_layers o; obj_material_slots := obj_material_slots o;
     obj_users_collection0 := obj_users_collection0 o;
     obj_active_material_index := obj_active_material_index o |}.

Definition obj_with_transform (loc rot scl : vec3) (o : Object) : Object :=
  {| obj_name := obj_name o; obj_type := obj_type o; obj_visible := obj_visible o;
     obj_selected := obj_selected o; obj_location := loc; obj_rotation := rot;
     obj_scale := scl; obj_uv_layers := obj_uv_layers o;
     obj_material_slots := obj_material_slots o;
     obj_users_collection0 := obj_users_collection0 o;
     obj_active_material_index := obj_active_material_index o |}.

Definition obj_with_uv_layers (l : list UVLayer) (o : Object) : Object :=
  {| obj_name := obj_name o; obj_type := obj_type o; obj_visible := obj_visible o;
     obj_selected := obj_selected o; obj_location := obj_location o;
     obj_rotation := obj_rotation o; obj_scale := obj_scale o; obj_uv_layers := l;
     obj_material_slots := obj_material_slots o;
     obj_users_collection0 := obj_users_collection0 o;
     obj_active_material_index := obj_active_material_index o |}.

Definition obj_with_active_material_index (i : Z) (o : Object) : Object :=
  {| obj_name := obj_name o; obj_type := obj_type o; obj_visible := obj_visible o;
     obj_selected := obj_selected o; obj_location := obj_location o;
     obj_rotation := obj_rotation o; obj_scale := obj_scale o;
     obj_uv_layers := obj_uv_layers o; obj_material_slots := obj_material_slots o;
     obj_users_collection0 := obj_users_collection0 o;
     obj_active_material_index := i |}.

Definition is_mesh (o : Object) : bool :=
  match obj_type o with MESH => true | _ => false end.

Definition named (n : string) (o : Object) : bool := String.eqb (obj_name o) n.

(** [bpy.context.selected_objects] *)
Definition selected_objects (w : World) : list Object :=
  List.filter obj_selected (objects (scene w)).

(** [bpy.context.active_object], [bpy.context.object] and
    [bpy.context.view_layer.objects.active] *)
Definition active_object (w : World) : option Object :=
  match active (scene w) with
  | Some n => List.find (named n) (objects (scene w))
  | None => None
  end.

Definition set_objs (f : list Object -> list Object) : Py unit :=
  modify (on_scene (fun s => set_objects (f (objects s)) s)).

(** Update the first object that carries the name: [bpy.data.objects[name]]. *)
Fixpoint update_named (n : string) (f : Object -> Object) (l : list Object) : list Object :=
  match l with
  | [] => []
  | o :: l' => if named n o then f o :: l' else o :: update_named n f l'
  end.

(** [bpy.data.objects[name].select_set(b)] *)
Definition select_set (n : string) (b : bool) : Py unit :=
  w <- gets (fun w => w) ;;
  match List.find (named n) (objects (scene w)) with
  | Some _ => set_objs (update_named n (obj_with_selected b))
  | None => raise KeyError
  end.

Definition zero3 : vec3 := (0%Q, 0%Q, 0%Q).
Definition one3 : vec3 := (1%Q, 1%Q, 1%Q).

(** [bpy.ops.object.transform_apply]: the chosen transform components of
    every selected object are applied to its data and reset. *)
Definition ops_object_transform_apply (location rotation scale : bool) : Py unit :=
  set_objs (map (fun o =>
    if obj_selected o then
      obj_with_transform
        (if location then zero3 else obj_location o)
        (if rotation then zero3 else obj_rotation o)
        (if scale then one3 else obj_scale o) o
    else o)).

(** [bpy.ops.object.mode_set]: the operator's poll needs an active object. *)
Definition ops_object_mode_set (m : Mode) : Py unit :=
  w <- gets (fun w => w) ;;
  match active_object w with
  | Some _ => modify (on_scene (set_mode m))
  | None => raise RuntimeError
  end.

(** [bpy.ops.mesh.select_all]: mesh elements are not part of the model. *)
Definition ops_mesh_select_all : Py unit := ret tt.

Definition smart_uv (margin : Q) (l : list UVLayer) : list UVLayer :=
  match l with
  | [] => [ {| uv_name := "UVMap"; uv_smart := Some margin |} ]
  | u :: l' => {| uv_name := uv_name u; uv_smart := Some margin |} :: l'
  end.

(** [bpy.ops.uv.smart_project]: the meshes being edited (the active
    object and the selected ones) get their active UV map rewritten. *)
Definition ops_uv_smart_project (island_margin : Q) : Py unit :=
  w <- gets (fun w => w) ;;
  set_objs (map (fun o =>
    if is_mesh o && (obj_selected o ||
         match active (scene w) with Some n => named n o | None => false end)
    then obj_with_uv_layers (smart_uv island_margin (obj_uv_layers o)) o
    else o)).

(** A name the host has not used yet, for a duplicate. *)
Fixpoint fresh_name (fuel : nat) (used : list string) (cand : string) : string :=
  if str_in cand used then
    match fuel with
    | O => cand
    | S fuel' => fresh_name fuel' used (cand +:+ ".001")
    end
  else cand.

Fixpoint duplicates (used : list string) (sel : list Object) : list (string * Object) :=
  match sel with
  | [] => []
  | o :: sel' =>
      let n := fresh_name (List.length used) used (obj_name o +:+ ".001") in
      (obj_name o, obj_with_name n o) :: duplicates (n :: used) sel'
  end.

(** [bpy.ops.object.duplicate(linked=False)]: every selected object is
    copied; the copies become the selection, and the copy of the active
    object becomes active. *)
Definition ops_object_duplicate : Py unit :=
  w <- gets (fun w => w) ;;
  let objs := objects (scene w) in
  let dups := duplicates (map obj_name objs) (List.filter obj_selected objs) in
  set_objs (fun l => map (obj_with_selected false) l ++ map snd dups) ;;;
  match active (scene w) with
  | Some a =>
      match dict_get a dups with
      | Some d => modify (on_scene (set_active (Some (obj_name d))))
      | None => ret tt
      end
  | None => ret tt
  end.

(** [bpy.ops.object.delete()]: the selected objects leave the scene. *)
Definition ops_object_delete : Py unit :=
  w <- gets (fun w => w) ;;
  set_objs (List.filter (fun o => negb (obj_selected o))) ;;;
  match active_object w with
  | Some o => when (obj_selected o) (modify (on_scene (set_active None)))
  | None => ret tt
  end.

(** A host exporter ([bpy.ops.export_scene.*], [bpy.ops.export_mesh.stl],
    [bpy.ops.wm.usd_export]) called with [use_selection=True]. *)
Definition ops_export (func filepath : string) (kwargs : gmap string pyval) : Py unit :=
  w <- gets (fun w => w) ;;
  if str_in filepath (export_failing (env w)) then raise RuntimeError
  else
    modify (on_env (fun e =>
      set_fs_files (fs_files e ++ [filepath])
        (set_export_log
           (export_log e ++
              [ {| ec_func := func; ec_filepath := filepath; ec_kwargs := kwargs;
                   ec_objects := map obj_name (selected_objects w) |} ]) e))).

(** [bpy.ops.object.bake] with the keyword arguments of one channel. *)
Definition ops_object_bake (kwargs : BakeKwargs) : Py unit :=
  w <- gets (fun w => w) ;;
  if str_in (bk_type kwargs) (bake_failing (env w)) then raise RuntimeError
  else modify (on_env (fun e => set_bake_log (bake_log e ++ [kwargs]) e)).

(** ** Host primitives: file system *)

Definition os_path_exists (p : string) : Py bool :=
  gets (fun w => str_in p (fs_exists (env w))).

Definition os_makedirs (p : string) : Py unit :=
  w <- gets (fun w => w) ;;
  if str_in p (fs_readonly (env w)) then raise PermissionError
  else modify (on_env (fun e => set_fs_exists (fs_exists e ++ [p]) e)).

(** ** Host primitives: images *)

Definition img_named (n : string) (i : Image) : bool := String.eqb (img_name i) n.

(** [bpy.data.images.new(name, width, height, alpha=False)]; the host
    clamps the size into its valid range. *)
Definition images_new (name : string) (width height : Z) : Py unit :=
  modify (on_data (fun d =>
    set_images (images d ++
      [ {| img_name := name; img_size := (Z.max 1 width, Z.max 1 height);
           img_colorspace := "sRGB"; img_filepath_raw := "";
           img_file_format := "TARGA" |} ]) d)).

(** [bpy.data.images[name]] *)
Definition images_get (name : string) : Py Image :=
  w <- gets (fun w => w) ;;
  match List.find (img_named name) (images (data w)) with
  | Some i => ret i
  | None => raise KeyError
  end.

Fixpoint update_image (n : string) (f : Image -> Image) (l : list Image) : list Image :=
  match l with
  | [] => []
  | i :: l' => if img_named n i then f i :: l' else i :: update_image n f l'
  end.

Definition set_image (n : string) (f : Image -> Image) : Py unit :=
  modify (on_data (fun d => set_images (update_image n f (images d)) d)).

(** ** Host primitives: shading graphs

    A node tree is reached through its material, so the material's name
    stands for the tree.  Node references are the identifiers the host
    hands out, never reused; using a reference whose node has left the
    tree is the host's [ReferenceError]. *)

Definition get_tree (t : string) : Py NodeTree :=
  w <- gets (fun w => w) ;;
  match trees (data w) !! t with
  | Some nt => ret nt
  | None => raise ReferenceError
  end.

Definition put_tree (t : string) (nt : NodeTree) : Py unit :=
  modify (on_data (fun d => set_trees (<[t := nt]> (trees d)) d)).

Definition node_is (i : nat) (n : Node) : bool := Nat.eqb (node_id n) i.

Definition get_node (t : string) (i : nat) : Py Node :=
  nt <- get_tree t ;;
  match List.find (node_is i) (nodes nt) with
  | Some n => ret n
  | None => raise ReferenceError
  end.

(** [node_tree.nodes.new(type)] *)
Definition nodes_new (t : string) (kind : NodeKind) : Py nat :=
  nt <- get_tree t ;;
  i <- gets (fun w => next_node (data w)) ;;
  put_tree t {| nodes := nodes nt ++
                  [ {| node_id := i; node_type := kind; node_location := (0, 0);
                       node_image := None |} ];
                links := links nt; nodes_active := nodes_active nt |} ;;;
  modify (on_data (set_next_node (S i))) ;;;
  ret i.

(** [node_tree.nodes.remove(node)]: the node goes, and its links with it. *)
Definition nodes_remove (t : string) (i : nat) : Py unit :=
  _ <- get_node t i ;;
  nt <- get_tree t ;;
  put_tree t
    {| nodes := List.filter (fun n => negb (node_is i n)) (nodes nt);
       links := List.filter
                  (fun l => negb (Nat.eqb (from_node l) i || Nat.eqb (to_node l) i))
                  (links nt);
       nodes_active := match nodes_active nt with
                       | Some a => if Nat.eqb a i then None else Some a
                       | None => None
                       end |}.

Definition update_node (t : string) (i : nat) (f : Node -> Node) : Py unit :=
  _ <- get_node t i ;;
  nt <- get_tree t ;;
  put_tree t {| nodes := map (fun n => if node_is i n then f n else n) (nodes nt);
                links := links nt; nodes_active := nodes_active nt |}.

Definition set_location (t : string) (i : nat) (loc : Z * Z) : Py unit :=
  update_node t i (fun n =>
    {| node_id := node_id n; node_type := node_type n; node_location := loc;
       node_image := node_image n |}).

Definition set_node_image (t : string) (i : nat) (img : string) : Py unit :=
  update_node t i (fun n =>
    {| node_id := node_id n; node_type := node_type n;
       node_location := node_location n; node_image := Some img |}).

(** [nodes.active = node] *)
Definition set_nodes_active (t : string) (i : nat) : Py unit :=
  _ <- get_node t i ;;
  nt <- get_tree t ;;
  put_tree t {| nodes := nodes nt; links := links nt; nodes_active := Some i |}.

(** Socket names behind the indices the add-on uses (Blender 3.0). *)
Definition output_socket (k : NodeKind) (i : nat) : option string :=
  match k, i with
  | TEX_IMAGE, O => Some "Color"
  | BSDF_PRINCIPLED, O => Some "BSDF"
  | NORMAL_MAP, O => Some "Normal"
  | _, _ => None
  end.

Definition input_socket (k : NodeKind) (i : nat) : option string :=
  match k with
  | OUTPUT_MATERIAL => if Nat.eqb i 0 then Some "Surface" else None
  | BSDF_PRINCIPLED =>
      if Nat.eqb i 0 then Some "Base Color"
      else if Nat.eqb i 9 then Some "Roughness"
      else if Nat.eqb i 21 then Some "Alpha"
      else if Nat.eqb i 22 then Some "Normal"
      else None
  | NORMAL_MAP => if Nat.eqb i 1 then Some "Color" else None
  | _ => None
  end.

(** [node_tree.links.new(from.outputs[s], to.inputs[s'])]: an input takes
    one link, so a link already ending there is replaced. *)
Definition links_new (t : string) (src : nat) (src_socket : string)
    (dst : nat) (dst_socket : string) : Py unit :=
  _ <- get_node t src ;;
  _ <- get_node t dst ;;
  nt <- get_tree t ;;
  put_tree t
    {| nodes := nodes nt;
       links := List.filter
                  (fun l => negb (Nat.eqb (to_node l) dst && String.eqb (to_socket l) dst_socket))
                  (links nt) ++
                [ {| from_node := src; from_socket := src_socket;
                     to_node := dst; to_socket := dst_socket |} ];
       nodes_active := nodes_active nt |}.

(** [links.new(a.outputs[i], b.inputs[j])] with sockets chosen by index. *)
Definition links_new_idx (t : string) (src i dst j : nat) : Py unit :=
  a <- get_node t src ;;
  b <- get_node t dst ;;
  match output_socket (node_type a) i, input_socket (node_type b) j with
  | Some s, Some s' => links_new t src s dst s'
  | _, _ => raise IndexError
  end.

(** [material.use_nodes = True]: a material without a node tree gets the
    host's default one (a principled shader wired to a material output). *)
Definition material_use_nodes (m : string) : Py unit :=
  w <- gets (fun w => w) ;;
  match trees (data w) !! m with
  | Some _ => ret tt
  | None =>
      let i := next_node (data w) in
      put_tree m
        {| nodes := [ {| node_id := i; node_type := BSDF_PRINCIPLED;
                         node_location := (10, 300); node_image := None |};
                      {| node_id := S i; node_type := OUTPUT_MATERIAL;
                         node_location := (300, 300); node_image := None |} ];
           links := [ {| from_node := i; from_socket := "BSDF";
                         to_node := S i; to_socket := "Surface" |} ];
           nodes_active := None |} ;;;
      modify (on_data (set_next_node (S (S i))))
  end.

(** * export_simplifier.py *)

Definition create_subdir (name : string) (path : option string) : Py string :=
  w <- gets (fun w => w) ;;
  let path := if truthy path then default "" path
              else simplifier_export_dir (simplifier (scene w)) in
  let sub_dir := path_join path name in
  ex <- os_path_exists sub_dir ;;
  if negb ex then
    r <- try_except (os_makedirs sub_dir ;;; ret None)
           (fun e => match e with
                     | PermissionError => Some (ret (Some ""))
                     | _ => None
                     end) ;;
    match r with
    | Some s => ret s
    | None => ret sub_dir
    end
  else ret sub_dir.

Definition unwrap : Py unit :=
  unwrapped <- gets (fun w => model_unwrapped (scene w)) ;;
  if negb unwrapped then
    ops_object_transform_apply false false true ;;;
    ops_object_mode_set EDIT ;;;
    ops_mesh_select_all ;;;
    ops_uv_smart_project (6 # 100) ;;;
    ops_object_mode_set OBJECT ;;;
    modify (on_scene (set_model_unwrapped true))
  else ret tt.

Module SIMPLIFIER_OT_update_material_list.

(** The first loop of [execute]: [old_selection[mat.material.name] = mat.selected]. *)
Fixpoint save_selection (group : list MaterialDataGroup) (old_selection : gmap string bool)
    : res (gmap string bool) :=
  match group with
  | [] => Ret old_selection
  | mat :: group' =>
      match item_material mat with
      | Some name => save_selection group' (<[name := item_selected mat]> old_selection)
      | None => Raise AttributeError
      end
  end.

Definition slot_name (slot : option string) : string := default "" slot.

Definition was_selected (old_selection : gmap string bool) (name : string) : bool :=
  match old_selection !! name with
  | Some true => true
  | _ => false
  end.

Definition add_item (old_selection : gmap string bool) (slot : option string) : Py unit :=
  modify (on_scene (fun s =>
    set_material_group
      (material_group s ++
         [ {| item_name := slot_name slot; item_material := slot;
              item_selected := was_selected old_selection (slot_name slot) |} ]) s)).

Definition execute : Py status :=
  w <- gets (fun w => w) ;;
  match save_selection (material_group (scene w)) ∅ with
  | Raise e => raise e
  | Ret old_selection =>
      modify (on_scene (set_material_group [])) ;;;
      match active_object w with
      | None => ret FINISHED
      | Some active_obj =>
          set_objs (update_named (obj_name active_obj)
                      (obj_with_active_material_index (custom_index (scene w)))) ;;;
          for_ (obj_material_slots active_obj) (add_item old_selection) ;;;
          ret FINISHED
      end
  end.

End SIMPLIFIER_OT_update_material_list.

Definition format_id (f : Format) : string :=
  match f with FBX => "FBX" | GLTF => "GLTF" | OBJ => "OBJ" end.

Definition gltf_format_id (f : GltfFormat) : string :=
  match f with
  | GLTF_SEPARATE => "GLTF_SEPARATE"
  | GLTF_EMBEDDED => "GLTF_EMBEDDED"
  | GLB => "GLB"
  end.

Module SIMPLIFIER_OT_export.

Definition deselect_all_objects : Py unit :=
  set_objs (map (obj_with_selected false)).

Definition select_object (name : string) : Py unit :=
  deselect_all_objects ;;;
  select_set name true.

Definition correct_origin (obj : string) : Py unit :=
  set_objs (update_named obj
              (fun o => obj_with_transform zero3 (obj_rotation o) (obj_scale o) o)).

Definition apply_transform : Py unit :=
  ops_object_transform_apply true true true.

Definition export_unreal (obj_dir name : string) : Py unit :=
  w <- gets (fun w => w) ;;
  let data := simplifier (scene w) in
  let objects := selected_objects w in
  let extension :=
    match simplifier_format data, simplifier_gltf_format data with
    | GLTF, GLB => "glb"
    | f, _ => lower (format_id f)
    end in
  let target_file := path_join obj_dir (name +:+ "." +:+ extension) in
  let origin :=
    match objects with
    | [o] => correct_origin (obj_name o)
    | _ => ret tt
    end in
  match simplifier_format data with
  | FBX =>
      origin ;;;
      when (simplifier_unwrap data) unwrap ;;;
      ops_export "export_scene.fbx" target_file
        (list_to_map [("use_selection", PBool true); ("mesh_smooth_type", PStr "FACE");
                      ("bake_space_transform", PBool true)])
  | OBJ =>
      origin ;;;
      when (simplifier_unwrap data) unwrap ;;;
      ops_export "export_scene.obj" target_file
        (list_to_map [("use_selection", PBool true); ("axis_forward", PStr "Y");
                      ("axis_up", PStr "Z"); ("global_scale", PNum 100)])
  | GLTF =>
      origin ;;;
      apply_transform ;;;
      when (simplifier_unwrap data) unwrap ;;;
      ops_export "export_scene.gltf" target_file
        (list_to_map [("use_selection", PBool true); ("export_apply", PBool true);
                      ("export_format", PStr (gltf_format_id (simplifier_gltf_format data)))])
  end.

(** Deletes the duplicated objects. *)
Definition clean_up : Py unit := ops_object_delete.

Definition perform_export : Py bool :=
  w <- gets (fun w => w) ;;
  match selected_objects w with
  | [] => raise IndexError
  | first :: _ =>
      let name := obj_name first in
      ops_object_duplicate ;;;
      obj_dir <- create_subdir name
                   (Some (simplifier_export_dir (simplifier (scene w)))) ;;
      if String.eqb obj_dir "" then
        report ERROR "Cannot access chosen dir." ;;;
        clean_up ;;;
        ret false
      else
        match simplifier_software (simplifier (scene w)) with
        | UNREAL => export_unreal obj_dir name
        end ;;;
        clean_up ;;;
        ret true
  end.

Definition set_original_configuration (mode : Mode) (selected : list string)
    (active : option string) : Py unit :=
  for_ selected select_object ;;;
  modify (on_scene (set_active active)) ;;;
  ops_object_mode_set mode.

Definition execute : Py status :=
  modify (on_scene (set_model_unwrapped false)) ;;;
  w <- gets (fun w => w) ;;
  if Nat.eqb (List.length (selected_objects w)) 0 then
    report ERROR "No models selected, please select models you want to export" ;;;
    ret CANCELLED
  else
    match active_object w with
    | None => raise AttributeError
    | Some _ =>
        let current_mode := mode (scene w) in
        let active_obj := active (scene w) in
        let selected_objects := map obj_name (selected_objects w) in
        when (match current_mode with OBJECT => false | _ => true end)
          (ops_object_mode_set OBJECT) ;;;
        ok <- perform_export ;;
        if negb ok then
          set_original_configuration current_mode selected_objects active_obj ;;;
          ret CANCELLED
        else
          set_original_configuration current_mode selected_objects active_obj ;;;
          report INFO "Model successfully exported" ;;;
          ret FINISHED
    end.

End SIMPLIFIER_OT_export.

(** [bpy.ops.simplifier.export()] called from a script: a Python exception
    inside the operator, or an error it reported, reaches the caller as
    [RuntimeError]. *)
Definition ops_simplifier_export : Py status :=
  fun w =>
    match SIMPLIFIER_OT_export.execute w with
    | (w1, Ret s) =>
        if existsb (fun r => match fst r with ERROR => true | INFO => false end)
             (skipn (List.length (reports (env w))) (reports (env w1)))
        then (w1, Raise RuntimeError)
        else (w1, Ret s)
    | (w1, Raise _) => (w1, Raise RuntimeError)
    end.

Definition bake_type_id (t : BakeType) : string :=
  match t with
  | DIFFUSE => "DIFFUSE"
  | NORMAL => "NORMAL"
  | ROUGHNESS => "ROUGHNESS"
  | GLOSSY => "GLOSSY"
  | ALPHA => "ALPHA"
  end.

(** A deferred reconnection of a material output, one per closure the
    bake operator stores: the synthesized shader ([None] while the
    closure's variable was never bound) or the node that fed the output
    before. *)
Inductive Reconnect :=
| ConnectNew (node_tree : string) (principled_node : option nat) (output_node : nat)
| ConnectOld (node_tree : string) (old_node : nat) (old_socket : string) (output_node : nat).

Record ConnectToOutputs := {
  connect_new : list Reconnect;
  connect_old : list Reconnect
}.

Definition run_connect (c : Reconnect) : Py unit :=
  match c with
  | ConnectNew t (Some p) out => links_new_idx t p 0 out 0
  | ConnectNew t None out => raise NameError
  | ConnectOld t old s out =>
      _ <- get_node t old ;;
      b <- get_node t out ;;
      match input_socket (node_type b) 0 with
      | Some s' => links_new t old s out s'
      | None => raise IndexError
      end
  end.

Module SIMPLIFIER_OT_bake.

(** The loop of [texture_exists] over [bpy.data.images]. *)
Fixpoint texture_exists_in (imgs : list Image) (texture_name : string) (width height : Z)
    : res bool :=
  match imgs with
  | [] => Ret false
  | img :: imgs' =>
      if String.eqb (img_name img) texture_name &&
         (fst (img_size img) =? width) && (snd (img_size img) =? height)
      then Ret true
      else if String.eqb (img_name img) texture_name &&
              (negb (fst (img_size img) =? width) || negb (snd (img_size img) =? height))
      then Raise AttributeError
      else texture_exists_in imgs' texture_name width height
  end.

Definition texture_exists (texture_name : string) : Py bool :=
  fun w =>
    (w, texture_exists_in (images (data w)) texture_name
          (baker_width (baker (scene w))) (baker_height (baker (scene w)))).

(** The body of the loop of [generate_texture] for one channel. *)
Definition generate_one (texture_name map_name : string) : Py (option bool) :=
  try_except
    (ex <- texture_exists (texture_name +:+ "_" +:+ map_name) ;;
     w <- gets (fun w => w) ;;
     when (negb ex)
       (images_new (texture_name +:+ "_" +:+ map_name)
          (baker_width (baker (scene w))) (baker_height (baker (scene w)))) ;;;
     ret None)
    (fun e =>
       match e with
       | AttributeError =>
           Some (report ERROR
                   "Cannot change resolution of existing texture, delete texture in Blender or use another name." ;;;
                 ret (Some false))
       | _ => None
       end).

Definition generate_texture (texture_name : string) : Py bool :=
  w <- gets (fun w => w) ;;
  if String.eqb (strip (baker_texture_name (baker (scene w)))) "" then
    report ERROR "No texture name set." ;;;
    ret false
  else
    modify (on_self (set_textures_to_create
      (remove_dups (map (fun t => lower (bake_type_id t))
                      (baker_bake_types (baker (scene w))))))) ;;;
    maps <- gets (fun w => textures_to_create (self w)) ;;
    r <- for_return maps (generate_one texture_name) ;;
    match r with
    | Some b => ret b
    | None => ret true
    end.

Definition clean_up (specific_texture : option string) : Py unit :=
  tn <- gets (fun w => texture_nodes (self w)) ;;
  for_ tn (fun '(node_tree, node_dict) =>
    if negb (truthy specific_texture) then
      for_ (dict_values node_dict) (nodes_remove node_tree)
    else
      match dict_get (default "" specific_texture) node_dict with
      | Some node => nodes_remove node_tree node
      | None => raise KeyError
      end).

(** The body of the last loop of [save_textures]. *)
Definition save_one (node_tree texture_dir : string) (tex_node : nat) : Py unit :=
  n <- get_node node_tree tex_node ;;
  match node_type n with
  | TEX_IMAGE =>
      match node_image n with
      | None => raise AttributeError
      | Some img =>
          set_image img (fun i =>
            {| img_name := img_name i; img_size := img_size i;
               img_colorspace := img_colorspace i;
               img_filepath_raw := path_join texture_dir (img_name i +:+ ".png");
               img_file_format := "PNG" |}) ;;;
          modify (on_env (fun e =>
            set_fs_files (fs_files e ++ [path_join texture_dir (img +:+ ".png")]) e))
      end
  | _ => ret tt
  end.

Definition save_textures : Py bool :=
  w <- gets (fun w => w) ;;
  match texture_nodes (self w) with
  | [] => raise StopIteration
  | (first, first_nodes) :: _ =>
      match selected_objects w with
      | [] => raise IndexError
      | o :: _ =>
          obj_dir <- create_subdir (obj_name o)
                       (Some (simplifier_export_dir (simplifier (scene w)))) ;;
          if String.eqb obj_dir "" then
            report ERROR "Cannot access chosen dir." ;;;
            ret false
          else
            texture_dir <- create_subdir "baked_textures" (Some obj_dir) ;;
            if String.eqb texture_dir "" then
              report ERROR "Cannot access chosen dir." ;;;
              ret false
            else
              for_ (dict_values first_nodes) (save_one first texture_dir) ;;;
              ret true
      end
  end.

Definition get_max_y_node_coordinate (output_location : Z * Z) (nodes : list Node) : Z :=
  let x_out := fst output_location in
  let max_y_coord :=
    fold_left
      (fun max_y_coord node =>
         if (x_out - 500 <? fst (node_location node)) && (fst (node_location node) <? x_out)
         then if snd (node_location node) >? max_y_coord
              then snd (node_location node)
              else max_y_coord
         else max_y_coord)
      nodes 0 in
  max_y_coord + 1000.

(** [self.texture_nodes[node_tree][key] = node] *)
Definition tn_set (node_tree key : string) (node : nat) : Py unit :=
  tn <- gets (fun w => texture_nodes (self w)) ;;
  match dict_get node_tree tn with
  | Some d => modify (on_self (set_texture_nodes (dict_set node_tree (dict_set key node d) tn)))
  | None => raise KeyError
  end.

(** [self.texture_nodes[node_tree][key]] *)
Definition tn_get (node_tree key : string) : Py nat :=
  tn <- gets (fun w => texture_nodes (self w)) ;;
  match dict_get node_tree tn with
  | Some d =>
      match dict_get key d with
      | Some n => ret n
      | None => raise KeyError
      end
  | None => raise KeyError
  end.

(** The body of the loop that creates one image node per channel. *)
Definition new_texture_node (node_tree map_name : string) : Py unit :=
  n <- nodes_new node_tree TEX_IMAGE ;;
  tn_set node_tree map_name n ;;;
  w <- gets (fun w => w) ;;
  img <- images_get (baker_texture_name (baker (scene w)) +:+ "_" +:+ map_name) ;;
  n' <- tn_get node_tree map_name ;;
  set_node_image node_tree n' (img_name img) ;;;
  when (negb (String.eqb map_name "diffuse"))
    (set_image (img_name img) (fun i =>
       {| img_name := img_name i; img_size := img_size i;
          img_colorspace := "Non-Color"; img_filepath_raw := img_filepath_raw i;
          img_file_format := img_file_format i |})).

Definition prepare_new_nodes (node_tree : string) (connect_to_outputs : ConnectToOutputs)
    : Py (bool * ConnectToOutputs) :=
  nt <- get_tree node_tree ;;
  w <- gets (fun w => w) ;;
  let baker := baker (scene w) in
  let maps := textures_to_create (self w) in
  let output_node :=
    fold_left (fun found node =>
                 match node_type node with
                 | OUTPUT_MATERIAL => Some (node_id node)
                 | _ => found
                 end)
      (nodes nt) None in
  match output_node with
  | None => ret (false, connect_to_outputs)
  | Some output_node =>
      match List.filter
              (fun l => Nat.eqb (to_node l) output_node && String.eqb (to_socket l) "Surface")
              (links nt) with
      | [] => raise IndexError
      | link :: _ =>
          let old_node_connected_to_output := from_node link in
          let old_node_connected_socket := from_socket link in
          modify (on_self (fun s =>
            set_texture_nodes (dict_set node_tree [] (texture_nodes s)) s)) ;;;
          for_ maps (new_texture_node node_tree) ;;;
          principled_node <-
            (if (baker_use_texture baker || baker_export_after baker) &&
                negb (Nat.eqb (List.length maps) 0)
             then
               out <- get_node node_tree output_node ;;
               nt' <- get_tree node_tree ;;
               let max_y_coord := get_max_y_node_coordinate (node_location out) (nodes nt') in
               principled_node <- nodes_new node_tree BSDF_PRINCIPLED ;;
               tn_set node_tree "principled" principled_node ;;;
               set_location node_tree principled_node (-100, max_y_coord + 200) ;;;
               when (str_in "diffuse" maps)
                 (n <- tn_get node_tree "diffuse" ;;
                  set_location node_tree n (-400, max_y_coord + 300) ;;;
                  n <- tn_get node_tree "diffuse" ;;
                  links_new_idx node_tree n 0 principled_node 0) ;;;
               when (str_in "roughness" maps)
                 (n <- tn_get node_tree "roughness" ;;
                  set_location node_tree n (-400, max_y_coord + 20) ;;;
                  n <- tn_get node_tree "roughness" ;;
                  links_new_idx node_tree n 0 principled_node 9) ;;;
               when (str_in "normal" maps)
                 (normal_map_node <- nodes_new node_tree NORMAL_MAP ;;
                  set_location node_tree normal_map_node (-300, max_y_coord - 600) ;;;
                  tn_set node_tree "normal_map_node" normal_map_node ;;;
                  n <- tn_get node_tree "normal" ;;
                  links_new_idx node_tree n 0 normal_map_node 1 ;;;
                  n <- tn_get node_tree "normal" ;;
                  set_location node_tree n (-700, max_y_coord - 600) ;;;
                  links_new_idx node_tree normal_map_node 0 principled_node 22) ;;;
               when (str_in "alpha" maps)
                 (n <- tn_get node_tree "alpha" ;;
                  set_location node_tree n (-400, max_y_coord - 300) ;;;
                  n <- tn_get node_tree "alpha" ;;
                  links_new_idx node_tree n 0 principled_node 21) ;;;
               ret (Some principled_node)
             else ret None) ;;
          if baker_use_texture baker || baker_export_after baker then
            let connect_to_output := ConnectNew node_tree principled_node output_node in
            let new := connect_new connect_to_outputs ++ [connect_to_output] in
            if negb (baker_use_texture baker) then
              let connect_old_to_output :=
                ConnectOld node_tree old_node_connected_to_output
                  old_node_connected_socket output_node in
              ret (true, {| connect_new := new;
                            connect_old := connect_old connect_to_outputs ++
                                           [connect_old_to_output] |})
            else
              ret (true, {| connect_new := new;
                            connect_old := connect_old connect_to_outputs |})
          else ret (true, connect_to_outputs)
      end
  end.

Definition set_nodes_as_active (texture_type : string) : Py unit :=
  tn <- gets (fun w => texture_nodes (self w)) ;;
  for_ tn (fun '(node_tree, tex_nodes) =>
    match dict_get texture_type tex_nodes with
    | Some texture_node => set_nodes_active node_tree texture_node
    | None => raise KeyError
    end).

(** The table [bake_kwargs] of [bake_textures]. *)
Definition bake_kwargs (width height : Z) (map_name : string) : option BakeKwargs :=
  let mk type filter :=
    Some {| bk_type := type; bk_pass_filter := filter; bk_margin := 3;
            bk_width := width; bk_height := height; bk_target := "IMAGE_TEXTURES";
            bk_use_clear := true |} in
  if String.eqb map_name "diffuse" then mk "DIFFUSE" (Some "COLOR")
  else if String.eqb map_name "alpha" then mk "GLOSSY" (Some "COLOR")
  else if String.eqb map_name "glossy" then mk "GLOSSY" (Some "COLOR")
  else if String.eqb map_name "normal" then mk "NORMAL" None
  else if String.eqb map_name "roughness" then mk "ROUGHNESS" None
  else None.

(** The first loop of [bake_textures]; [Some b] is its [return b]. *)
Fixpoint prepare_all (materials : list string) (connect_to_outputs : ConnectToOutputs)
    : Py (option bool * ConnectToOutputs) :=
  match materials with
  | [] => ret (None, connect_to_outputs)
  | material :: materials' =>
      material_use_nodes material ;;;
      p <- prepare_new_nodes material connect_to_outputs ;;
      if negb (fst p) then
        report ERROR ("Output node is missing in " +:+ material +:+ " material.") ;;;
        ret (Some false, snd p)
      else prepare_all materials' (snd p)
  end.

(** The body of the bake loop for one channel. *)
Definition bake_one (map_name : string) : Py unit :=
  set_nodes_as_active map_name ;;;
  w <- gets (fun w => w) ;;
  match bake_kwargs (baker_width (baker (scene w))) (baker_height (baker (scene w)))
          map_name with
  | Some kwargs => ops_object_bake kwargs
  | None => raise KeyError
  end.

(** What [bake_textures] does once the image buffers are baked. *)
Definition after_bake (connect_to_outputs : ConnectToOutputs) : Py bool :=
  w <- gets (fun w => w) ;;
  let baker := baker (scene w) in
  let maps := textures_to_create (self w) in
  saved <- save_textures ;;
  when (negb saved) (clean_up None) ;;;
  when (baker_use_texture baker || baker_export_after baker)
    (for_ (connect_new connect_to_outputs) run_connect ;;;
     when (baker_export_after baker) (_ <- ops_simplifier_export ;; ret tt) ;;;
     when (negb (baker_use_texture baker))
       (for_ (connect_old connect_to_outputs) run_connect)) ;;;
  when (negb (baker_use_texture baker)) (clean_up None) ;;;
  when (str_in "glossy" maps && baker_use_texture baker) (clean_up (Some "glossy")) ;;;
  ret true.

(** [bake_textures] from the point where every material has its nodes. *)
Definition bake_stage (connect_to_outputs : ConnectToOutputs) : Py bool :=
  w <- gets (fun w => w) ;;
  let renderer_used := render_engine (scene w) in
  modify (on_scene (set_render_engine CYCLES)) ;;;
  modify (on_scene (set_cycles_device (baker_device (baker (scene w))))) ;;;
  r <- try_finally
         (try_except
            (for_ (textures_to_create (self w)) bake_one ;;; ret None)
            (fun e =>
               match e with
               | RuntimeError =>
                   Some (report ERROR
                           "Texture name refers to image which was deleted on disk, please use another name." ;;;
                         clean_up None ;;;
                         ret (Some false))
               | _ => None
               end))
         (modify (on_scene (set_render_engine renderer_used))) ;;
  match r with
  | Some b => ret b
  | None => after_bake connect_to_outputs
  end.

Definition bake_textures (materials : list string) : Py bool :=
  modify (on_self (set_texture_nodes [])) ;;;
  p <- prepare_all materials {| connect_new := []; connect_old := [] |} ;;
  match fst p with
  | Some b => ret b
  | None => bake_stage (snd p)
  end.

(** The comprehension that extracts the selected materials. *)
Fixpoint selected_materials_of (group : list MaterialDataGroup)
    (active_obj : option Object) : res (list string) :=
  match group with
  | [] => Ret []
  | mat :: group' =>
      if item_selected mat then
        match item_material mat, active_obj with
        | Some name, Some o =>
            match selected_materials_of group' active_obj with
            | Ret l =>
                if str_in name
                     (map SIMPLIFIER_OT_update_material_list.slot_name (obj_material_slots o))
                then Ret (name :: l)
                else Ret l
            | Raise e => Raise e
            end
        | _, _ => Raise AttributeError
        end
      else selected_materials_of group' active_obj
  end.

(** The host creates the operator instance for each call, so [execute]
    starts from the class attributes. *)
Definition execute : Py status :=
  modify (on_self (fun _ => {| texture_nodes := []; textures_to_create := [] |})) ;;;
  modify (on_scene (set_model_unwrapped false)) ;;;
  w <- gets (fun w => w) ;;
  let baker := baker (scene w) in
  let simplifier := simplifier (scene w) in
  if negb (simplifier_bake simplifier) then ret CANCELLED
  else if negb (Nat.eqb (List.length (selected_objects w)) 1) then
    report ERROR "One object needs to be selected" ;;;
    ret CANCELLED
  else
    missing <- (if baker_export_after baker
                then ex <- os_path_exists (simplifier_export_dir simplifier) ;; ret (negb ex)
                else ret false) ;;
    if missing then
      report ERROR "Cannot access chosen dir." ;;;
      ret CANCELLED
    else
      when (simplifier_unwrap simplifier) unwrap ;;;
      w1 <- gets (fun w => w) ;;
      no_uv <- (if negb (simplifier_unwrap simplifier) then
                  match active_object w1 with
                  | Some o => ret (Nat.eqb (List.length (obj_uv_layers o)) 0)
                  | None => raise AttributeError
                  end
                else ret false) ;;
      if no_uv then
        report ERROR "Object has no UV map and unwrap is not selected.
            Please check the unwrap option or unwrap model manually." ;;;
        clean_up None ;;;
        ret CANCELLED
      else
        match selected_materials_of (material_group (scene w1)) (active_object w1) with
        | Raise e => raise e
        | Ret selected_materials =>
            if Nat.eqb (List.length selected_materials) 0 then
              report ERROR "No materials selected" ;;;
              ret CANCELLED
            else
              generated <- generate_texture (baker_texture_name baker) ;;
              if negb generated then
                clean_up None ;;;
                ret CANCELLED
              else
                baked <- bake_textures selected_materials ;;
                if negb baked then
                  clean_up None ;;;
                  ret CANCELLED
                else ret FINISHED
        end.

End SIMPLIFIER_OT_bake.

(** * export_tester.py *)

(** A dict literal: of two entries with one key the later one stays. *)
Definition dict_of {V} (l : list (string * V)) : gmap string V :=
  foldl (fun d kv => <[fst kv := snd kv]> d) ∅ l.

(** [os.path.dirname] (POSIX flavour): the path up to its last slash. *)
Fixpoint dirname_rev (s : string) : string :=
  match s with
  | EmptyString => EmptyString
  | String c s' => if Ascii.eqb c "/"%char then s' else dirname_rev s'
  end.

Definition dirname (p : string) : string := string_rev (dirname_rev (string_rev p)).

Definition EXPORT_FUNCS : gmap string string :=
  dict_of [("obj", "export_scene.obj"); ("fbx", "export_scene.fbx");
           ("gltf", "export_scene.gltf"); ("glb", "export_scene.gltf");
           ("stl", "export_mesh.stl"); ("usd", "wm.usd_export")].

Definition expand_options (basename argname : string) (values : list string)
    (additional_args : option (gmap string pyval)) : gmap string (gmap string pyval) :=
  let d := foldl (fun d value =>
                    <[basename +:+ "_" +:+ lower value := {[argname := PStr value]}]> d)
             ∅ values in
  match additional_args with
  | Some extra =>
      if decide (extra = ∅) then d
      else (fun args_dict => extra ∪ args_dict) <$> d
  | None => d
  end.

Definition scale_options : list string :=
  ["FBX_SCALE_NONE"; "FBX_SCALE_UNITS"; "FBX_SCALE_CUSTOM"; "FBX_SCALE_ALL"].

Definition EXPORT_OPTIONS_MODELS : gmap string (gmap string (gmap string pyval)) :=
  dict_of [
    ("obj", dict_of [
       ("default", ∅);
       ("obj_groups", dict_of [("group_by_object", PBool true)]);
       ("scale", dict_of [("global_scale", PNum 2)]);
       ("triangulate_faces", dict_of [("use_triangles", PBool true)]);
       ("smooth_groups", dict_of [("use_smooth_groups", PBool true)]);
       ("smooth_groups_bitflags", dict_of [("use_smooth_groups_bitflags", PBool true)]);
       ("orientation", dict_of [("axis_forward", PStr "Z"); ("axis_up", PStr "X")]) ]);
    ("fbx",
       expand_options "mesh_smooth_type" "mesh_smooth_type" ["OFF"; "FACE"; "EDGE"] None ∪
       (expand_options "apply_scale_options" "apply_scale_options" scale_options
          (Some (dict_of [("global_scale", PNum 2); ("apply_unit_scale", PBool true);
                          ("bake_space_transform", PBool true)])) ∪
        dict_of [
          ("default", ∅);
          ("use_custom_props", dict_of [("use_custom_props", PBool true)]);
          ("use_subsurf", dict_of [("use_subsurf", PBool true)]);
          ("use_space_transform", dict_of [("use_space_transform", PBool true)]);
          ("use_tangent_space", dict_of [("use_tspace", PBool true)]);
          ("scale", dict_of [("global_scale", PNum 2)]);
          ("apply_unit_scale", dict_of [("apply_unit_scale", PBool true)]);
          ("apply_unit_scale_x2",
             dict_of [("global_scale", PNum 2); ("apply_unit_scale", PBool true)]);
          ("apply_unit_scale_apply_transform",
             dict_of [("global_scale", PNum 2); ("apply_unit_scale", PBool true);
                      ("bake_space_transform", PBool true)]);
          ("orientation", dict_of [("axis_forward", PStr "Z"); ("axis_up", PStr "X")]) ]));
    ("stl", dict_of [
       ("default", ∅);
       ("scale", dict_of [("global_scale", PNum 2)]);
       ("use_scene_unit", dict_of [("use_scene_unit", PBool true)]);
       ("scale_and_scene_unit",
          dict_of [("global_scale", PNum 2); ("use_scene_unit", PBool true)]);
       ("scale_and_scene_unit_per_object",
          dict_of [("global_scale", PNum 2); ("use_scene_unit", PBool true);
                   ("ascii", PBool true); ("batch_mode", PStr "OBJECT")]);
       ("scale_and_scene_unit_per_object_in_ascii",
          dict_of [("global_scale", PNum 2); ("use_scene_unit", PBool true);
                   ("ascii", PBool true); ("batch_mode", PStr "OBJECT")]);
       ("ascii", dict_of [("ascii", PBool true)]);
       ("batch_mode", dict_of [("batch_mode", PStr "OBJECT")]);
       ("orientation", dict_of [("axis_forward", PStr "Z"); ("axis_up", PStr "X")]);
       ("orientation_in_ascii",
          dict_of [("axis_forward", PStr "Z"); ("axis_up", PStr "X"); ("ascii", PBool true)]);
       ("orientation_each_object",
          dict_of [("batch_mode", PStr "OBJECT"); ("axis_forward", PStr "Z");
                   ("axis_up", PStr "X")]) ]);
    ("glb", dict_of [
       ("default", ∅);
       ("custom_properties", dict_of [("export_extras", PBool true)]);
       ("export_not_y_up", dict_of [("export_yup", PBool false)]);
       ("apply_modifiers", dict_of [("export_apply", PBool true)]) ]);
    ("gltf", dict_of [
       ("default", ∅);
       ("custom_properties",
          dict_of [("export_format", PStr "GLTF_EMBEDDED"); ("export_extras", PBool true)]);
       ("export_not_y_up",
          dict_of [("export_format", PStr "GLTF_EMBEDDED"); ("export_yup", PBool false)]);
       ("apply_modifiers",
          dict_of [("export_format", PStr "GLTF_EMBEDDED"); ("export_apply", PBool true)]);
       ("separate_default", dict_of [("export_format", PStr "GLTF_SEPARATE")]);
       ("separate_custom_properties",
          dict_of [("export_format", PStr "GLTF_SEPARATE"); ("export_extras", PBool true)]);
       ("separate_export_not_y_up",
          dict_of [("export_format", PStr "GLTF_SEPARATE"); ("export_yup", PBool false)]);
       ("separate_apply_modifiers",
          dict_of [("export_format", PStr "GLTF_SEPARATE"); ("export_apply", PBool true)]) ])
  ].

Definition path_modes : list string := ["AUTO"; "ABSOLUTE"; "RELATIVE"; "COPY"].

Definition EXPORT_OPTIONS_MATERIALS : gmap string (gmap string (gmap string pyval)) :=
  dict_of [
    ("obj",
       expand_options "path_mode" "path_mode" path_modes None ∪
       dict_of [
         ("default", ∅);
         ("write_materials", dict_of [("use_materials", PBool false)]);
         ("material_groups", dict_of [("group_by_material", PBool true)]) ]);
    ("fbx",
       expand_options "mesh_smooth_type" "mesh_smooth_type" ["OFF"; "FACE"; "EDGE"] None ∪
       (expand_options "apply_scale_options" "apply_scale_options" scale_options
          (Some (dict_of [("global_scale", PNum 2); ("apply_unit_scale", PBool true)])) ∪
        (expand_options "path_mode" "path_mode" path_modes None ∪
         dict_of [
           ("default", ∅);
           ("path_mode_copy_embed",
              dict_of [("path_mode", PStr "COPY"); ("embed_textures", PBool true)]) ])));
    ("glb",
       expand_options "export_materials" "export_materials" ["EXPORT"; "PLACEHOLDER"; "NONE"]
         None ∪
       (expand_options "export_image_format" "export_image_format" ["AUTO"; "JPEG"] None ∪
        dict_of [("default", ∅)]));
    ("gltf",
       expand_options "separate_export_materials" "export_materials"
         ["EXPORT"; "PLACEHOLDER"; "NONE"]
         (Some (dict_of [("export_format", PStr "GLTF_SEPARATE")])) ∪
       (expand_options "separate_export_image_format_original" "export_image_format"
          ["AUTO"; "JPEG"]
          (Some (dict_of [("export_format", PStr "GLTF_SEPARATE");
                          ("export_keep_originals", PBool true)])) ∪
        (expand_options "separate_export_image_format" "export_image_format" ["AUTO"; "JPEG"]
           (Some (dict_of [("export_format", PStr "GLTF_SEPARATE")])) ∪
         (dict_of [
            ("separate_default", dict_of [("export_format", PStr "GLTF_SEPARATE")]);
            ("separate_textures_folder", dict_of [("export_texture_dir", PStr "textures")]) ] ∪
          (expand_options "export_materials" "export_materials"
             ["EXPORT"; "PLACEHOLDER"; "NONE"]
             (Some (dict_of [("export_format", PStr "GLTF_EMBEDDED")])) ∪
           (expand_options "export_image_format" "export_image_format" ["AUTO"; "JPEG"]
              (Some (dict_of [("export_format", PStr "GLTF_EMBEDDED")])) ∪
            dict_of [("default_embedded",
                      dict_of [("export_format", PStr "GLTF_EMBEDDED")])]))))))
  ].

Inductive ExportEnum := ALL | MATERIALS | MODELS.

Module EXPORT_TESTER_OT_export_tester.

(** Attributes of the operator instance. *)
Record Self := {
  export_dir : string;
  separate_collection : option string;
  export_options : gmap string (gmap string (gmap string pyval))
}.

Definition export_dir_name : string := "exports".

Definition create_subdir (self : Self) (name : string) (path : option string) : Py string :=
  let path := if truthy path then default "" path else export_dir self in
  let sub_dir := path_join path name in
  ex <- os_path_exists sub_dir ;;
  when (negb ex) (os_makedirs sub_dir) ;;;
  ret sub_dir.

(** [None] is the method's [return None]. *)
Definition export_location : Py (option string) :=
  blend_file_path <- gets (fun w => blend_filepath (env w)) ;;
  if String.eqb blend_file_path "" then
    report ERROR "Blend file not saved!!!" ;;;
    ret None
  else
    let export_dir := path_join (dirname blend_file_path) export_dir_name in
    ex <- os_path_exists export_dir ;;
    when (negb ex) (os_makedirs export_dir) ;;;
    ret (Some export_dir).

Definition select_object (name : string) : Py unit :=
  set_objs (map (obj_with_selected false)) ;;;
  select_set name true.

Definition select_objects_in_collection (self : Self) : Py unit :=
  set_objs (map (obj_with_selected false)) ;;;
  match separate_collection self with
  | None => raise AttributeError
  | Some c =>
      w <- gets (fun w => w) ;;
      match dict_get c (collections (scene w)) with
      | Some all_objects => for_ all_objects (fun obj => select_set obj true)
      | None => raise ReferenceError
      end
  end.

(** The body of the inner loop of [perform_export]: one exporter call. *)
Definition export_one (format obj_dir name : string)
    (option : string * gmap string pyval) : Py unit :=
  let target_file :=
    path_join obj_dir (name +:+ "_" +:+ fst option +:+ "." +:+ format) in
  match EXPORT_FUNCS !! format with
  | Some func => ops_export func target_file (<["use_selection" := PBool true]> (snd option))
  | None => raise KeyError
  end.

(** What [perform_export] does with an object it has selected. *)
Definition export_selected (self : Self) (format sub_dir name : string) : Py unit :=
  obj_dir <- create_subdir self name (Some sub_dir) ;;
  match export_options self !! format with
  | Some options => for_ (map_to_list options) (export_one format obj_dir name)
  | None => raise KeyError
  end.

(** The loop of [perform_export] over the scene's objects. *)
Fixpoint export_objects (self : Self) (format sub_dir : string) (objs : list Object)
    (collection_exported : bool) : Py unit :=
  match objs with
  | [] => ret tt
  | obj :: objs' =>
      let obj_collection := obj_users_collection0 obj in
      if is_mesh obj && obj_visible obj then
        if bool_decide (Some obj_collection = separate_collection self) then
          if collection_exported then
            export_objects self format sub_dir objs' collection_exported
          else
            select_objects_in_collection self ;;;
            export_selected self format sub_dir (obj_name obj) ;;;
            export_objects self format sub_dir objs' true
        else
          select_object (obj_name obj) ;;;
          export_selected self format sub_dir (obj_name obj) ;;;
          export_objects self format sub_dir objs' collection_exported
      else export_objects self format sub_dir objs' collection_exported
  end.

Definition perform_export (self : Self) (format : string) : Py bool :=
  sub_dir <- create_subdir self format None ;;
  objs <- gets (fun w => objects (scene w)) ;;
  export_objects self format sub_dir objs false ;;;
  ret true.

Definition formats : list string := ["obj"; "fbx"; "glb"; "gltf"; "stl"].

(** [EXPORT_OPTIONS_X[format]] inside the loop that fills the options. *)
Definition table_get (table : gmap string (gmap string (gmap string pyval)))
    (format : string) : res (gmap string (gmap string pyval)) :=
  match table !! format with
  | Some d => Ret d
  | None => Raise KeyError
  end.

Fixpoint all_options (fs : list string)
    (acc : gmap string (gmap string (gmap string pyval)))
    : res (gmap string (gmap string (gmap string pyval))) :=
  match fs with
  | [] => Ret acc
  | format :: fs' =>
      match table_get EXPORT_OPTIONS_MODELS format with
      | Raise e => Raise e
      | Ret models =>
          if String.eqb format "stl" then all_options fs' (<[format := models]> acc)
          else
            match table_get EXPORT_OPTIONS_MATERIALS format with
            | Raise e => Raise e
            | Ret materials => all_options fs' (<[format := materials ∪ models]> acc)
            end
      end
  end.

(** The loop of [execute] over the formats; [Some s] is its [return s]. *)
Definition export_formats (self : Self) (current_mode : Mode) (active_obj : option string)
    (fs : list string) : Py (option status) :=
  for_return fs (fun format =>
    ok <- perform_export self format ;;
    if negb ok then
      modify (on_scene (set_active active_obj)) ;;;
      ops_object_mode_set current_mode ;;;
      ret (Some CANCELLED)
    else ret None).

Definition execute (export_enum : ExportEnum) : Py status :=
  w <- gets (fun w => w) ;;
  let separate_collection :=
    match dict_get "Separate_objects" (collections (scene w)) with
    | Some _ => Some "Separate_objects"
    | None => None
    end in
  export_dir <- export_location ;;
  match (match export_enum with
         | ALL => all_options formats ∅
         | MATERIALS => Ret EXPORT_OPTIONS_MATERIALS
         | MODELS => Ret EXPORT_OPTIONS_MODELS
         end) with
  | Raise e => raise e
  | Ret export_options =>
      if negb (truthy export_dir) then ret CANCELLED
      else
        let self := {| export_dir := default "" export_dir;
                       separate_collection := separate_collection;
                       export_options := export_options |} in
        w1 <- gets (fun w => w) ;;
        match active_object w1 with
        | None => raise AttributeError
        | Some _ =>
            let current_mode := mode (scene w1) in
            let active_obj := active (scene w1) in
            when (match current_mode with OBJECT => false | _ => true end)
              (ops_object_mode_set OBJECT) ;;;
            r <- export_formats self current_mode active_obj formats ;;
            match r with
            | Some s => ret s
            | None =>
                modify (on_scene (set_active active_obj)) ;;;
                ops_object_mode_set current_mode ;;;
                ret FINISHED
            end
        end
  end.

End EXPORT_TESTER_OT_export_tester.

(** * Specification vocabulary

    The definitions below are not part of the add-ons: they name the
    observations and the conditions that the theorems speak about. *)

(** ** Bake operator: entry and validation *)


Definition reported (msg : string) (w : World) : World :=
  on_env (fun e => set_reports (reports e ++ [(ERROR, msg)]) e) w.



(** ** Bake operator: texture allocation *)

(** The channel name of a bake type, as [generate_texture] derives it. *)
Definition channel (t : BakeType) : string := lower (bake_type_id t).

(** The image [texture_exists] stops at: the first one carrying the name. *)
Definition existing_image (w : World) (name : string) : option Image :=
  List.find (img_named name) (images (data w)).


Definition resolution_message : string :=
  "Cannot change resolution of existing texture, delete texture in Blender or use another name.".

(** The image buffer [bpy.data.images.new] adds. *)
Definition new_image (name : string) (width height : Z) : Image :=
  {| img_name := name; img_size := (Z.max 1 width, Z.max 1 height);
     img_colorspace := "sRGB"; img_filepath_raw := "";
     img_file_format := "TARGA" |}.


(** ** Bake operator: renderer settings and cleanup *)


(** A computation leaves an observation of the world as it found it,
    whether it returns or raises. *)
Definition keeps {X A} (f : World -> X) (m : Py A) : Prop :=
  forall w, f (fst (m w)) = f w.

(** A computation preserves a property of the world. *)
Definition stable {A} (P : World -> Prop) (m : Py A) : Prop :=
  forall w, P w -> P (fst (m w)).

(** The node [n] is not in the tree of material [t]. *)
Definition absent (t : string) (n : nat) (w : World) : Prop :=
  forall nt, trees (data w) !! t = Some nt -> List.find (node_is n) (nodes nt) = None.

(** ** Material list *)

(** The entry of [group] that decides the flag kept for [name]: the last
    one whose material carries that name. *)
Fixpoint last_listed (name : string) (group : list MaterialDataGroup)
    : option MaterialDataGroup :=
  match group with
  | [] => None
  | mat :: group' =>
      match last_listed name group' with
      | Some m => Some m
      | None => if bool_decide (item_material mat = Some name) then Some mat else None
      end
  end.

Definition kept_selected (name : string) (group : list MaterialDataGroup) : bool :=
  match last_listed name group with
  | Some mat => item_selected mat
  | None => false
  end.

Definition rebuilt_item (group : list MaterialDataGroup) (slot : option string)
    : MaterialDataGroup :=
  {| item_name := SIMPLIFIER_OT_update_material_list.slot_name slot;
     item_material := slot;
     item_selected :=
       kept_selected (SIMPLIFIER_OT_update_material_list.slot_name slot) group |}.

(** ** Option matrix *)




(** ** Batch export *)

(** The object belongs (by its first collection) to the collection whose
    objects are exported together. *)
Definition in_separate (sep : option string) (o : Object) : bool :=
  bool_decide (Some (obj_users_collection0 o) = sep).

Definition exported_alone (sep : option string) (o : Object) : bool :=
  is_mesh o && obj_visible o && negb (in_separate sep o).

Definition exported_together (sep : option string) (o : Object) : bool :=
  is_mesh o && obj_visible o && in_separate sep o.

(** How many times the batch export reaches the exporters for one option
    set: once per visible mesh outside the collection, and once for the
    collection if it holds a visible mesh. *)
Definition export_units (sep : option string) (objs : list Object) : nat :=
  (List.length (List.filter (exported_alone sep) objs) +
   Nat.min 1 (List.length (List.filter (exported_together sep) objs)))%nat.

(** The same count on a tail of the scene's objects, knowing whether the
    collection has been exported already. *)
Definition units_from (sep : option string) (objs : list Object) (collection_exported : bool)
    : nat :=
  (List.length (List.filter (exported_alone sep) objs) +
   if collection_exported then 0
   else Nat.min 1 (List.length (List.filter (exported_together sep) objs)))%nat.

Definition option_count (self : EXPORT_TESTER_OT_export_tester.Self) (format : string) : nat :=
  match EXPORT_TESTER_OT_export_tester.export_options self !! format with
  | Some options => size options
  | None => 0%nat
  end.

Definition names (w : World) : list string := map obj_name (objects (scene w)).

(** What the batch export needs from the host to run through: directories
    can be created, no exporter fails, and the objects of the collection
    are objects of the scene. *)
Definition exportable (self : EXPORT_TESTER_OT_export_tester.Self) (w : World) : Prop :=
  fs_readonly (env w) = [] /\ export_failing (env w) = [] /\
  forall c, EXPORT_TESTER_OT_export_tester.separate_collection self = Some c ->
    exists all_objects,
      dict_get c (collections (scene w)) = Some all_objects /\
      Forall (fun n => In n (names w)) all_objects.

Definition deselected (w : World) : list Object :=
  map (obj_with_selected false) (objects (scene w)).

(** What the batch export never changes: the objects up to their selection
    flag, the collections and the host's oracles. *)
Definition fixed (w : World)
    : list Object * list (string * list string) * list string * list string :=
  (deselected w, collections (scene w), fs_readonly (env w), export_failing (env w)).

Definition calls (w : World) : nat := List.length (export_log (env w)).

Definition written (w : World) : nat := List.length (fs_files (env w)).

(** The computation returns a value satisfying [Q], keeps [fixed], calls
    the exporters [k] times and has [k] target files written. *)
Definition runs {A} (m : Py A) (w : World) (k : nat) (Q : A -> Prop) : Prop :=
  exists a w',
    m w = (w', Ret a) /\ Q a /\ fixed w' = fixed w /\
    calls w' = (calls w + k)%nat /\ written w' = (written w + k)%nat.

(** ** Scenes for the examples *)

Definition mesh (name : string) (selected : bool) (collection : string)
    (slots : list (option string)) : Object :=
  {| obj_name := name; obj_type := MESH; obj_visible := true; obj_selected := selected;
     obj_location := (1%Q, 2%Q, 3%Q); obj_rotation := zero3;
     obj_scale := (2%Q, 2%Q, 2%Q);
     obj_uv_layers := [ {| uv_name := "UVMap"; uv_smart := None |} ];
     obj_material_slots := slots; obj_users_collection0 := collection;
     obj_active_material_index := 0 |}.

(** The node tree a new material starts with. *)
Definition default_tree : NodeTree :=
  {| nodes := [ {| node_id := 0; node_type := BSDF_PRINCIPLED; node_location := (10, 300);
                   node_image := None |};
                {| node_id := 1; node_type := OUTPUT_MATERIAL; node_location := (300, 300);
                   node_image := None |} ];
     links := [ {| from_node := 0; from_socket := "BSDF"; to_node := 1;
                   to_socket := "Surface" |} ];
     nodes_active := None |}.

Definition simplifier_of (unwrap bake : bool) : ExportDataGroup :=
  {| simplifier_export_dir := "/out"; simplifier_format := FBX;
     simplifier_gltf_format := GLB; simplifier_software := UNREAL;
     simplifier_unwrap := unwrap; simplifier_bake := bake |}.

Definition baker_of (types : list BakeType) (use_texture export_after : bool) : BakeDataGroup :=
  {| baker_texture_name := "tex"; baker_width := 1024; baker_use_texture := use_texture;
     baker_height := 1024; baker_bake_types := types; baker_device := GPU;
     baker_export_after := export_after |}.

Definition env_of (readonly failing : list string) : Env :=
  {| blend_filepath := "/proj/scene.blend"; fs_exists := ["/out"; "/proj/exports"];
     fs_readonly := readonly; fs_files := []; bake_failing := failing;
     export_failing := []; bake_log := []; export_log := []; reports := [] |}.

Definition item (name : string) (selected : bool) : MaterialDataGroup :=
  {| item_name := name; item_material := Some name; item_selected := selected |}.

Definition studio (objs : list Object) (m : Mode) (s : ExportDataGroup) (b : BakeDataGroup)
    (group : list MaterialDataGroup) (imgs : list Image) (e : Env) : World :=
  {| scene := {| objects := objs; active := Some "Cube"; mode := m;
                 collections := [("Collection", ["Cube"; "Lamp"]);
                                 ("Separate_objects", ["Left"; "Right"])];
                 render_engine := BLENDER_EEVEE; cycles_device := CPU;
                 model_unwrapped := false; simplifier := s; baker := b;
                 material_group := group; custom_index := 0 |};
     data := {| images := imgs; trees := {[ "Mat" := default_tree ]}; next_node := 2 |};
     env := e;
     self := {| texture_nodes := []; textures_to_create := [] |} |}.

Definition cube : Object := mesh "Cube" true "Collection" [Some "Mat"].

(** One object, one ticked material, the diffuse channel requested, and a
    host whose diffuse bake fails. *)
Definition bake_on_lost_image : World :=
  studio [cube] OBJECT (simplifier_of false true) (baker_of [DIFFUSE] false false)
    [item "Mat" true] [] (env_of [] ["DIFFUSE"]).

(** The same failing bake on an object that holds its one material in two
    slots, both entries ticked. *)
Definition bake_same_material_twice : World :=
  studio [mesh "Cube" true "Collection" [Some "Mat"; Some "Mat"]] OBJECT
    (simplifier_of false true) (baker_of [DIFFUSE] false false)
    [item "Mat" true; item "Mat" true] [] (env_of [] ["DIFFUSE"]).

(** The image node a bake adds for the diffuse channel. *)
Definition diffuse_node (id : nat) : Node :=
  {| node_id := id; node_type := TEX_IMAGE; node_location := (0, 0);
     node_image := Some "tex_diffuse" |}.

(** Two objects selected, in edit mode. *)
Definition two_selected : World :=
  studio [mesh "Cube" true "Collection" []; mesh "Lamp" true "Collection" []] EDIT
    (simplifier_of false false) (baker_of [] false false) [] [] (env_of [] []).

(** A bake whose output directory cannot be created. *)
Definition bake_readonly_dir (types : list BakeType) : World :=
  studio [cube] OBJECT (simplifier_of false true) (baker_of types false false)
    [item "Mat" true] [] (env_of ["/out/Cube"] []).

(** A world in which the diffuse texture has been allocated. *)
Definition ready_to_bake : World :=
  fst (SIMPLIFIER_OT_bake.generate_texture "tex"
         (studio [cube] OBJECT (simplifier_of false true) (baker_of [DIFFUSE] false false)
            [item "Mat" true] [] (env_of [] []))).





(** Nothing is selected and baking is switched off. *)
Definition nothing_selected_bake_off : World :=
  studio [mesh "Cube" false "Collection" [Some "Mat"]] OBJECT (simplifier_of false false)
    (baker_of [DIFFUSE] false false) [item "Mat" true] [] (env_of [] []).

(** One material in two slots, listed twice, the first entry ticked. *)
Definition ticked_first_of_two : World :=
  studio [mesh "Cube" true "Collection" [Some "Mat"; Some "Mat"]] OBJECT
    (simplifier_of false true) (baker_of [DIFFUSE] false false)
    [item "Mat" true; item "Mat" false] [] (env_of [] []).


(** Three visible meshes, two of them in the collection exported together. *)
Definition pair_in_collection : World :=
  studio [mesh "Cube" false "Collection" []; mesh "Left" false "Separate_objects" [];
          mesh "Right" false "Separate_objects" []] OBJECT
    (simplifier_of false false) (baker_of [] false false) [] [] (env_of [] []).

(** ** Notions for the further properties *)

Definition subdir_path (name : string) (path : option string) (w : World) : string :=
  path_join (if truthy path then default "" path
             else simplifier_export_dir (simplifier (scene w))) name.

Definition directory_added (p : string) (w : World) : World :=
  on_env (fun e => set_fs_exists (fs_exists e ++ [p]) e) w.

Definition list_cleared (w : World) : World := on_scene (set_material_group []) w.

Definition all_slots_filled (o : Object) : Prop :=
  Forall (fun slot => slot <> None) (obj_material_slots o).





Definition output_of (nt : NodeTree) : option nat :=
  fold_left (fun found node =>
               match node_type node with
               | OUTPUT_MATERIAL => Some (node_id node)
               | _ => found
               end)
    (nodes nt) None.

Definition surface_links (nt : NodeTree) (output_node : nat) : list Link :=
  List.filter
    (fun l => Nat.eqb (to_node l) output_node && String.eqb (to_socket l) "Surface")
    (links nt).


(** The node [n] is one the bake operator recorded for the tree [t]. *)
Definition recorded (t : string) (n : nat) (w : World) : Prop :=
  exists node_dict key, In (t, node_dict) (texture_nodes (self w)) /\ In (key, n) node_dict.

Definition present (t : string) (node : Node) (w : World) : Prop :=
  exists nt, trees (data w) !! t = Some nt /\ In node (nodes nt).

Definition ticked_on (o : Object) (name : string) (mat : MaterialDataGroup) : Prop :=
  item_selected mat = true /\ item_material mat = Some name /\
  In name (map SIMPLIFIER_OT_update_material_list.slot_name (obj_material_slots o)).

Definition no_models_message : string :=
  "No models selected, please select models you want to export".


(** [bpy.data.collections.get('Separate_objects', None)] *)
Definition separate_of (w : World) : option string :=
  match dict_get "Separate_objects" (collections (scene w)) with
  | Some _ => Some "Separate_objects"
  | None => None
  end.

(** What the tester's [execute] needs to run through. *)
Definition tester_ready (w : World) : Prop :=
  blend_filepath (env w) <> "" /\
  fs_readonly (env w) = [] /\ export_failing (env w) = [] /\
  (forall all_objects,
     dict_get "Separate_objects" (collections (scene w)) = Some all_objects ->
     Forall (fun n => In n (names w)) all_objects) /\
  active_object w <> None.

Definition all_options_result : gmap string (gmap string (gmap string pyval)) :=
  match EXPORT_TESTER_OT_export_tester.all_options EXPORT_TESTER_OT_export_tester.formats ∅ with
  | Ret o => o
  | Raise _ => ∅
  end.

(** The option tables [execute] installs for a setting. *)
Definition options_of (export_enum : ExportEnum)
    : gmap string (gmap string (gmap string pyval)) :=
  match export_enum with
  | ALL => all_options_result
  | MATERIALS => EXPORT_OPTIONS_MATERIALS
  | MODELS => EXPORT_OPTIONS_MODELS
  end.

Definition tester_instance (export_enum : ExportEnum) (w : World)
    : EXPORT_TESTER_OT_export_tester.Self :=
  {| EXPORT_TESTER_OT_export_tester.export_dir :=
       path_join (dirname (blend_filepath (env w)))
         EXPORT_TESTER_OT_export_tester.export_dir_name;
     EXPORT_TESTER_OT_export_tester.separate_collection := separate_of w;
     EXPORT_TESTER_OT_export_tester.export_options := options_of export_enum |}.

Definition raises {A} (m : Py A) (w : World) (e : exn) (k : nat) : Prop :=
  exists w', m w = (w', Raise e) /\ fixed w' = fixed w /\ calls w' = (calls w + k)%nat.

(** How many option sets one exported unit goes through. *)
Definition option_sets (export_enum : ExportEnum) : nat :=
  match export_enum with
  | ALL => 77
  | MATERIALS => 41
  | MODELS => 47
  end.

(** Total correctness: from a world satisfying [P] the computation returns
    a value, in a world, satisfying [Q]. *)
Definition leads {A} (P : World -> Prop) (m : Py A) (Q : A -> World -> Prop) : Prop :=
  forall w, P w -> exists a w', m w = (w', Ret a) /\ Q a w'.



(** The computation raises [e], in a world satisfying [Q]. *)
Definition fails {A} (P : World -> Prop) (m : Py A) (e : exn) (Q : World -> Prop) : Prop :=
  forall w, P w -> exists w', m w = (w', Raise e) /\ Q w'.





(** A node the host handed out before the bake started. *)
Definition old_node (b : nat) (n : Node) : bool := (node_id n <? b)%nat.

Definition graph_of (nt : NodeTree) : list Node * list Link := (nodes nt, links nt).

(** The part of a tree that was there before the bake. *)
Definition old_graph (b : nat) (nt : NodeTree) : list Node * list Link :=
  (List.filter (old_node b) (nodes nt), links nt).

(** The nodes the bake has added to a tree. *)
Definition new_ids (b : nat) (nt : NodeTree) : list nat :=
  map node_id (List.filter (fun n => negb (old_node b n)) (nodes nt)).

(** The nodes the operator has on record for a tree. *)
Definition recorded_ids (t : string) (tn : list (string * list (string * nat))) : list nat :=
  match dict_get t tn with
  | Some d => dict_values d
  | None => []
  end.

(** Node references handed out so far are below the host's counter. *)
Definition well_formed (b : nat) (T0 : gmap string NodeTree) : Prop :=
  forall t nt0, T0 !! t = Some nt0 ->
    Forall (fun n => (node_id n < b)%nat) (nodes nt0) /\
    Forall (fun l => (from_node l < b)%nat /\ (to_node l < b)%nat) (links nt0).

(** A bake is under way from the trees [T0]: every tree is its old graph
    plus the image nodes on record for it. *)
Definition baking (b : nat) (T0 : gmap string NodeTree) (w : World) : Prop :=
  (b <= next_node (data w))%nat /\
  forall t,
    match trees (data w) !! t, T0 !! t with
    | Some nt, Some nt0 =>
        old_graph b nt = graph_of nt0 /\
        new_ids b nt = recorded_ids t (texture_nodes (self w)) /\
        NoDup (new_ids b nt) /\
        Forall (fun n => (node_id n < next_node (data w))%nat /\
                         (old_node b n = false ->
                          node_type n = TEX_IMAGE /\ node_image n <> None))
          (nodes nt)
    | None, None => True
    | _, _ => False
    end.

(** A material the bake can work on: its tree has an output node with a
    link into its surface input. *)
Definition wired (T0 : gmap string NodeTree) (t : string) : Prop :=
  exists nt0 o, T0 !! t = Some nt0 /\ output_of nt0 = Some o /\ surface_links nt0 o <> [].

(** Every requested channel has its image buffer. *)
Definition allocated (maps : list string) (w : World) : Prop :=
  forall map_name, In map_name maps ->
    existing_image w (baker_texture_name (baker (scene w)) +:+ "_" +:+ map_name) <> None.

(** A world that differs from [w] in the active nodes of its trees only. *)
Definition same_graphs (w w' : World) : Prop :=
  scene w' = scene w /\ env w' = env w /\ self w' = self w /\
  images (data w') = images (data w) /\ next_node (data w') = next_node (data w) /\
  forall t, option_map graph_of (trees (data w') !! t) =
            option_map graph_of (trees (data w) !! t).

(** The records after the first loop: one dictionary per material, with an
    entry for every channel. *)
Definition on_record (T0 : gmap string NodeTree) (maps : list string) (w : World) : Prop :=
  NoDup (map fst (texture_nodes (self w))) /\
  Forall (fun td => is_Some (T0 !! fst td) /\ map fst (snd td) = maps)
    (texture_nodes (self w)).

(** The trees while the cleanup removes the recorded nodes: [rest] holds
    the records whose nodes are still there. *)
Definition cleaning (b : nat) (T0 : gmap string NodeTree)
    (rest : list (string * list (string * nat))) (w : World) : Prop :=
  forall t,
    match trees (data w) !! t, T0 !! t with
    | Some nt, Some nt0 =>
        old_graph b nt = graph_of nt0 /\ new_ids b nt = recorded_ids t rest /\
        NoDup (new_ids b nt)
    | None, None => True
    | _, _ => False
    end.

(** What the bake's file and cleanup steps leave alone. *)
Definition settled (w w' : World) : Prop :=
  scene w' = scene w /\ self w' = self w /\ next_node (data w') = next_node (data w) /\
  reports (env w') = reports (env w) /\ bake_log (env w') = bake_log (env w) /\
  export_log (env w') = export_log (env w) /\
  map img_name (images (data w')) = map img_name (images (data w)).

(** The trees of two worlds agree except at [t]. *)
Definition only_tree (t : string) (w w' : World) : Prop :=
  settled w w' /\ env w' = env w /\ images (data w') = images (data w) /\
  forall t', t' <> t -> trees (data w') !! t' = trees (data w) !! t'.

(** What a bake that neither connects nor exports its textures needs to
    run through. *)
Definition bakeable (materials : list string) (w : World) : Prop :=
  materials <> [] /\ NoDup materials /\ Forall (wired (trees (data w))) materials /\
  well_formed (next_node (data w)) (trees (data w)) /\
  baker_use_texture (baker (scene w)) = false /\
  baker_export_after (baker (scene w)) = false /\
  NoDup (textures_to_create (self w)) /\
  allocated (textures_to_create (self w)) w /\
  Forall (fun m => SIMPLIFIER_OT_bake.bake_kwargs (baker_width (baker (scene w)))
                     (baker_height (baker (scene w))) m <> None)
    (textures_to_create (self w)) /\
  bake_failing (env w) = [] /\ fs_readonly (env w) = [] /\
  exists o, List.head (selected_objects w) = Some o /\ obj_name o <> "".


(** The trees of [w'] have the nodes and links of the trees of [w]. *)
Definition graphs_kept (w w' : World) : Prop :=
  forall t, option_map graph_of (trees (data w') !! t) =
            option_map graph_of (trees (data w) !! t).




(** ** Scenes for the further properties *)


(** The list shown while no object is active. *)
Definition no_active_object : World := on_scene (set_active None) ticked_first_of_two.

(** An entry of the list whose material has been deleted. *)
Definition lost_entry : MaterialDataGroup :=
  {| item_name := "Old"; item_material := None; item_selected := true |}.

Definition list_with_lost_material : World :=
  studio [cube] OBJECT (simplifier_of false true) (baker_of [DIFFUSE] false false)
    [item "Mat" true; lost_entry] [] (env_of [] []).

(** The second material slot of the object is empty. *)
Definition cube_with_empty_slot : Object := mesh "Cube" true "Collection" [Some "Mat"; None].

Definition empty_second_slot : World :=
  studio [cube_with_empty_slot] OBJECT (simplifier_of false true)
    (baker_of [DIFFUSE] false false) [item "Mat" true] [] (env_of [] []).

(** A tree whose output node has been deleted. *)
Definition tree_without_output : NodeTree :=
  {| nodes := [ {| node_id := 0; node_type := BSDF_PRINCIPLED; node_location := (10, 300);
                   node_image := None |} ];
     links := []; nodes_active := None |}.

(** Two ticked materials, the second without output node. *)
Definition second_material_bare : World :=
  on_data (set_trees (<[ "Bare" := tree_without_output ]> {[ "Mat" := default_tree ]}))
    (studio [mesh "Cube" true "Collection" [Some "Mat"; Some "Bare"]] OBJECT
       (simplifier_of false true) (baker_of [DIFFUSE] false false)
       [item "Mat" true; item "Bare" true] [] (env_of [] [])).

(** The image node of the diffuse channel has been added to the material. *)
Definition nodes_prepared : World :=
  fst (SIMPLIFIER_OT_bake.prepare_new_nodes "Mat" {| connect_new := []; connect_old := [] |}
         ready_to_bake).



(** A scene that has never been saved to a file. *)
Definition unsaved_file : World :=
  on_env (fun e =>
    {| blend_filepath := ""; fs_exists := fs_exists e; fs_readonly := fs_readonly e;
       fs_files := fs_files e; bake_failing := bake_failing e;
       export_failing := export_failing e; bake_log := bake_log e;
       export_log := export_log e; reports := reports e |}) pair_in_collection.





(** * Proofs *)

(** ** Equations of the monad *)

Lemma bind_ret_l {A B} (a : A) (k : A -> Py B) w : bind (ret a) k w = k a w.
Proof. reflexivity. Qed.

Lemma bind_modify {B} (f : World -> World) (k : unit -> Py B) w :
  bind (modify f) k w = k tt (f w).
Proof. reflexivity. Qed.

Lemma bind_gets {A B} (f : World -> A) (k : A -> Py B) w :
  bind (gets f) k w = k (f w) w.
Proof. reflexivity. Qed.

Lemma bind_assoc {A B C} (m : Py A) (k : A -> Py B) (k' : B -> Py C) w :
  bind (bind m k) k' w = bind m (fun a => bind (k a) k') w.
Proof. unfold bind. destruct (m w) as [w1 [a|e]]; reflexivity. Qed.

Lemma bind_report {B} l msg (k : unit -> Py B) w :
  bind (report l msg) k w =
  k tt (on_env (fun e => set_reports (reports e ++ [(l, msg)]) e) w).
Proof. reflexivity. Qed.

Lemma bind_ret_inv {A B} (m : Py A) (k : A -> Py B) w w' b :
  bind m k w = (w', Ret b) ->
  exists a w1, m w = (w1, Ret a) /\ k a w1 = (w', Ret b).
Proof.
  unfold bind. destruct (m w) as [w1 [a|e]]; [|discriminate].
  intros H. exists a, w1. auto.
Qed.

Lemma try_finally_modify {A} (m : Py A) g w :
  try_finally m (modify g) w = (g (fst (m w)), snd (m w)).
Proof. unfold try_finally, modify. destruct (m w); reflexivity. Qed.



(** ** Frame rules: what a computation leaves alone *)

Section Frame.
Context {X : Type} (f : World -> X).

Lemma keeps_ret {A} (a : A) : keeps f (ret a).
Proof. intros w. reflexivity. Qed.

Lemma keeps_raise {A} e : keeps f (@raise A e).
Proof. intros w. reflexivity. Qed.

Lemma keeps_gets {A} (g : World -> A) : keeps f (gets g).
Proof. intros w. reflexivity. Qed.

Lemma keeps_modify g : (forall w, f (g w) = f w) -> keeps f (modify g).
Proof. intros H w. apply H. Qed.

Lemma keeps_bind {A B} (m : Py A) (k : A -> Py B) :
  keeps f m -> (forall a, keeps f (k a)) -> keeps f (bind m k).
Proof.
  intros Hm Hk w. unfold bind. specialize (Hm w).
  destruct (m w) as [w1 [a|e]]; cbn in *; [|assumption].
  rewrite Hk. assumption.
Qed.

Lemma keeps_try_except {A} (m : Py A) handler :
  keeps f m -> (forall e h, handler e = Some h -> keeps f h) ->
  keeps f (try_except m handler).
Proof.
  intros Hm Hh w. unfold try_except. specialize (Hm w).
  destruct (m w) as [w1 [a|e]]; cbn in *; [assumption|].
  destruct (handler e) as [h|] eqn:E; [|assumption].
  rewrite (Hh _ _ E). assumption.
Qed.

Lemma keeps_try_finally {A} (m : Py A) fin :
  keeps f m -> keeps f fin -> keeps f (try_finally m fin).
Proof.
  intros Hm Hf w. unfold try_finally. specialize (Hm w).
  destruct (m w) as [w1 r]. specialize (Hf w1).
  destruct (fin w1) as [w2 [[]|e]]; cbn in *; congruence.
Qed.

Lemma keeps_for_ {A} (l : list A) body :
  (forall a, keeps f (body a)) -> keeps f (for_ l body).
Proof.
  intros H. induction l as [|a l IH]; cbn [for_].
  - apply keeps_ret.
  - apply keeps_bind; [apply H|intros _; apply IH].
Qed.

Lemma keeps_for_return {A R} (l : list A) (body : A -> Py (option R)) :
  (forall a, keeps f (body a)) -> keeps f (for_return l body).
Proof.
  intros H. induction l as [|a l IH]; cbn [for_return].
  - apply keeps_ret.
  - apply keeps_bind; [apply H|intros [r|]; [apply keeps_ret|apply IH]].
Qed.

Lemma keeps_when b m : keeps f m -> keeps f (when b m).
Proof. intros H. destruct b; [assumption|apply keeps_ret]. Qed.
End Frame.

Ltac keeps_handler :=
  let e := fresh "e" in
  let h := fresh "h" in
  let H := fresh "H" in
  intros e h H; destruct e; inversion H; subst; clear H.

Ltac keeps_leaf :=
  first
    [ apply keeps_ret | apply keeps_raise | apply keeps_gets
    | (apply keeps_modify; intros; reflexivity)
    | (apply keeps_bind; [|intros])
    | (apply keeps_for_; intros)
    | (apply keeps_for_return; intros)
    | (apply keeps_try_except; [|keeps_handler])
    | (apply keeps_try_finally)
    | (apply keeps_when)
    | match goal with
      | |- keeps _ (match ?x with _ => _ end) => destruct x
      | |- keeps _ (let (_, _) := ?x in _) => destruct x
      | |- keeps _ (if ?x then _ else _) => destruct x
      end ].

Ltac keeps_unfold :=
  progress unfold report, set_objs, select_set, ops_object_transform_apply,
    ops_object_mode_set, ops_mesh_select_all, ops_uv_smart_project,
    ops_object_duplicate, ops_object_delete, ops_export, ops_object_bake,
    os_path_exists, os_makedirs, images_new, images_get, set_image,
    get_tree, put_tree, get_node, nodes_new, nodes_remove, update_node,
    set_location, set_node_image, set_nodes_active, links_new, links_new_idx,
    material_use_nodes, create_subdir, unwrap, run_connect,
    SIMPLIFIER_OT_export.deselect_all_objects, SIMPLIFIER_OT_export.select_object,
    SIMPLIFIER_OT_export.correct_origin, SIMPLIFIER_OT_export.apply_transform,
    SIMPLIFIER_OT_export.export_unreal, SIMPLIFIER_OT_export.clean_up,
    SIMPLIFIER_OT_export.perform_export,
    SIMPLIFIER_OT_export.set_original_configuration,
    SIMPLIFIER_OT_bake.clean_up, SIMPLIFIER_OT_bake.save_one,
    SIMPLIFIER_OT_bake.save_textures, SIMPLIFIER_OT_bake.tn_set,
    SIMPLIFIER_OT_bake.tn_get, SIMPLIFIER_OT_bake.new_texture_node,
    SIMPLIFIER_OT_bake.prepare_new_nodes, SIMPLIFIER_OT_bake.set_nodes_as_active,
    SIMPLIFIER_OT_bake.bake_one.

Ltac keeps_auto := repeat first [keeps_leaf | keeps_unfold].

Section Stable.
Context (P : World -> Prop).

Lemma stable_ret {A} (a : A) : stable P (ret a).
Proof. intros w H. exact H. Qed.

Lemma stable_bind {A B} (m : Py A) (k : A -> Py B) :
  stable P m -> (forall a, stable P (k a)) -> stable P (bind m k).
Proof.
  intros Hm Hk w Hw. unfold bind. specialize (Hm w Hw).
  destruct (m w) as [w1 [a|e]]; cbn in *; [|assumption].
  apply Hk. assumption.
Qed.

Lemma stable_for_ {A} (l : list A) body :
  (forall a, stable P (body a)) -> stable P (for_ l body).
Proof.
  intros H. induction l as [|a l IH]; cbn [for_].
  - apply stable_ret.
  - apply stable_bind; [apply H|intros _; apply IH].
Qed.

Lemma stable_run {A} (m : Py A) w w' r :
  stable P m -> m w = (w', r) -> P w -> P w'.
Proof. intros Hm He Hw. specialize (Hm w Hw). rewrite He in Hm. exact Hm. Qed.
End Stable.

(** ** The renderer settings across a bake *)

Section RenderSettings.
Import SIMPLIFIER_OT_bake.









End RenderSettings.



(** ** The checks at the start of the bake operator *)

Section BakeValidation.
Import SIMPLIFIER_OT_bake.





End BakeValidation.







(** ** Texture allocation *)

Section Allocation.
Import SIMPLIFIER_OT_bake.

Lemma texture_exists_in_spec imgs name width height :
  texture_exists_in imgs name width height =
    match List.find (img_named name) imgs with
    | None => Ret false
    | Some img =>
        if (fst (img_size img) =? width) && (snd (img_size img) =? height)
        then Ret true else Raise AttributeError
    end.
Proof.
  induction imgs as [|img imgs IH]; cbn [texture_exists_in List.find]; [reflexivity|].
  unfold img_named at 1. destruct (String.eqb (img_name img) name); cbn [andb].
  - destruct (fst (img_size img) =? width), (snd (img_size img) =? height); reflexivity.
  - apply IH.
Qed.

Lemma size_eqb (s : Z * Z) width height :
  (fst s =? width) && (snd s =? height) = true <-> s = (width, height).
Proof.
  destruct s as [a b]. cbn. rewrite andb_true_iff, !Z.eqb_eq. split.
  - intros [-> ->]. reflexivity.
  - intros [= -> ->]. auto.
Qed.



(** One pass of the allocation loop, by what it finds in the images. *)
Lemma generate_one_spec texture_name map_name w :
  generate_one texture_name map_name w =
    let name := texture_name +:+ "_" +:+ map_name in
    let width := baker_width (baker (scene w)) in
    let height := baker_height (baker (scene w)) in
    match List.find (img_named name) (images (data w)) with
    | Some img =>
        if (fst (img_size img) =? width) && (snd (img_size img) =? height)
        then (w, Ret None)
        else (reported resolution_message w, Ret (Some false))
    | None =>
        (on_data (fun d => set_images (images d ++ [new_image name width height]) d) w,
         Ret None)
    end.
Proof.
  unfold generate_one, try_except, bind at 1, texture_exists.
  rewrite texture_exists_in_spec. cbn zeta.
  destruct (List.find _ _) as [img|]; [|reflexivity].
  destruct (_ && _); reflexivity.
Qed.

End Allocation.




(** ** Cleanup of the nodes created for a bake *)

Section Cleanup.
Import SIMPLIFIER_OT_bake.

Lemma find_filter_none {A} (f p : A -> bool) l :
  List.find f l = None -> List.find f (List.filter p l) = None.
Proof.
  induction l as [|a l IH]; cbn; [reflexivity|].
  destruct (f a) eqn:E; [discriminate|]. intros H.
  destruct (p a); cbn; [rewrite E|]; auto.
Qed.

Lemma find_filter_self l i :
  List.find (node_is i) (List.filter (fun n => negb (node_is i n)) l) = None.
Proof.
  induction l as [|a l IH]; cbn; [reflexivity|].
  destruct (node_is i a) eqn:E; cbn; [assumption|]. rewrite E. assumption.
Qed.

(** [nodes.remove] by cases: it removes a node that is there, and raises
    on a reference whose node is gone. *)
Lemma nodes_remove_spec t i w :
  match trees (data w) !! t with
  | Some nt =>
      match List.find (node_is i) (nodes nt) with
      | Some _ =>
          exists nt', nodes nt' = List.filter (fun n => negb (node_is i n)) (nodes nt) /\
            nodes_remove t i w =
              (on_data (fun d => set_trees (<[t := nt']> (trees d)) d) w, Ret tt)
      | None => nodes_remove t i w = (w, Raise ReferenceError)
      end
  | None => nodes_remove t i w = (w, Raise ReferenceError)
  end.
Proof.
  unfold nodes_remove, get_node, get_tree, bind, gets, put_tree, modify, raise, ret.
  cbn beta.
  destruct (trees (data w) !! t) as [nt|] eqn:E; [|reflexivity]. cbn beta iota.
  destruct (List.find (node_is i) (nodes nt)) as [n|]; [|reflexivity].
  cbn beta iota. rewrite E. cbn beta iota.
  eexists. split; [|reflexivity]. reflexivity.
Qed.

Lemma nodes_remove_absent t i w w' :
  nodes_remove t i w = (w', Ret tt) -> absent t i w'.
Proof.
  intros H. pose proof (nodes_remove_spec t i w) as S.
  destruct (trees (data w) !! t) as [nt|]; [|congruence].
  destruct (List.find (node_is i) (nodes nt)); [|congruence].
  destruct S as (nt' & Hn & He). rewrite He in H. injection H as <-.
  intros nt2. cbn. rewrite lookup_insert_eq. intros [= <-]. rewrite Hn.
  apply find_filter_self.
Qed.

Lemma nodes_remove_keeps_absent t n t' i w :
  absent t n w -> absent t n (fst (nodes_remove t' i w)).
Proof.
  intros Ha. pose proof (nodes_remove_spec t' i w) as S.
  destruct (trees (data w) !! t') as [nt|] eqn:E; [|rewrite S; assumption].
  destruct (List.find (node_is i) (nodes nt)); [|rewrite S; assumption].
  destruct S as (nt' & Hn & He). rewrite He. cbn [fst].
  intros nt2. cbn. destruct (decide (t' = t)) as [->|Hne].
  - rewrite lookup_insert_eq. intros [= <-]. rewrite Hn.
    apply find_filter_none. apply Ha. assumption.
  - rewrite lookup_insert_ne by assumption. apply Ha.
Qed.

Lemma stable_remove_all t n t' l : stable (absent t n) (for_ l (nodes_remove t')).
Proof.
  apply stable_for_. intros i w Hw. apply nodes_remove_keeps_absent. assumption.
Qed.

(** [clean_up] does not forget the nodes it removed. *)
Lemma clean_up_keeps_self w : self (fst (clean_up None w)) = self w.
Proof.
  unfold clean_up. rewrite bind_gets. cbn beta.
  generalize (texture_nodes (self w)). intros l. revert w.
  induction l as [|[t d] l IH]; intros w; cbn [for_]; [reflexivity|].
  unfold bind at 1. cbn [truthy negb].
  assert (Hd : forall w, self (fst (for_ (dict_values d) (nodes_remove t) w)) = self w).
  { clear. generalize (dict_values d). intros l. induction l as [|i l IH]; intros w;
      cbn [for_]; [reflexivity|].
    unfold bind. pose proof (nodes_remove_spec t i w) as S.
    destruct (trees (data w) !! t) as [nt|]; [|rewrite S; reflexivity].
    destruct (List.find (node_is i) (nodes nt)); [|rewrite S; reflexivity].
    destruct S as (nt' & _ & ->). rewrite IH. reflexivity. }
  specialize (Hd w). destruct (for_ (dict_values d) (nodes_remove t) w) as [w1 [[]|e]];
    cbn [fst] in *; [|assumption].
  rewrite IH. assumption.
Qed.

(** Cleanup is not idempotent: once it has removed at least one node, a
    second cleanup meets the stale reference and raises. *)
Lemma clean_up_twice (w w1 : World) t k n d rest :
  texture_nodes (self w) = (t, (k, n) :: d) :: rest ->
  clean_up None w = (w1, Ret tt) ->
  clean_up None w1 = (w1, Raise ReferenceError).
Proof.
  intros Ht H1.
  assert (Hs : texture_nodes (self w1) = (t, (k, n) :: d) :: rest).
  { pose proof (clean_up_keeps_self w) as Hk. rewrite H1 in Hk. cbn in Hk. congruence. }
  assert (Ha : absent t n w1).
  { unfold clean_up in H1. rewrite bind_gets, Ht in H1.
    cbn [for_ truthy negb dict_values map snd] in H1.
    apply bind_ret_inv in H1 as ([] & wa & Hfirst & Hrest).
    apply bind_ret_inv in Hfirst as ([] & wb & Hrm & Hd).
    apply nodes_remove_absent in Hrm.
    assert (Hwa : absent t n wa).
    { eapply stable_run; [apply stable_remove_all|exact Hd|exact Hrm]. }
    eapply stable_run; [|exact Hrest|exact Hwa].
    apply stable_for_. intros [t' d']. apply stable_remove_all. }
  unfold clean_up. rewrite bind_gets, Hs. cbn [for_ truthy negb dict_values map snd].
  unfold bind. pose proof (nodes_remove_spec t n w1) as S.
  destruct (trees (data w1) !! t) as [nt|] eqn:E; [|rewrite S; reflexivity].
  rewrite (Ha nt E) in S. rewrite S. reflexivity.
Qed.

(** Whatever happens to the save, [bake_textures] goes on to its last
    line: past the bake it never returns [False]. *)
Lemma after_bake_returns_true c w b : snd (after_bake c w) = Ret b -> b = true.
Proof.
  unfold after_bake. rewrite bind_gets. cbn beta. intros H.
  destruct (bind _ _ w) as [w' r] eqn:E. cbn in H. subst r.
  repeat (apply bind_ret_inv in E as (? & ? & _ & E)).
  unfold ret in E. congruence.
Qed.
End Cleanup.

(** C1 (the code at the failing input): the host's bake fails on the only
    requested channel.  [bake_textures] reports, removes the image node it
    created (the material's tree is the original one again) and returns
    [False]; [execute] then runs the cleanup a second time on the
    references it still holds, the host raises, and the operator ends with
    that exception instead of returning [CANCELLED].  When the object holds
    the material in two slots, the bookkeeping of the first pass over the
    tree is overwritten by the second, and the image node of the first pass
    stays in the tree. *)
Theorem bake_runtime_failure_double_cleanup :
  (snd (SIMPLIFIER_OT_bake.execute bake_on_lost_image) = Raise ReferenceError /\
   reports (env (fst (SIMPLIFIER_OT_bake.execute bake_on_lost_image))) =
     [(ERROR,
       "Texture name refers to image which was deleted on disk, please use another name.")] /\
   texture_nodes (self (fst (SIMPLIFIER_OT_bake.execute bake_on_lost_image))) =
     [("Mat", [("diffuse", 2%nat)])] /\
   trees (data (fst (SIMPLIFIER_OT_bake.execute bake_on_lost_image))) !! "Mat" =
     Some default_tree) /\
  (snd (SIMPLIFIER_OT_bake.execute bake_same_material_twice) = Raise ReferenceError /\
   texture_nodes (self (fst (SIMPLIFIER_OT_bake.execute bake_same_material_twice))) =
     [("Mat", [("diffuse", 3%nat)])] /\
   nodes <$> trees (data (fst (SIMPLIFIER_OT_bake.execute bake_same_material_twice)))
               !! "Mat" =
     Some (nodes default_tree ++ [diffuse_node 2])).
Proof. vm_compute. repeat split. Qed.

(** C6 (the code at the failing input): the directory for the baked
    textures cannot be created.  [save_textures] reports the error and
    returns [False], but [bake_textures] does not return: with the diffuse
    channel requested it cleans up twice and the operator ends with the
    host's exception; with no channel requested the operator returns
    [FINISHED]. *)
Theorem bake_save_failure_not_cancelled :
  (snd (SIMPLIFIER_OT_bake.execute (bake_readonly_dir [DIFFUSE])) = Raise ReferenceError /\
   reports (env (fst (SIMPLIFIER_OT_bake.execute (bake_readonly_dir [DIFFUSE])))) =
     [(ERROR, "Cannot access chosen dir.")]) /\
  (snd (SIMPLIFIER_OT_bake.execute (bake_readonly_dir [])) = Ret FINISHED /\
   reports (env (fst (SIMPLIFIER_OT_bake.execute (bake_readonly_dir [])))) =
     [(ERROR, "Cannot access chosen dir.")]).
Proof. vm_compute. repeat split. Qed.

(** C2 (the code at the failing input): two objects are selected, in edit
    mode.  The export succeeds and restores the active object and the mode,
    but of the two objects only the last one is selected afterwards. *)
Theorem export_restores_only_last_selected :
  snd (SIMPLIFIER_OT_export.execute two_selected) = Ret FINISHED /\
  map obj_name (selected_objects two_selected) = ["Cube"; "Lamp"] /\
  map obj_name (selected_objects (fst (SIMPLIFIER_OT_export.execute two_selected))) =
    ["Lamp"] /\
  active (scene (fst (SIMPLIFIER_OT_export.execute two_selected))) =
    active (scene two_selected) /\
  mode (scene (fst (SIMPLIFIER_OT_export.execute two_selected))) = mode (scene two_selected).
Proof. vm_compute. repeat split. Qed.

(** ** Refreshing the material list *)

Section MaterialList.
Import SIMPLIFIER_OT_update_material_list.

Lemma save_selection_spec group :
  Forall (fun mat => item_material mat <> None) group ->
  forall acc, exists old,
    save_selection group acc = Ret old /\
    forall name, old !! name =
      match last_listed name group with
      | Some mat => Some (item_selected mat)
      | None => acc !! name
      end.
Proof.
  induction 1 as [|mat group Hm HF IH]; intros acc.
  - exists acc. split; [reflexivity|]. intros name. reflexivity.
  - cbn [save_selection]. destruct (item_material mat) as [n|] eqn:E; [|congruence].
    destruct (IH (<[n := item_selected mat]> acc)) as (old & Hs & Hl).
    exists old. split; [assumption|]. intros name. rewrite Hl.
    cbn [last_listed]. destruct (last_listed name group) as [m|]; [reflexivity|].
    rewrite E. destruct (decide (n = name)) as [->|Hne].
    + rewrite bool_decide_eq_true_2 by reflexivity. apply lookup_insert_eq.
    + rewrite bool_decide_eq_false_2 by congruence. apply lookup_insert_ne. assumption.
Qed.

Lemma last_listed_None name group :
  last_listed name group = None <->
  Forall (fun mat => item_material mat <> Some name) group.
Proof.
  induction group as [|mat group IH]; cbn [last_listed].
  - split; [constructor|reflexivity].
  - destruct (last_listed name group) as [m|].
    + split; [discriminate|]. intros H. inversion H as [|? ? _ H2]; subst.
      apply IH in H2. discriminate.
    + destruct (bool_decide_reflect (item_material mat = Some name)) as [E|E].
      * split; [discriminate|]. intros H. inversion H; subst. contradiction.
      * split; [|reflexivity]. intros _. constructor; [assumption|]. apply IH. reflexivity.
Qed.

Lemma last_listed_Some name group mat :
  last_listed name group = Some mat <->
  exists before after,
    group = before ++ mat :: after /\ item_material mat = Some name /\
    Forall (fun mat' => item_material mat' <> Some name) after.
Proof.
  split.
  - revert mat. induction group as [|m group IH]; intros mat; cbn [last_listed];
      [discriminate|].
    destruct (last_listed name group) as [m'|] eqn:E.
    + intros [= ->]. destruct (IH mat eq_refl) as (b & a & -> & Hm & Ha).
      exists (m :: b), a. auto.
    + destruct (bool_decide_reflect (item_material m = Some name)) as [Em|Em];
        [|discriminate].
      intros [= ->]. exists [], group. split_and!; [reflexivity|assumption|].
      apply last_listed_None. assumption.
  - intros (before & after & -> & Hm & Ha).
    induction before as [|b before IH]; cbn [app last_listed].
    + apply last_listed_None in Ha. rewrite Ha.
      rewrite bool_decide_eq_true_2 by assumption. reflexivity.
    + rewrite IH. reflexivity.
Qed.

Lemma add_items old slots : forall w,
  for_ slots (add_item old) w =
  (on_scene (fun s => set_material_group
      (material_group s ++
         map (fun slot => {| item_name := slot_name slot; item_material := slot;
                             item_selected := was_selected old (slot_name slot) |}) slots) s) w,
   Ret tt).
Proof.
  induction slots as [|slot slots IH]; intros w; cbn [for_ map].
  - unfold ret, on_scene. destruct w as [s d e b]. cbn. rewrite app_nil_r.
    destruct s; reflexivity.
  - unfold add_item at 1. rewrite bind_modify, IH. unfold on_scene. cbn.
    rewrite <- app_assoc. reflexivity.
Qed.

(** [execute] on a list whose entries all point to a material. *)
Lemma refresh_result w active_obj :
  active_object w = Some active_obj ->
  Forall (fun mat => item_material mat <> None) (material_group (scene w)) ->
  execute w =
    (on_scene (set_material_group
       (map (rebuilt_item (material_group (scene w))) (obj_material_slots active_obj)))
       (on_scene (fun s => set_objects
          (update_named (obj_name active_obj)
             (obj_with_active_material_index (custom_index (scene w))) (objects s)) s) w),
     Ret FINISHED).
Proof.
  intros Ha HF.
  destruct (save_selection_spec _ HF ∅) as (old & Hs & Hl).
  unfold execute. rewrite bind_gets. cbn beta. rewrite Hs, bind_modify. cbn beta.
  rewrite Ha. unfold set_objs. rewrite bind_modify. unfold bind. rewrite add_items.
  unfold ret. f_equal. unfold on_scene, set_material_group, set_objects. cbn.
  do 2 f_equal.
  apply map_ext. intros slot. unfold rebuilt_item. f_equal.
  unfold was_selected, kept_selected. rewrite Hl, lookup_empty.
  destruct (last_listed _ _) as [m|]; [|reflexivity]. destruct (item_selected m); reflexivity.
Qed.
End MaterialList.

(** C9 (amended): a refresh of the material list (with an active object,
    every listed entry pointing to a material) rebuilds one entry per
    material slot; a rebuilt entry is selected exactly when the last
    previously listed entry of the same material name was selected.  When
    the previous list names each material once, that is the flag of the
    same-named material. *)
Theorem material_list_refresh (w : World) (active_obj : Object) :
  active_object w = Some active_obj ->
  Forall (fun mat => item_material mat <> None) (material_group (scene w)) ->
  snd (SIMPLIFIER_OT_update_material_list.execute w) = Ret FINISHED /\
  material_group (scene (fst (SIMPLIFIER_OT_update_material_list.execute w))) =
    map (rebuilt_item (material_group (scene w))) (obj_material_slots active_obj) /\
  forall item,
    In item (material_group (scene (fst (SIMPLIFIER_OT_update_material_list.execute w)))) ->
    (item_selected item = true <->
     exists before mat after,
       material_group (scene w) = before ++ mat :: after /\
       item_material mat = Some (item_name item) /\
       item_selected mat = true /\
       Forall (fun mat' => item_material mat' <> Some (item_name item)) after).
Proof.
  intros Ha HF. rewrite (refresh_result w active_obj Ha HF). cbn [fst snd].
  split; [reflexivity|]. split; [reflexivity|].
  intros item Hi. cbn in Hi. apply in_map_iff in Hi as (slot & <- & _).
  cbn [rebuilt_item item_selected item_name]. unfold kept_selected. split.
  - destruct (last_listed _ _) as [m|] eqn:E; [|discriminate].
    intros Hsel. apply last_listed_Some in E as (b & a & Hg & Hm & Hafter).
    exists b, m, a. auto.
  - intros (b & m & a & Hg & Hm & Hsel & Hafter).
    assert (E : last_listed (SIMPLIFIER_OT_update_material_list.slot_name slot)
                  (material_group (scene w)) = Some m).
    { apply last_listed_Some. exists b, a. auto. }
    rewrite E. assumption.
Qed.

(** C9 (witness): one material in two slots, listed twice. *)
Lemma material_list_refresh_witness :
  active_object ticked_first_of_two =
    Some (mesh "Cube" true "Collection" [Some "Mat"; Some "Mat"]) /\
  snd (SIMPLIFIER_OT_update_material_list.execute ticked_first_of_two) = Ret FINISHED.
Proof.
  split; [reflexivity|].
  apply (material_list_refresh ticked_first_of_two
           (mesh "Cube" true "Collection" [Some "Mat"; Some "Mat"]) eq_refl).
  repeat constructor; discriminate.
Defined.

(** C9 (counterexample): the material "Mat" was listed twice, the first
    entry selected and the second not.  After the refresh no entry named
    "Mat" is selected, although a previously listed material of that name
    was. *)
Lemma material_list_refresh_last_entry_wins :
  In (item "Mat" true) (material_group (scene ticked_first_of_two)) /\
  snd (SIMPLIFIER_OT_update_material_list.execute ticked_first_of_two) = Ret FINISHED /\
  material_group (scene (fst (SIMPLIFIER_OT_update_material_list.execute
                                ticked_first_of_two))) =
    [item "Mat" false; item "Mat" false].
Proof. vm_compute. repeat split. left. reflexivity. Qed.

(** ** The option matrix *)










(** ** Counting the exporter calls of the batch export *)

Section BatchExport.
Import EXPORT_TESTER_OT_export_tester.

Lemma names_deselected w : names w = map obj_name (deselected w).
Proof. unfold names, deselected. rewrite map_map. reflexivity. Qed.

Lemma exportable_fixed self w w' :
  fixed w' = fixed w -> exportable self w -> exportable self w'.
Proof.
  unfold fixed, exportable. intros [= Hn Hc Hr Hf] (H1 & H2 & H3).
  rewrite !names_deselected, Hn, Hc, Hr, Hf. rewrite !names_deselected in H3. auto.
Qed.

Lemma fixed_names w w' : fixed w' = fixed w -> names w' = names w.
Proof. unfold fixed. intros [= H _ _ _]. rewrite !names_deselected. congruence. Qed.

Lemma fixed_failing w w' :
  fixed w' = fixed w -> export_failing (env w') = export_failing (env w).
Proof. unfold fixed. intros [= _ _ _ H]. assumption. Qed.

(** *** Sequencing *)

Lemma runs_bind {A B} (m : Py A) (f : A -> Py B) w k1 k2 Q Q' :
  runs m w k1 Q ->
  (forall a w1, Q a -> fixed w1 = fixed w -> runs (f a) w1 k2 Q') ->
  runs (bind m f) w (k1 + k2) Q'.
Proof.
  intros (a & w1 & Hm & Ha & Hf & Hc & Hw) Hk.
  destruct (Hk a w1 Ha Hf) as (b & w2 & Hm2 & Hb & Hf2 & Hc2 & Hw2).
  exists b, w2. unfold bind. rewrite Hm. split_and!; try assumption.
  - congruence.
  - lia.
  - lia.
Qed.

Lemma runs_bind0 {A B} (m : Py A) (f : A -> Py B) w k Q Q' :
  runs m w 0 Q ->
  (forall a w1, Q a -> fixed w1 = fixed w -> runs (f a) w1 k Q') ->
  runs (bind m f) w k Q'.
Proof. intros. change k with (0 + k)%nat. eapply runs_bind; eassumption. Qed.

Lemma runs_bind_r0 {A B} (m : Py A) (f : A -> Py B) w k Q Q' :
  runs m w k Q ->
  (forall a w1, Q a -> fixed w1 = fixed w -> runs (f a) w1 0 Q') ->
  runs (bind m f) w k Q'.
Proof. intros. rewrite <- (Nat.add_0_r k). eapply runs_bind; eassumption. Qed.

Lemma runs_ret {A} (a : A) w (Q : A -> Prop) : Q a -> runs (ret a) w 0 Q.
Proof. intros H. exists a, w. unfold calls, written. split_and!; auto. Qed.

Lemma runs_for_0 {A} (l : list A) (body : A -> Py unit) w (P : A -> Prop) :
  Forall P l ->
  (forall a w1, P a -> fixed w1 = fixed w -> runs (body a) w1 0 (fun _ => True)) ->
  runs (for_ l body) w 0 (fun _ => True).
Proof.
  intros HF Hb. revert w Hb. induction HF as [|a l Ha HF IH]; intros w Hb; cbn [for_].
  - apply runs_ret. exact I.
  - eapply runs_bind0; [apply Hb; auto|].
    intros _ w1 _ Hf. apply IH. intros a' w2 Ha' Hf2. apply Hb; [assumption|congruence].
Qed.

Lemma runs_for_each {A} (l : list A) (body : A -> Py unit) w :
  (forall a w1, fixed w1 = fixed w -> runs (body a) w1 1 (fun _ => True)) ->
  runs (for_ l body) w (List.length l) (fun _ => True).
Proof.
  revert w. induction l as [|a l IH]; intros w Hb; cbn [for_ List.length].
  - apply runs_ret. exact I.
  - change (S (List.length l)) with (1 + List.length l)%nat.
    eapply runs_bind; [apply Hb; reflexivity|].
    intros _ w1 _ Hf. apply IH. intros a' w2 Hf2. apply Hb. congruence.
Qed.

(** *** The steps of the export *)

Lemma runs_create_subdir self name path w :
  fs_readonly (env w) = [] ->
  runs (create_subdir self name path) w 0 (fun _ => True).
Proof.
  intros Hr. unfold runs, create_subdir, os_path_exists, os_makedirs, bind, gets, when.
  destruct (negb _).
  - rewrite Hr. cbn. eexists _, _. split; [reflexivity|]. split_and!; auto.
  - cbn. eexists _, _. split; [reflexivity|]. split_and!; auto.
Qed.

Lemma deselect_update_named n b l :
  map (obj_with_selected false) (update_named n (obj_with_selected b) l) =
  map (obj_with_selected false) l.
Proof.
  induction l as [|o l IH]; cbn; [reflexivity|].
  destruct (named n o); cbn; [reflexivity|]. f_equal. assumption.
Qed.

Lemma deselect_deselect l :
  map (obj_with_selected false) (map (obj_with_selected false) l) =
  map (obj_with_selected false) l.
Proof. rewrite map_map. reflexivity. Qed.

Lemma find_named n l : In n (map obj_name l) -> List.find (named n) l <> None.
Proof.
  induction l as [|o l IH]; cbn; [tauto|].
  intros [H|H].
  - unfold named. rewrite H, String.eqb_refl. discriminate.
  - destruct (named n o); [discriminate|auto].
Qed.

Lemma runs_select_set n b w :
  In n (names w) -> runs (select_set n b) w 0 (fun _ => True).
Proof.
  intros Hn. unfold runs, select_set. rewrite bind_gets. cbn beta.
  apply find_named in Hn.
  destruct (List.find (named n) (objects (scene w))) as [o|]; [|contradiction].
  unfold set_objs, modify. eexists _, _. split; [reflexivity|]. split_and!; auto.
  unfold fixed, deselected. cbn. rewrite deselect_update_named. reflexivity.
Qed.

Lemma runs_deselect w :
  runs (set_objs (map (obj_with_selected false))) w 0 (fun _ => True).
Proof.
  unfold runs, set_objs, modify. eexists _, _. split; [reflexivity|]. split_and!; auto.
  unfold fixed, deselected. cbn. rewrite deselect_deselect. reflexivity.
Qed.

Lemma runs_select_object n w :
  In n (names w) -> runs (select_object n) w 0 (fun _ => True).
Proof.
  intros Hn. unfold select_object. eapply runs_bind0; [apply runs_deselect|].
  intros _ w1 _ Hf. apply runs_select_set. rewrite (fixed_names _ _ Hf). assumption.
Qed.

Lemma runs_select_objects_in_collection self w :
  exportable self w -> separate_collection self <> None ->
  runs (select_objects_in_collection self) w 0 (fun _ => True).
Proof.
  intros (_ & _ & Hc) Hs. unfold select_objects_in_collection.
  eapply runs_bind0; [apply runs_deselect|]. intros _ w1 _ Hf.
  destruct (separate_collection self) as [c|]; [|congruence].
  destruct (Hc c eq_refl) as (all & Hd & Hall).
  unfold runs. rewrite bind_gets. cbn beta.
  assert (E : collections (scene w1) = collections (scene w)).
  { unfold fixed in Hf. congruence. }
  rewrite E, Hd. apply (runs_for_0 _ _ _ _ Hall).
  intros n w2 Hn Hf2. apply runs_select_set.
  rewrite (fixed_names _ _ Hf2), (fixed_names _ _ Hf). assumption.
Qed.

Lemma runs_export_one format func obj_dir name option w :
  export_failing (env w) = [] -> EXPORT_FUNCS !! format = Some func ->
  runs (export_one format obj_dir name option) w 1 (fun _ => True).
Proof.
  intros Hf He. unfold runs, export_one. rewrite He. unfold ops_export.
  rewrite bind_gets. cbn beta. rewrite Hf. cbn [str_in existsb]. unfold modify.
  eexists _, _. split; [reflexivity|]. split_and!; auto.
  - unfold calls. cbn. rewrite length_app. reflexivity.
  - unfold written. cbn. rewrite length_app. reflexivity.
Qed.

Lemma runs_export_selected self format func options sub_dir name w :
  exportable self w ->
  EXPORT_FUNCS !! format = Some func ->
  export_options self !! format = Some options ->
  runs (export_selected self format sub_dir name) w (size options) (fun _ => True).
Proof.
  intros (Hr & Hf & _) He Ho. unfold export_selected.
  eapply runs_bind0; [apply runs_create_subdir; assumption|].
  intros obj_dir w1 _ Hf1. rewrite Ho. rewrite <- length_map_to_list.
  apply runs_for_each. intros option w2 Hf2.
  eapply runs_export_one; [|eassumption].
  rewrite (fixed_failing _ _ Hf2), (fixed_failing _ _ Hf1). assumption.
Qed.

(** *** The loop over the objects *)

Lemma runs_export_objects self format func options sub_dir objs :
  EXPORT_FUNCS !! format = Some func ->
  export_options self !! format = Some options ->
  forall collection_exported w,
    exportable self w ->
    Forall (fun o => In (obj_name o) (names w)) objs ->
    runs (export_objects self format sub_dir objs collection_exported) w
      (units_from (separate_collection self) objs collection_exported * size options)
      (fun _ => True).
Proof.
  intros He Ho. induction objs as [|obj objs IH]; intros ce w Hx HF; cbn [export_objects].
  - unfold units_from. cbn. destruct ce; apply runs_ret; exact I.
  - inversion HF as [|? ? Hn HF']; subst.
    assert (Hstep : forall w1, fixed w1 = fixed w ->
              exportable self w1 /\ Forall (fun o => In (obj_name o) (names w1)) objs).
    { intros w1 Hf. split; [eapply exportable_fixed; eassumption|].
      rewrite (fixed_names _ _ Hf). assumption. }
    unfold units_from. cbn [List.filter]. unfold exported_alone at 1, exported_together at 1.
    unfold in_separate.
    destruct (is_mesh obj && obj_visible obj); cbn [andb].
    + destruct (bool_decide_reflect
                  (Some (obj_users_collection0 obj) = separate_collection self))
        as [Es|Es]; cbn [negb].
      * destruct ce.
        -- specialize (IH true w Hx HF'). unfold units_from in IH. exact IH.
        -- cbn [List.length].
           replace ((List.length
                       (List.filter (exported_alone (separate_collection self)) objs) +
                     Nat.min 1 (S (List.length
                        (List.filter (exported_together (separate_collection self)) objs)))) *
                    size options)%nat
             with (0 + (size options +
                    units_from (separate_collection self) objs true * size options))%nat
             by (unfold units_from; cbn; lia).
           eapply runs_bind.
           { apply runs_select_objects_in_collection; [assumption|].
             rewrite <- Es. discriminate. }
           intros _ w1 _ Hf1. destruct (Hstep w1 Hf1) as [Hx1 HF1].
           eapply runs_bind.
           { eapply runs_export_selected; eassumption. }
           intros _ w2 _ Hf2. destruct (Hstep w2) as [Hx2 HF2]; [congruence|].
           apply IH; assumption.
      * cbn [List.length].
        replace ((S (List.length
                       (List.filter (exported_alone (separate_collection self)) objs)) +
                  (if ce then 0
                   else Nat.min 1 (List.length
                          (List.filter (exported_together (separate_collection self)) objs)))) *
                 size options)%nat
          with (0 + (size options +
                 units_from (separate_collection self) objs ce * size options))%nat
          by (unfold units_from; lia).
        eapply runs_bind.
        { apply runs_select_object. assumption. }
        intros _ w1 _ Hf1. destruct (Hstep w1 Hf1) as [Hx1 HF1].
        eapply runs_bind.
        { eapply runs_export_selected; eassumption. }
        intros _ w2 _ Hf2. destruct (Hstep w2) as [Hx2 HF2]; [congruence|].
        apply IH; assumption.
    + specialize (IH ce w Hx HF'). unfold units_from in IH. exact IH.
Qed.

Lemma filter_deselect (p : Object -> bool) l :
  (forall o, p (obj_with_selected false o) = p o) ->
  List.length (List.filter p (map (obj_with_selected false) l)) =
  List.length (List.filter p l).
Proof.
  intros Hp. induction l as [|o l IH]; cbn; [reflexivity|].
  rewrite Hp. destruct (p o); cbn; congruence.
Qed.

Lemma export_units_deselect sep l :
  export_units sep (map (obj_with_selected false) l) = export_units sep l.
Proof. unfold export_units. rewrite !filter_deselect by reflexivity. reflexivity. Qed.

Lemma export_units_fixed sep w w' :
  fixed w' = fixed w ->
  export_units sep (objects (scene w')) = export_units sep (objects (scene w)).
Proof.
  unfold fixed, deselected. intros [= H _ _ _].
  rewrite <- (export_units_deselect sep (objects (scene w'))), H.
  apply export_units_deselect.
Qed.

(** *** One format, then all of them *)

Lemma runs_perform_export self format func options w :
  exportable self w ->
  EXPORT_FUNCS !! format = Some func ->
  export_options self !! format = Some options ->
  runs (perform_export self format) w
    (export_units (separate_collection self) (objects (scene w)) * size options)
    (fun ok => ok = true).
Proof.
  intros Hx He Ho. unfold perform_export.
  eapply runs_bind0; [apply runs_create_subdir; apply Hx|].
  intros sub_dir w1 _ Hf1.
  unfold runs. rewrite bind_gets. cbn beta.
  rewrite <- (export_units_fixed _ _ _ Hf1).
  replace (export_units (separate_collection self) (objects (scene w1)) * size options)%nat
    with (units_from (separate_collection self) (objects (scene w1)) false *
          size options + 0)%nat
    by (unfold units_from, export_units; lia).
  eapply runs_bind.
  - eapply runs_export_objects; try eassumption.
    + eapply exportable_fixed; eassumption.
    + apply Forall_forall. intros o Ho'. apply in_map, list_elem_of_In. assumption.
  - intros _ w2 _ Hf2. apply runs_ret. reflexivity.
Qed.

Lemma runs_export_formats self current_mode active_obj fs :
  Forall (fun f => is_Some (EXPORT_FUNCS !! f) /\ is_Some (export_options self !! f)) fs ->
  forall w, exportable self w ->
  runs (export_formats self current_mode active_obj fs) w
    (export_units (separate_collection self) (objects (scene w)) *
     sum_list (map (option_count self) fs))
    (fun r => r = None).
Proof.
  unfold export_formats.
  induction 1 as [|f fs [[func He] [options Ho]] HF IH]; intros w Hx;
    cbn [for_return map sum_list].
  - rewrite Nat.mul_0_r. apply runs_ret. reflexivity.
  - unfold option_count at 1. rewrite Ho.
    rewrite Nat.mul_add_distr_l.
    eapply (runs_bind _ _ _ _ _ (fun r => r = None)).
    + eapply runs_bind_r0; [eapply runs_perform_export; eassumption|].
      intros ok w1 -> Hf1. cbn [negb]. apply runs_ret. reflexivity.
    + intros r w1 -> Hf1. rewrite <- (export_units_fixed _ _ _ Hf1).
      apply IH. eapply exportable_fixed; eassumption.
Qed.
End BatchExport.




(** * Further properties of the operators *)

(** ** Directories and unwrapping *)

(** [create_subdir] by cases on the file system. *)
Lemma create_subdir_cases (name : string) (path : option string) (w : World) :
  create_subdir name path w =
    if str_in (subdir_path name path w) (fs_exists (env w)) then
      (w, Ret (subdir_path name path w))
    else if str_in (subdir_path name path w) (fs_readonly (env w)) then
      (w, Ret "")
    else (directory_added (subdir_path name path w) w, Ret (subdir_path name path w)).
Proof.
  unfold create_subdir. rewrite bind_gets. cbn beta zeta.
  fold (subdir_path name path w). generalize (subdir_path name path w). intros p.
  unfold os_path_exists. rewrite bind_gets. cbn beta.
  destruct (str_in p (fs_exists (env w))); cbn [negb]; [reflexivity|].
  cbv beta iota delta [directory_added bind try_except os_makedirs gets raise modify ret].
  destruct (str_in p (fs_readonly (env w))); reflexivity.
Qed.

Lemma str_in_app s l1 l2 : str_in s (l1 ++ l2) = str_in s l1 || str_in s l2.
Proof. unfold str_in. apply existsb_app. Qed.

(** X1: on a host that refuses to create a directory with [PermissionError] only,
    [create_subdir] never raises.  It returns the empty string or a directory
    that exists afterwards, leaves the scene and the data-blocks as they
    were, and a second call with the same arguments returns the same result
    and changes nothing. *)
Theorem create_subdir_never_raises_and_repeats (name : string) (path : option string)
    (w : World) :
  exists s,
    snd (create_subdir name path w) = Ret s /\
    (s = "" \/ str_in s (fs_exists (env (fst (create_subdir name path w)))) = true) /\
    scene (fst (create_subdir name path w)) = scene w /\
    data (fst (create_subdir name path w)) = data w /\
    create_subdir name path (fst (create_subdir name path w)) =
      (fst (create_subdir name path w), Ret s).
Proof.
  rewrite (create_subdir_cases name path w).
  destruct (str_in (subdir_path name path w) (fs_exists (env w))) eqn:E1.
  - exists (subdir_path name path w). cbn [fst snd]. split_and!; auto.
    rewrite create_subdir_cases, E1. reflexivity.
  - destruct (str_in (subdir_path name path w) (fs_readonly (env w))) eqn:E2.
    + exists "". cbn [fst snd]. split_and!; auto.
      rewrite create_subdir_cases, E1, E2. reflexivity.
    + exists (subdir_path name path w). cbn [fst snd].
      assert (E3 : str_in (subdir_path name path w)
                     (fs_exists (env (directory_added (subdir_path name path w) w))) = true).
      { unfold directory_added, on_env, set_fs_exists. cbn [env fs_exists].
        rewrite str_in_app. cbn. rewrite String.eqb_refl. apply orb_true_r. }
      split_and!; auto.
      rewrite create_subdir_cases.
      change (subdir_path name path (directory_added (subdir_path name path w) w))
        with (subdir_path name path w).
      rewrite E3. reflexivity.
Qed.

(** X2: [unwrap] does nothing when the scene's [model_unwrapped] flag is set;
    when it returns, the flag is set, so that a second call does nothing;
    with the flag unset and no active object it raises [RuntimeError] and
    the flag stays unset. *)
Theorem unwrap_runs_once (w : World) :
  (model_unwrapped (scene w) = true -> unwrap w = (w, Ret tt)) /\
  (forall w', unwrap w = (w', Ret tt) ->
     model_unwrapped (scene w') = true /\ unwrap w' = (w', Ret tt)) /\
  (model_unwrapped (scene w) = false -> active_object w = None ->
     snd (unwrap w) = Raise RuntimeError /\
     model_unwrapped (scene (fst (unwrap w))) = false).
Proof.
  assert (H1 : forall w, model_unwrapped (scene w) = true -> unwrap w = (w, Ret tt)).
  { intros w0 H. unfold unwrap. rewrite bind_gets. cbn beta. rewrite H. reflexivity. }
  split; [apply H1|]. split.
  - intros w' H. assert (Hu : model_unwrapped (scene w') = true).
    { destruct (model_unwrapped (scene w)) eqn:E.
      - rewrite (H1 w E) in H. congruence.
      - unfold unwrap in H. rewrite bind_gets in H. cbn beta in H. rewrite E in H.
        cbn [negb] in H.
        repeat (apply bind_ret_inv in H as (? & ? & _ & H)).
        unfold modify in H. injection H as <-. reflexivity. }
    split; [assumption|apply H1; assumption].
  - intros E Ha.
    assert (Hu : exists w1, unwrap w = (w1, Raise RuntimeError) /\
                            model_unwrapped (scene w1) = false).
    { unfold unwrap. rewrite bind_gets. cbn beta. rewrite E. cbn [negb].
      unfold ops_object_transform_apply, set_objs. rewrite bind_modify. cbn beta.
      match goal with |- context [bind _ _ ?w1] => set (w1' := w1) end.
      assert (Ha' : active_object w1' = None).
      { revert Ha. unfold active_object. subst w1'.
        cbn [scene on_scene set_objects active objects].
        destruct (active (scene w)) as [n|]; [|reflexivity].
        induction (objects (scene w)) as [|o l IH]; cbn [map List.find]; [reflexivity|].
        unfold named in *. destruct (obj_selected o); cbn [obj_name obj_with_transform];
          destruct (String.eqb (obj_name o) n); try discriminate; auto. }
      unfold ops_object_mode_set at 1. rewrite bind_assoc, bind_gets. cbn beta.
      rewrite Ha'. exists w1'. split; [reflexivity|exact E]. }
    destruct Hu as (w1 & -> & Hu). auto.
Qed.

(** ** Edges of the material list *)

Section MaterialListEdges.
Import SIMPLIFIER_OT_update_material_list.

Lemma save_selection_raises group :
  Exists (fun mat => item_material mat = None) group ->
  forall acc, save_selection group acc = Raise AttributeError.
Proof.
  induction group as [|mat group IH]; intros H acc.
  - inversion H.
  - cbn [save_selection]. destruct (item_material mat) as [n|] eqn:E; [|reflexivity].
    apply IH. inversion H; subst; [congruence|assumption].
Qed.

Lemma find_update_named n f l o :
  (forall o, obj_name (f o) = obj_name o) ->
  List.find (named n) l = Some o ->
  List.find (named n) (update_named n f l) = Some (f o).
Proof.
  intros Hf. induction l as [|x l IH]; cbn [List.find update_named]; [discriminate|].
  destruct (named n x) eqn:E.
  - intros [= ->]. cbn [List.find]. unfold named in *. rewrite Hf, E. reflexivity.
  - intros H. cbn [List.find]. rewrite E. auto.
Qed.

Lemma update_named_twice n f l :
  (forall o, obj_name (f o) = obj_name o) -> (forall o, f (f o) = f o) ->
  update_named n f (update_named n f l) = update_named n f l.
Proof.
  intros Hn Hf. induction l as [|x l IH]; cbn [update_named]; [reflexivity|].
  destruct (named n x) eqn:E; cbn [update_named].
  - unfold named in *. rewrite Hn, E, Hf. reflexivity.
  - rewrite E, IH. reflexivity.
Qed.

Lemma find_named_name n l o : List.find (named n) l = Some o -> obj_name o = n.
Proof.
  intros H. apply find_some in H as [_ H]. unfold named in H.
  apply String.eqb_eq. assumption.
Qed.

Lemma kept_selected_rebuilt group slots n :
  In (Some n) slots ->
  kept_selected n (map (rebuilt_item group) slots) = kept_selected n group.
Proof.
  intros Hin. unfold kept_selected at 1.
  destruct (last_listed n (map (rebuilt_item group) slots)) as [m|] eqn:E.
  - apply last_listed_Some in E as (b & a & Hg & Hm & _).
    assert (Hi : In m (map (rebuilt_item group) slots)).
    { rewrite Hg. apply in_or_app. right. left. reflexivity. }
    apply in_map_iff in Hi as (slot & <- & _). cbn in Hm. subst slot. reflexivity.
  - apply last_listed_None in E. rewrite List.Forall_forall in E.
    exfalso. apply (E (rebuilt_item group (Some n))); [|reflexivity].
    apply in_map. assumption.
Qed.
End MaterialListEdges.

(** X3: without an active object, and with every listed entry still pointing
    to a material, the refresh of the material list empties the list,
    changes nothing else and finishes. *)
Theorem material_list_without_active_object (w : World) :
  active_object w = None ->
  Forall (fun mat => item_material mat <> None) (material_group (scene w)) ->
  SIMPLIFIER_OT_update_material_list.execute w = (list_cleared w, Ret FINISHED).
Proof.
  intros Ha HF.
  destruct (save_selection_spec _ HF ∅) as (old & Hs & _).
  unfold SIMPLIFIER_OT_update_material_list.execute.
  rewrite bind_gets. cbn beta. rewrite Hs, bind_modify. cbn beta. rewrite Ha. reflexivity.
Qed.

(** X3 (witness): no object is active and two entries are listed. *)
Lemma material_list_without_active_object_witness :
  active_object no_active_object = None /\
  SIMPLIFIER_OT_update_material_list.execute no_active_object =
    (list_cleared no_active_object, Ret FINISHED).
Proof.
  split; [reflexivity|].
  apply (material_list_without_active_object no_active_object eq_refl).
  repeat constructor; discriminate.
Defined.

(** X4: if a listed entry has lost its material, the refresh of the material
    list raises [AttributeError] while it saves the selection, before the
    list is cleared: nothing has changed. *)
Theorem material_list_entry_without_material (w : World) :
  Exists (fun mat => item_material mat = None) (material_group (scene w)) ->
  SIMPLIFIER_OT_update_material_list.execute w = (w, Raise AttributeError).
Proof.
  intros H. unfold SIMPLIFIER_OT_update_material_list.execute.
  rewrite bind_gets. cbn beta. rewrite (save_selection_raises _ H). reflexivity.
Qed.

(** X4 (witness): the second listed entry has lost its material. *)
Lemma material_list_entry_without_material_witness :
  Exists (fun mat => item_material mat = None)
    (material_group (scene list_with_lost_material)) /\
  SIMPLIFIER_OT_update_material_list.execute list_with_lost_material =
    (list_with_lost_material, Raise AttributeError).
Proof.
  assert (H : Exists (fun mat => item_material mat = None)
                (material_group (scene list_with_lost_material))).
  { apply Exists_cons_tl, Exists_cons_hd. reflexivity. }
  split; [exact H|].
  apply (material_list_entry_without_material list_with_lost_material H).
Defined.

(** X5: if the active object has an empty material slot, the refresh finishes
    and lists an entry without material, so that the next refresh raises
    [AttributeError] and leaves the list as it is. *)
Theorem material_list_empty_slot_breaks_next_refresh (w : World) (active_obj : Object) :
  active_object w = Some active_obj ->
  Forall (fun mat => item_material mat <> None) (material_group (scene w)) ->
  In None (obj_material_slots active_obj) ->
  snd (SIMPLIFIER_OT_update_material_list.execute w) = Ret FINISHED /\
  SIMPLIFIER_OT_update_material_list.execute
      (fst (SIMPLIFIER_OT_update_material_list.execute w)) =
    (fst (SIMPLIFIER_OT_update_material_list.execute w), Raise AttributeError).
Proof.
  intros Ha HF Hin. rewrite (refresh_result w active_obj Ha HF). cbn [fst snd].
  split; [reflexivity|].
  unfold SIMPLIFIER_OT_update_material_list.execute at 1. rewrite bind_gets. cbn beta.
  rewrite save_selection_raises; [reflexivity|].
  cbn [scene on_scene set_material_group material_group].
  apply Exists_exists. exists (rebuilt_item (material_group (scene w)) None).
  split; [|reflexivity]. apply list_elem_of_In, in_map. assumption.
Qed.

(** X5 (witness): the second slot of the active object is empty. *)
Lemma material_list_empty_slot_breaks_next_refresh_witness :
  In None (obj_material_slots cube_with_empty_slot) /\
  snd (SIMPLIFIER_OT_update_material_list.execute empty_second_slot) = Ret FINISHED.
Proof.
  assert (H : In None (obj_material_slots cube_with_empty_slot)) by (right; left; reflexivity).
  split; [exact H|].
  refine (proj1 (material_list_empty_slot_breaks_next_refresh empty_second_slot
                   cube_with_empty_slot eq_refl _ H)).
  repeat constructor; discriminate.
Defined.

(** X6: if every material slot of the active object is filled, refreshing the
    material list a second time finishes and changes nothing: the refresh is
    idempotent. *)
Theorem material_list_refresh_twice (w : World) (active_obj : Object) :
  active_object w = Some active_obj ->
  Forall (fun mat => item_material mat <> None) (material_group (scene w)) ->
  all_slots_filled active_obj ->
  SIMPLIFIER_OT_update_material_list.execute
      (fst (SIMPLIFIER_OT_update_material_list.execute w)) =
    (fst (SIMPLIFIER_OT_update_material_list.execute w), Ret FINISHED).
Proof.
  intros Ha HF Hs. rewrite (refresh_result w active_obj Ha HF). cbn [fst].
  set (f := obj_with_active_material_index (custom_index (scene w))).
  set (w1 := on_scene _ (on_scene _ w)).
  assert (Ha1 : active_object w1 = Some (f active_obj)).
  { revert Ha. unfold active_object. subst w1. cbn.
    destruct (active (scene w)) as [a|]; [|discriminate]. intros Hfind.
    rewrite (find_named_name _ _ _ Hfind).
    apply find_update_named; [reflexivity|assumption]. }
  assert (HF1 : Forall (fun mat => item_material mat <> None) (material_group (scene w1))).
  { subst w1. cbn. apply Forall_map. eapply Forall_impl; [exact Hs|].
    intros slot H. exact H. }
  rewrite (refresh_result w1 (f active_obj) Ha1 HF1).
  assert (Hm : map (rebuilt_item (material_group (scene w1)))
                 (obj_material_slots (f active_obj)) =
               map (rebuilt_item (material_group (scene w))) (obj_material_slots active_obj)).
  { subst w1. cbn [scene on_scene set_material_group material_group f
                   obj_with_active_material_index obj_material_slots].
    apply map_ext_in. intros slot Hin. unfold rebuilt_item. f_equal.
    destruct slot as [n|].
    - cbn. apply kept_selected_rebuilt. assumption.
    - unfold all_slots_filled in Hs. rewrite List.Forall_forall in Hs.
      exfalso. apply (Hs None); [assumption|reflexivity]. }
  rewrite Hm. subst w1. unfold on_scene. cbn.
  rewrite update_named_twice by reflexivity. reflexivity.
Qed.

(** X6 (witness): one material in two filled slots. *)
Lemma material_list_refresh_twice_witness :
  all_slots_filled (mesh "Cube" true "Collection" [Some "Mat"; Some "Mat"]) /\
  SIMPLIFIER_OT_update_material_list.execute
      (fst (SIMPLIFIER_OT_update_material_list.execute ticked_first_of_two)) =
    (fst (SIMPLIFIER_OT_update_material_list.execute ticked_first_of_two), Ret FINISHED).
Proof.
  assert (H : all_slots_filled (mesh "Cube" true "Collection" [Some "Mat"; Some "Mat"])).
  { repeat constructor; discriminate. }
  split; [exact H|].
  refine (material_list_refresh_twice ticked_first_of_two _ eq_refl _ H).
  repeat constructor; discriminate.
Defined.

(** ** Allocation that succeeds *)

Section AllocationOk.
Import SIMPLIFIER_OT_bake.

Lemma find_app_r {A} (f : A -> bool) l1 l2 :
  List.find f l1 = None -> List.find f (l1 ++ l2) = List.find f l2.
Proof.
  induction l1 as [|a l1 IH]; cbn; [reflexivity|].
  destruct (f a); [discriminate|auto].
Qed.



Lemma generate_loop_false texture_name maps : forall w w' b,
  for_return maps (generate_one texture_name) w = (w', Ret (Some b)) -> b = false.
Proof.
  induction maps as [|m maps IH]; intros w w' b; cbn [for_return]; [discriminate|].
  intros H. apply bind_ret_inv in H as (r & w1 & H1 & H2).
  destruct r as [b'|]; [|eauto].
  injection H2 as <- <-. rewrite generate_one_spec in H1. cbn zeta in H1.
  destruct (List.find _ _); [destruct (_ && _)|]; congruence.
Qed.

Lemma generate_texture_true texture_name w w' :
  generate_texture texture_name w = (w', Ret true) ->
  let maps := remove_dups (map channel (baker_bake_types (baker (scene w)))) in
  String.eqb (strip (baker_texture_name (baker (scene w)))) "" = false /\
  for_return maps (generate_one texture_name)
    (on_self (set_textures_to_create maps) w) = (w', Ret None).
Proof.
  unfold generate_texture. rewrite bind_gets. cbn beta.
  destruct (String.eqb _ "") eqn:E.
  - rewrite bind_report. unfold ret. discriminate.
  - rewrite bind_modify, bind_gets. cbn beta. intros H.
    apply bind_ret_inv in H as (r & w1 & H1 & H2).
    cbn zeta. split; [reflexivity|].
    change (textures_to_create (self (on_self _ w))) with
      (remove_dups (map channel (baker_bake_types (baker (scene w))))) in H1.
    destruct r as [b|]; unfold ret in H2.
    + injection H2 as <- ->. apply generate_loop_false in H1. discriminate.
    + injection H2 as <-. exact H1.
Qed.


End AllocationOk.





(** ** Node placement and the output node *)

Section NodePlacement.
Import SIMPLIFIER_OT_bake.

End NodePlacement.


Section MissingOutput.
Import SIMPLIFIER_OT_bake.

Lemma output_of_none nt :
  output_of nt = None <->
  Forall (fun node => node_type node <> OUTPUT_MATERIAL) (nodes nt).
Proof.
  unfold output_of.
  assert (H : forall l acc,
            fold_left (fun found node =>
               match node_type node with
               | OUTPUT_MATERIAL => Some (node_id node)
               | _ => found
               end) l acc = None <->
            acc = None /\ Forall (fun node => node_type node <> OUTPUT_MATERIAL) l).
  { induction l as [|n l IH]; intros acc; cbn [fold_left].
    - split; [intros ->; split; [reflexivity|constructor]|intros [-> _]; reflexivity].
    - rewrite IH. split.
      + intros [Ha HF]. destruct (node_type n) eqn:E; try discriminate;
          (split; [assumption|constructor; [congruence|assumption]]).
      + intros [-> HF]. inversion HF as [|? ? Hn HF']; subst.
        split; [|assumption]. destruct (node_type n); congruence. }
  rewrite H. split; [intros [_ HF]; exact HF|intros HF; split; [reflexivity|exact HF]].
Qed.

Lemma prepare_new_nodes_start node_tree c nt w :
  trees (data w) !! node_tree = Some nt ->
  (output_of nt = None -> prepare_new_nodes node_tree c w = (w, Ret (false, c))) /\
  (forall o, output_of nt = Some o -> surface_links nt o = [] ->
     prepare_new_nodes node_tree c w = (w, Raise IndexError)).
Proof.
  intros Ht. unfold prepare_new_nodes, get_tree. rewrite bind_assoc, bind_gets. cbn beta.
  rewrite Ht, bind_ret_l, bind_gets. cbn beta zeta. fold (output_of nt). split.
  - intros ->. reflexivity.
  - intros o -> Hl. fold (surface_links nt o). rewrite Hl. reflexivity.
Qed.
End MissingOutput.

(** X10: on a tree without an output node [prepare_new_nodes] returns [False]
    and changes nothing; on a tree whose (last) output node has no link
    into its surface input it raises [IndexError], and nothing has changed
    either. *)
Theorem prepare_new_nodes_needs_wired_output (node_tree : string) (c : ConnectToOutputs)
    (nt : NodeTree) (w : World) :
  trees (data w) !! node_tree = Some nt ->
  (Forall (fun node => node_type node <> OUTPUT_MATERIAL) (nodes nt) ->
     SIMPLIFIER_OT_bake.prepare_new_nodes node_tree c w = (w, Ret (false, c))) /\
  (forall o, output_of nt = Some o -> surface_links nt o = [] ->
     SIMPLIFIER_OT_bake.prepare_new_nodes node_tree c w = (w, Raise IndexError)).
Proof.
  intros Ht. destruct (prepare_new_nodes_start node_tree c nt w Ht) as [H1 H2].
  split; [|exact H2]. intros HF. apply H1. apply output_of_none. exact HF.
Qed.

(** X10 (witness): the tree of the material has lost its output node. *)
Lemma prepare_new_nodes_needs_wired_output_witness :
  trees (data second_material_bare) !! "Bare" = Some tree_without_output /\
  SIMPLIFIER_OT_bake.prepare_new_nodes "Bare" {| connect_new := []; connect_old := [] |}
      second_material_bare =
    (second_material_bare, Ret (false, {| connect_new := []; connect_old := [] |})).
Proof.
  assert (H : trees (data second_material_bare) !! "Bare" = Some tree_without_output)
    by reflexivity.
  split; [exact H|].
  apply (proj1 (prepare_new_nodes_needs_wired_output "Bare"
                  {| connect_new := []; connect_old := [] |} tree_without_output
                  second_material_bare H)).
  repeat constructor; discriminate.
Defined.



(** ** Cleanup and the materials to bake *)

Section Loops.
Lemma for_split {A} (body : A -> Py unit) l1 x l2 : forall w w',
  for_ (l1 ++ x :: l2) body w = (w', Ret tt) ->
  exists wa wb,
    for_ l1 body w = (wa, Ret tt) /\ body x wa = (wb, Ret tt) /\
    for_ l2 body wb = (w', Ret tt).
Proof.
  induction l1 as [|a l1 IH]; intros w w'; cbn [app for_].
  - intros H. apply bind_ret_inv in H as ([] & wb & Hb & Hr).
    exists w, wb. auto.
  - intros H. apply bind_ret_inv in H as ([] & w1 & Ha & Hr).
    destruct (IH _ _ Hr) as (wa & wb & H1 & H2 & H3).
    exists wa, wb. split_and!; try assumption.
    unfold bind. rewrite Ha. assumption.
Qed.

Lemma stable_for_in {A} (P : World -> Prop) (l : list A) body :
  (forall a, In a l -> stable P (body a)) -> stable P (for_ l body).
Proof.
  induction l as [|a l IH]; intros H; cbn [for_].
  - apply stable_ret.
  - apply stable_bind; [apply H; left; reflexivity|].
    intros _. apply IH. intros b Hb. apply H. right. assumption.
Qed.
End Loops.

Section CleanupExact.
Import SIMPLIFIER_OT_bake.

Lemma stable_clean_up_absent t n : stable (absent t n) (clean_up None).
Proof.
  intros w Hw. unfold clean_up. rewrite bind_gets. cbn beta.
  revert Hw. apply stable_for_. intros [t' d]. cbn [truthy negb]. apply stable_remove_all.
Qed.

Lemma nodes_remove_keeps_present t node t' i w :
  (t' = t -> i <> node_id node) ->
  present t node w -> present t node (fst (nodes_remove t' i w)).
Proof.
  intros Hne (nt & Ht & Hin). pose proof (nodes_remove_spec t' i w) as S.
  destruct (trees (data w) !! t') as [nt'|] eqn:E; [|rewrite S; exists nt; auto].
  destruct (List.find (node_is i) (nodes nt')); [|rewrite S; exists nt; auto].
  destruct S as (nt2 & Hn & He). rewrite He. cbn [fst].
  destruct (decide (t' = t)) as [->|Hd].
  - exists nt2. cbn. rewrite lookup_insert_eq. split; [reflexivity|].
    rewrite Hn. rewrite E in Ht. injection Ht as ->.
    apply filter_In. split; [assumption|]. unfold node_is.
    apply negb_true_iff, Nat.eqb_neq. intros Heq. apply Hne; [reflexivity|]. symmetry. exact Heq.
  - exists nt. cbn. rewrite lookup_insert_ne by assumption. auto.
Qed.

Lemma nodes_remove_frame t i w :
  scene (fst (nodes_remove t i w)) = scene w /\ env (fst (nodes_remove t i w)) = env w /\
  self (fst (nodes_remove t i w)) = self w /\
  images (data (fst (nodes_remove t i w))) = images (data w).
Proof.
  pose proof (nodes_remove_spec t i w) as S.
  destruct (trees (data w) !! t) as [nt|]; [|rewrite S; auto].
  destruct (List.find (node_is i) (nodes nt)); [|rewrite S; auto].
  destruct S as (nt' & _ & ->). auto.
Qed.
End CleanupExact.

(** X12: when the cleanup of the bake operator returns, every node on the
    operator's records is gone from its tree, every other node of a tree is
    still there, and the scene, the environment, the records and the images
    are as before. *)
Theorem clean_up_removes_recorded_only (w w' : World) :
  SIMPLIFIER_OT_bake.clean_up None w = (w', Ret tt) ->
  (forall t n, recorded t n w -> absent t n w') /\
  (forall t node, present t node w -> ~ recorded t (node_id node) w -> present t node w') /\
  scene w' = scene w /\ env w' = env w /\ self w' = self w /\
  images (data w') = images (data w).
Proof.
  intros H.
  assert (Hf : keeps (fun w => (scene w, env w, self w, images (data w)))
                 (SIMPLIFIER_OT_bake.clean_up None)) by keeps_auto.
  specialize (Hf w). rewrite H in Hf. cbn [fst] in Hf.
  split_and!.
  - intros t n (d & k & Hd & Hk).
    apply in_split in Hd as (l1 & l2 & Hl).
    unfold SIMPLIFIER_OT_bake.clean_up in H. rewrite bind_gets in H. cbn beta in H.
    rewrite Hl in H. apply for_split in H as (wa & wb & _ & Hb & Hr).
    cbn [truthy negb] in Hb.
    apply (in_map snd) in Hk. cbn [snd] in Hk. fold (dict_values d) in Hk.
    apply in_split in Hk as (v1 & v2 & Hv). rewrite Hv in Hb.
    apply for_split in Hb as (wc & wd & _ & Hrm & Hrest).
    apply nodes_remove_absent in Hrm.
    assert (Hwb : absent t n wb).
    { eapply stable_run; [apply stable_remove_all|exact Hrest|exact Hrm]. }
    eapply stable_run; [|exact Hr|exact Hwb].
    apply stable_for_. intros [t' d']. apply stable_remove_all.
  - intros t node Hp Hn.
    unfold SIMPLIFIER_OT_bake.clean_up in H. rewrite bind_gets in H. cbn beta in H.
    eapply stable_run; [|exact H|exact Hp].
    apply stable_for_in. intros [t' d] Hin. cbn [truthy negb].
    apply stable_for_in. intros i Hi w0 Hw0. apply nodes_remove_keeps_present; [|assumption].
    intros -> ->. apply Hn. unfold dict_values in Hi. apply in_map_iff in Hi as ([k i'] & Hi1 & Hi2).
    cbn in Hi1. subst i'. exists d, k. auto.
  - congruence.
  - congruence.
  - congruence.
  - congruence.
Qed.

(** X12 (witness): the image node of the diffuse channel is on record. *)
Lemma clean_up_removes_recorded_only_witness :
  recorded "Mat" 2 nodes_prepared /\
  absent "Mat" 2 (fst (SIMPLIFIER_OT_bake.clean_up None nodes_prepared)).
Proof.
  assert (H : SIMPLIFIER_OT_bake.clean_up None nodes_prepared =
              (fst (SIMPLIFIER_OT_bake.clean_up None nodes_prepared), Ret tt)).
  { assert (E : snd (SIMPLIFIER_OT_bake.clean_up None nodes_prepared) = Ret tt)
      by (vm_compute; reflexivity).
    destruct (SIMPLIFIER_OT_bake.clean_up None nodes_prepared) as [w' r].
    cbn [fst snd] in *. rewrite E. reflexivity. }
  assert (Hr : recorded "Mat" 2 nodes_prepared).
  { exists [("diffuse", 2%nat)], "diffuse". split; left; reflexivity. }
  split; [exact Hr|].
  apply (proj1 (clean_up_removes_recorded_only nodes_prepared _ H) "Mat" 2%nat Hr).
Defined.

Section SelectedMaterials.
Import SIMPLIFIER_OT_bake.

Lemma selected_materials_run group o :
  Forall (fun mat => item_selected mat = true -> item_material mat <> None) group ->
  exists l,
    selected_materials_of group (Some o) = Ret l /\
    forall name, In name l <-> exists mat, In mat group /\ ticked_on o name mat.
Proof.
  induction 1 as [|mat group Hm HF (l & Hl & Hin)]; cbn [selected_materials_of].
  - exists []. split; [reflexivity|]. intros name. split; [intros []|intros (? & [] & _)].
  - destruct (item_selected mat) eqn:Es.
    + destruct (item_material mat) as [n|] eqn:Em; [|exfalso; apply Hm; reflexivity].
      rewrite Hl.
      destruct (str_in n (map SIMPLIFIER_OT_update_material_list.slot_name
                            (obj_material_slots o))) eqn:Ei.
      * exists (n :: l). split; [reflexivity|]. intros name. split.
        -- intros [<-|Hn].
           ++ exists mat. split; [left; reflexivity|]. split_and!; try assumption.
              unfold str_in in Ei. apply existsb_exists in Ei as (x & Hx & Hq).
              apply String.eqb_eq in Hq. subst x. assumption.
           ++ apply Hin in Hn as (m & Hg & Ht). exists m. split; [right; assumption|assumption].
        -- intros (m & [<-|Hg] & (Hs & Hmat & Hslot)).
           ++ left. congruence.
           ++ right. apply Hin. exists m. split; [assumption|]. split_and!; assumption.
      * exists l. split; [reflexivity|]. intros name. rewrite Hin. split.
        -- intros (m & Hg & Ht). exists m. split; [right; assumption|assumption].
        -- intros (m & [<-|Hg] & (Hs & Hmat & Hslot)).
           ++ exfalso. assert (n = name) by congruence. subst n.
              assert (str_in name (map SIMPLIFIER_OT_update_material_list.slot_name
                                     (obj_material_slots o)) = true); [|congruence].
              unfold str_in. apply existsb_exists. exists name.
              split; [assumption|apply String.eqb_refl].
           ++ exists m. split; [assumption|]. split_and!; assumption.
    + exists l. split; [assumption|]. intros name. rewrite Hin. split.
      * intros (m & Hg & Ht). exists m. split; [right; assumption|assumption].
      * intros (m & [<-|Hg] & (Hs & Hmat & Hslot)); [congruence|].
        exists m. split; [assumption|]. split_and!; assumption.
Qed.

Lemma selected_materials_raise group active_obj :
  Exists (fun mat => item_selected mat = true /\
                     (item_material mat = None \/ active_obj = None)) group ->
  selected_materials_of group active_obj = Raise AttributeError.
Proof.
  induction group as [|mat group IH]; intros H; [inversion H|].
  cbn [selected_materials_of]. destruct (item_selected mat) eqn:Es.
  - destruct (item_material mat) as [n|] eqn:Em; [|reflexivity].
    destruct active_obj as [o|]; [|reflexivity].
    rewrite IH; [reflexivity|].
    inversion H as [? ? Hh|]; subst; [|assumption].
    destruct Hh as (_ & [Hn|Hn]); congruence.
  - apply IH. inversion H as [? ? Hh|]; subst; [|assumption].
    destruct Hh as (Hs & _). congruence.
Qed.
End SelectedMaterials.

(** X13: the materials the bake operator works on are those of the ticked
    entries of the list whose material is in a slot of the active object;
    a ticked entry without material, or a ticked entry when there is no
    active object, raises [AttributeError]. *)
Theorem bake_takes_ticked_materials_on_object (group : list MaterialDataGroup)
    (active_obj : option Object) :
  (forall o, active_obj = Some o ->
     Forall (fun mat => item_selected mat = true -> item_material mat <> None) group ->
     exists l,
       SIMPLIFIER_OT_bake.selected_materials_of group active_obj = Ret l /\
       forall name, In name l <-> exists mat, In mat group /\ ticked_on o name mat) /\
  (Exists (fun mat => item_selected mat = true /\
                      (item_material mat = None \/ active_obj = None)) group ->
   SIMPLIFIER_OT_bake.selected_materials_of group active_obj = Raise AttributeError).
Proof.
  split.
  - intros o -> HF. apply selected_materials_run. assumption.
  - apply selected_materials_raise.
Qed.

(** X14: [texture_exists] changes nothing and is decided by the first image of
    the given name: [False] when there is none, [True] when it has the
    requested size, [AttributeError] when it has another size. *)
Theorem texture_exists_first_match (texture_name : string) (w : World) :
  fst (SIMPLIFIER_OT_bake.texture_exists texture_name w) = w /\
  (snd (SIMPLIFIER_OT_bake.texture_exists texture_name w) = Ret false <->
     existing_image w texture_name = None) /\
  (snd (SIMPLIFIER_OT_bake.texture_exists texture_name w) = Ret true <->
     exists img, existing_image w texture_name = Some img /\
                 img_size img = (baker_width (baker (scene w)),
                                 baker_height (baker (scene w)))) /\
  (snd (SIMPLIFIER_OT_bake.texture_exists texture_name w) = Raise AttributeError <->
     exists img, existing_image w texture_name = Some img /\
                 img_size img <> (baker_width (baker (scene w)),
                                  baker_height (baker (scene w)))).
Proof.
  unfold SIMPLIFIER_OT_bake.texture_exists, existing_image. cbn [fst snd].
  rewrite texture_exists_in_spec. split; [reflexivity|].
  destruct (List.find (img_named texture_name) (images (data w))) as [img|].
  - destruct ((fst (img_size img) =? baker_width (baker (scene w))) &&
              (snd (img_size img) =? baker_height (baker (scene w)))) eqn:E.
    + apply size_eqb in E. split_and!; split; try discriminate; try reflexivity.
      * intros _. exists img. auto.
      * intros (i & [= <-] & Hne). contradiction.
    + assert (Hne : img_size img <> (baker_width (baker (scene w)),
                                     baker_height (baker (scene w)))).
      { intros Hs. apply size_eqb in Hs. congruence. }
      split_and!; split; try discriminate; try reflexivity.
      * intros (i & [= <-] & Hs). contradiction.
      * intros _. exists img. auto.
  - split_and!; split; try discriminate; try reflexivity.
    + intros (i & Hi & _). discriminate.
    + intros (i & Hi & _). discriminate.
Qed.

(** ** Selection in the export operator *)

Section Selection.
Import SIMPLIFIER_OT_export.









End Selection.





(** X17: with no object selected the export operator resets the
    [model_unwrapped] flag, reports that no models are selected and is
    cancelled; nothing else changes. *)
Theorem export_without_selection (w : World) :
  selected_objects w = [] ->
  SIMPLIFIER_OT_export.execute w =
    (reported no_models_message (on_scene (set_model_unwrapped false) w), Ret CANCELLED).
Proof.
  intros H. unfold SIMPLIFIER_OT_export.execute. rewrite bind_modify, bind_gets. cbn beta.
  change (selected_objects (on_scene (set_model_unwrapped false) w))
    with (selected_objects w).
  rewrite H. reflexivity.
Qed.

(** X17 (witness): the one object of the scene is not selected. *)
Lemma export_without_selection_witness :
  selected_objects nothing_selected_bake_off = [] /\
  snd (SIMPLIFIER_OT_export.execute nothing_selected_bake_off) = Ret CANCELLED.
Proof.
  split; [reflexivity|].
  rewrite (export_without_selection nothing_selected_bake_off eq_refl). reflexivity.
Defined.

(** ** The export tester *)

Section Tester.
Import EXPORT_TESTER_OT_export_tester.

Lemma all_options_returns :
  (match all_options formats ∅ with Ret _ => true | Raise _ => false end) = true.
Proof. vm_compute. reflexivity. Qed.

Lemma all_options_ok : all_options formats ∅ = Ret all_options_result.
Proof.
  pose proof all_options_returns as H. unfold all_options_result.
  destruct (all_options formats ∅) as [o|e]; [reflexivity|discriminate H].
Qed.

Lemma path_join_exports p : String.eqb (path_join p export_dir_name) "" = false.
Proof.
  unfold path_join, export_dir_name. cbn [String.prefix].
  destruct (String.eqb p "") eqn:E; [reflexivity|].
  destruct p as [|c p]; [discriminate|].
  destruct (ends_with_slash (String c p)); reflexivity.
Qed.

Lemma runs_export_location w :
  blend_filepath (env w) <> "" -> fs_readonly (env w) = [] ->
  runs export_location w 0
    (fun r => r = Some (path_join (dirname (blend_filepath (env w))) export_dir_name)).
Proof.
  intros Hb Hr. unfold runs, export_location. rewrite bind_gets. cbn beta.
  apply String.eqb_neq in Hb. rewrite Hb.
  unfold os_path_exists, os_makedirs, bind, gets, when.
  destruct (negb _).
  - rewrite Hr. cbn. eexists _, _. split; [reflexivity|]. split_and!; auto.
  - cbn. eexists _, _. split; [reflexivity|]. split_and!; auto.
Qed.

Lemma keeps_scene_export_location : keeps scene export_location.
Proof. unfold export_location. keeps_auto. Qed.

Lemma runs_mode_set m w :
  active_object w <> None -> runs (ops_object_mode_set m) w 0 (fun _ => True).
Proof.
  intros Ha. unfold runs, ops_object_mode_set. rewrite bind_gets. cbn beta.
  destruct (active_object w); [|contradiction].
  unfold modify. eexists _, _. split; [reflexivity|]. split_and!; auto.
Qed.

Lemma for_return_app {A R} (body : A -> Py (option R)) l1 l2 w w1 :
  for_return l1 body w = (w1, Ret None) ->
  for_return (l1 ++ l2) body w = for_return l2 body w1.
Proof.
  revert w. induction l1 as [|a l1 IH]; intros w; cbn [for_return app].
  - intros [= <-]. reflexivity.
  - intros H. apply bind_ret_inv in H as (r & w0 & Ha & Hr).
    unfold bind. rewrite Ha. destruct r as [v|]; [discriminate|]. apply IH. assumption.
Qed.

Lemma raises_bind {A B} (m : Py A) (f : A -> Py B) w e k1 k2 Q :
  runs m w k1 Q ->
  (forall a w1, Q a -> fixed w1 = fixed w -> raises (f a) w1 e k2) ->
  raises (bind m f) w e (k1 + k2).
Proof.
  intros (a & w1 & Hm & Ha & Hf & Hc & _) Hk.
  destruct (Hk a w1 Ha Hf) as (w2 & Hm2 & Hf2 & Hc2).
  exists w2. unfold bind. rewrite Hm. split_and!; [assumption|congruence|lia].
Qed.

Lemma raises_bind_l {A B} (m : Py A) (f : A -> Py B) w e k :
  raises m w e k -> raises (bind m f) w e k.
Proof.
  intros (w' & Hm & Hf & Hc). exists w'. unfold bind. rewrite Hm. auto.
Qed.

Lemma raises_export_selected self format sub_dir name w :
  exportable self w -> export_options self !! format = None ->
  raises (export_selected self format sub_dir name) w KeyError 0.
Proof.
  intros (Hr & _ & _) Ho. unfold export_selected.
  change 0%nat with (0 + 0)%nat.
  eapply raises_bind; [apply runs_create_subdir; assumption|].
  intros od w1 _ Hf. rewrite Ho. exists w1. unfold calls. split_and!; auto.
Qed.

Lemma raises_export_objects self format sub_dir objs :
  export_options self !! format = None ->
  forall collection_exported w,
    exportable self w ->
    Forall (fun o => In (obj_name o) (names w)) objs ->
    (0 < units_from (separate_collection self) objs collection_exported)%nat ->
    raises (export_objects self format sub_dir objs collection_exported) w KeyError 0.
Proof.
  intros Ho. induction objs as [|obj objs IH]; intros ce w Hx HF Hu; cbn [export_objects].
  - unfold units_from in Hu. cbn in Hu. destruct ce; lia.
  - inversion HF as [|? ? Hn HF']; subst.
    unfold units_from in Hu. cbn [List.filter] in Hu.
    unfold exported_alone at 1, exported_together at 1, in_separate in Hu.
    destruct (is_mesh obj && obj_visible obj); cbn [andb] in Hu.
    + destruct (bool_decide_reflect
                  (Some (obj_users_collection0 obj) = separate_collection self))
        as [Es|Es]; cbn [negb] in Hu.
      * destruct ce.
        -- apply IH; assumption.
        -- change 0%nat with (0 + 0)%nat. eapply raises_bind.
           { apply runs_select_objects_in_collection; [assumption|].
             rewrite <- Es. discriminate. }
           intros _ w1 _ Hf1. apply raises_bind_l. apply raises_export_selected; [|assumption].
           eapply exportable_fixed; eassumption.
      * change 0%nat with (0 + 0)%nat. eapply raises_bind.
        { apply runs_select_object. assumption. }
        intros _ w1 _ Hf1. apply raises_bind_l. apply raises_export_selected; [|assumption].
        eapply exportable_fixed; eassumption.
    + apply IH; assumption.
Qed.

Lemma raises_perform_export self format w :
  exportable self w -> export_options self !! format = None ->
  (0 < export_units (separate_collection self) (objects (scene w)))%nat ->
  raises (perform_export self format) w KeyError 0.
Proof.
  intros Hx Ho Hu. unfold perform_export. change 0%nat with (0 + 0)%nat.
  eapply raises_bind; [apply runs_create_subdir; apply Hx|].
  intros sub_dir w1 _ Hf1. unfold raises. rewrite bind_gets. cbn beta.
  apply raises_bind_l. apply raises_export_objects; try assumption.
  - eapply exportable_fixed; eassumption.
  - apply Forall_forall. intros o Ho'. apply in_map, list_elem_of_In. assumption.
  - rewrite <- (export_units_fixed _ _ _ Hf1) in Hu. exact Hu.
Qed.
End Tester.

Section TesterExecute.
Import EXPORT_TESTER_OT_export_tester.

Lemma is_Some_bool {A} (x : option A) :
  (match x with Some _ => true | None => false end) = true -> is_Some x.
Proof. destruct x; [eauto|discriminate]. Qed.

Lemma options_available export_enum w :
  Forall (fun f => is_Some (EXPORT_FUNCS !! f) /\
                   is_Some (export_options (tester_instance export_enum w) !! f))
    (if export_enum is MATERIALS then ["obj"; "fbx"; "glb"; "gltf"] else formats).
Proof.
  destruct export_enum; cbn [tester_instance export_options options_of];
    repeat apply List.Forall_cons; try apply List.Forall_nil;
    (split; apply is_Some_bool; vm_compute; reflexivity).
Qed.

Lemma options_counted export_enum w :
  sum_list (map (option_count (tester_instance export_enum w))
              (if export_enum is MATERIALS then ["obj"; "fbx"; "glb"; "gltf"] else formats)) =
  option_sets export_enum.
Proof. destruct export_enum; vm_compute; reflexivity. Qed.

Lemma tester_exportable export_enum w w1 :
  tester_ready w -> fixed w1 = fixed w -> exportable (tester_instance export_enum w) w1.
Proof.
  intros (_ & Hr & Hf & Hc & _) Hfix.
  apply (exportable_fixed _ w); [assumption|].
  split; [assumption|]. split; [assumption|].
  intros c. cbn [separate_collection tester_instance]. unfold separate_of.
  destruct (dict_get "Separate_objects" (collections (scene w))) as [all|] eqn:E;
    [|discriminate].
  intros [= <-]. exists all. split; [assumption|]. apply Hc. reflexivity.
Qed.


(** [execute] up to the loop over the formats. *)
Lemma tester_execute_start export_enum w :
  tester_ready w ->
  exists w1,
    fixed w1 = fixed w /\ calls w1 = calls w /\ written w1 = written w /\
    active (scene w1) = active (scene w) /\
    execute export_enum w =
      bind (export_formats (tester_instance export_enum w) (mode (scene w))
              (active (scene w)) formats)
        (fun r =>
           match r with
           | Some s => ret s
           | None =>
               modify (on_scene (set_active (active (scene w)))) ;;;
               ops_object_mode_set (mode (scene w)) ;;;
               ret FINISHED
           end) w1.
Proof.
  intros Hready. pose proof Hready as (Hb & Hr & Hf & Hc & Ha).
  destruct (runs_export_location w Hb Hr) as (r & w0 & Hloc & -> & Hfix & Hcalls & Hwr).
  pose proof (keeps_scene_export_location w) as Hscene. rewrite Hloc in Hscene.
  cbn [fst] in Hscene.
  assert (Ha0 : active_object w0 <> None).
  { unfold active_object in *. rewrite Hscene. assumption. }
  assert (Hstart : execute export_enum w =
            bind (when (match mode (scene w) with OBJECT => false | _ => true end)
                    (ops_object_mode_set OBJECT))
              (fun _ =>
                 bind (export_formats (tester_instance export_enum w) (mode (scene w))
                         (active (scene w)) formats)
                   (fun r =>
                      match r with
                      | Some s => ret s
                      | None =>
                          modify (on_scene (set_active (active (scene w)))) ;;;
                          ops_object_mode_set (mode (scene w)) ;;;
                          ret FINISHED
                      end)) w0).
  { unfold execute. rewrite bind_gets. cbn beta zeta. unfold bind at 1. rewrite Hloc.
    assert (Ho : (match export_enum with
                  | ALL => all_options formats ∅
                  | MATERIALS => Ret EXPORT_OPTIONS_MATERIALS
                  | MODELS => Ret EXPORT_OPTIONS_MODELS
                  end) = Ret (options_of export_enum)).
    { destruct export_enum; [apply all_options_ok|reflexivity|reflexivity]. }
    rewrite Ho. cbn [truthy]. rewrite path_join_exports. cbn [negb default].
    rewrite bind_gets. cbn beta.
    destruct (active_object w0); [|contradiction].
    rewrite Hscene. reflexivity. }
  rewrite Hstart. unfold bind at 1.
  destruct (mode (scene w)) eqn:Em; cbn [when].
  1: { exists w0. rewrite Hcalls, Hwr, Hscene, Nat.add_0_r, Nat.add_0_r. auto. }
  all: destruct (runs_mode_set OBJECT w0 Ha0) as ([] & w1 & Hms & _ & Hfix1 & Hc1 & Hw1);
    rewrite Hms; exists w1; split_and!; try congruence; try lia;
    unfold ops_object_mode_set in Hms; rewrite bind_gets in Hms; cbn beta in Hms;
    destruct (active_object w0); [|contradiction];
    injection Hms as <-; cbn; rewrite Hscene; reflexivity.
Qed.
End TesterExecute.



(** X19: for the setting MATERIALS the option table has no entry for the stl
    format: with something to export, the tester raises [KeyError] after it
    has made the calls of the other four formats, 41 per exported unit. *)
Theorem tester_materials_setting_lacks_stl (w : World) :
  tester_ready w ->
  (0 < export_units (separate_of w) (objects (scene w)))%nat ->
  snd (EXPORT_TESTER_OT_export_tester.execute MATERIALS w) = Raise KeyError /\
  calls (fst (EXPORT_TESTER_OT_export_tester.execute MATERIALS w)) =
    (calls w + export_units (separate_of w) (objects (scene w)) *
               option_sets MATERIALS)%nat.
Proof.
  intros Hready Hu.
  destruct (tester_execute_start MATERIALS w Hready)
    as (w1 & Hfix1 & Hc1 & Hw1 & Ha1 & ->).
  pose proof (options_available MATERIALS w) as Hav.
  pose proof (options_counted MATERIALS w) as Hcount.
  cbn iota in Hav, Hcount.
  destruct (runs_export_formats (tester_instance MATERIALS w) (mode (scene w))
              (active (scene w)) _ Hav w1 (tester_exportable _ _ _ Hready Hfix1))
    as (r & w2 & Hrun & -> & Hfix2 & Hc2 & Hw2).
  destruct (raises_perform_export (tester_instance MATERIALS w) "stl" w2)
    as (w3 & Hp & Hf3 & Hc3).
  { apply (tester_exportable _ w); [assumption|congruence]. }
  { vm_compute. reflexivity. }
  { cbn [EXPORT_TESTER_OT_export_tester.separate_collection tester_instance].
    rewrite (export_units_fixed _ w w2) by congruence. exact Hu. }
  match goal with |- context [bind ?m ?k w1] =>
    assert (Hx : bind m k w1 = (w3, Raise KeyError)) end.
  { unfold EXPORT_TESTER_OT_export_tester.export_formats in *.
    change EXPORT_TESTER_OT_export_tester.formats
      with (["obj"; "fbx"; "glb"; "gltf"] ++ ["stl"]).
    unfold bind at 1. rewrite (for_return_app _ _ _ _ _ Hrun). cbn [for_return].
    unfold bind. rewrite Hp. reflexivity. }
  rewrite Hx. cbn [fst snd]. split; [reflexivity|].
  rewrite Hc3, Hc2, Hcount, Hc1.
  cbn [EXPORT_TESTER_OT_export_tester.separate_collection tester_instance].
  rewrite (export_units_fixed _ _ _ Hfix1). lia.
Qed.

(** X19 (witness): the same scene under the setting MATERIALS. *)
Lemma tester_materials_setting_lacks_stl_witness :
  tester_ready pair_in_collection /\
  snd (EXPORT_TESTER_OT_export_tester.execute MATERIALS pair_in_collection) =
    Raise KeyError.
Proof.
  assert (H : tester_ready pair_in_collection).
  { split; [vm_compute; discriminate|]. split; [reflexivity|]. split; [reflexivity|].
    split; [|vm_compute; discriminate].
    intros all_objects [= <-].
    apply List.Forall_cons; [right; left; reflexivity|].
    apply List.Forall_cons; [right; right; left; reflexivity|]. apply List.Forall_nil. }
  split; [exact H|].
  refine (proj1 (tester_materials_setting_lacks_stl pair_in_collection H _)).
  vm_compute. lia.
Defined.

(** X20: on a file that has not been saved the tester reports that as an
    error and is cancelled, with nothing else changed. *)
Theorem tester_needs_saved_blend_file (export_enum : ExportEnum) (w : World) :
  blend_filepath (env w) = "" ->
  EXPORT_TESTER_OT_export_tester.execute export_enum w =
    (reported "Blend file not saved!!!" w, Ret CANCELLED).
Proof.
  intros Hb. unfold EXPORT_TESTER_OT_export_tester.execute. rewrite bind_gets. cbn beta zeta.
  unfold EXPORT_TESTER_OT_export_tester.export_location.
  rewrite bind_assoc, bind_gets. cbn beta. rewrite Hb. cbn [String.eqb].
  rewrite bind_assoc, bind_report, bind_ret_l.
  assert (Ho : (match export_enum with
                | ALL => EXPORT_TESTER_OT_export_tester.all_options
                           EXPORT_TESTER_OT_export_tester.formats ∅
                | MATERIALS => Ret EXPORT_OPTIONS_MATERIALS
                | MODELS => Ret EXPORT_OPTIONS_MODELS
                end) = Ret (options_of export_enum)).
  { destruct export_enum; [apply all_options_ok|reflexivity|reflexivity]. }
  rewrite Ho. reflexivity.
Qed.

(** X20 (witness): the scene has never been saved. *)
Lemma tester_needs_saved_blend_file_witness :
  blend_filepath (env unsaved_file) = "" /\
  EXPORT_TESTER_OT_export_tester.execute ALL unsaved_file =
    (reported "Blend file not saved!!!" unsaved_file, Ret CANCELLED).
Proof.
  split; [reflexivity|].
  apply (tester_needs_saved_blend_file ALL unsaved_file eq_refl).
Defined.

(** ** The keys of the option tables *)





(** ** The export operator works on copies *)

Section Leads.





Lemma leads_fails {A B} P (m : Py A) Q (f : A -> Py B) e R :
  leads P m Q -> (forall a, fails (Q a) (f a) e R) -> fails P (bind m f) e R.
Proof.
  intros Hm Hf w Hw. destruct (Hm w Hw) as (a & w1 & Em & Hq).
  destruct (Hf a w1 Hq) as (w2 & Ef & Hr).
  exists w2. unfold bind. rewrite Em. auto.
Qed.


End Leads.

Section FreshNames.





End FreshNames.

Section Copies.
Import SIMPLIFIER_OT_export.
Context (l : list Object) (ns : list string) (ef : list string) (sd : ExportDataGroup).
Hypothesis fresh : Forall (fun n => ~ In n (map obj_name l)) ns.


























End Copies.

Section ExportOnCopies.
Import SIMPLIFIER_OT_export.





End ExportOnCopies.

Section ExportExecute.
Import SIMPLIFIER_OT_export.





End ExportExecute.








(** ** Bake operator: the graphs under construction *)

Section Dicts.
Context {V : Type}.

Lemma dict_get_set (k : string) (v : V) d : dict_get k (dict_set k v d) = Some v.
Proof.
  induction d as [|[k' v'] d IH]; cbn [dict_set dict_get].
  - rewrite String.eqb_refl. reflexivity.
  - destruct (String.eqb k k') eqn:E; cbn [dict_get]; rewrite ?String.eqb_refl, ?E; auto.
Qed.

Lemma dict_get_set_ne (k k' : string) (v : V) d :
  k' <> k -> dict_get k' (dict_set k v d) = dict_get k' d.
Proof.
  intros Hne. induction d as [|[k2 v2] d IH]; cbn [dict_set dict_get].
  - apply String.eqb_neq in Hne. rewrite Hne. reflexivity.
  - destruct (String.eqb k k2) eqn:E; cbn [dict_get].
    + apply String.eqb_eq in E. subst k2. apply String.eqb_neq in Hne. rewrite Hne.
      reflexivity.
    + destruct (String.eqb k' k2); auto.
Qed.

Lemma dict_set_new (k : string) (v : V) d :
  dict_get k d = None -> dict_set k v d = d ++ [(k, v)].
Proof.
  induction d as [|[k' v'] d IH]; cbn [dict_set dict_get app]; [reflexivity|].
  destruct (String.eqb k k'); [discriminate|]. intros H. rewrite IH by assumption.
  reflexivity.
Qed.

Lemma dict_set_last (k : string) (v v' : V) d :
  dict_get k d = None -> dict_set k v (d ++ [(k, v')]) = d ++ [(k, v)].
Proof.
  induction d as [|[k2 v2] d IH]; cbn [dict_set dict_get app].
  - rewrite String.eqb_refl. reflexivity.
  - destruct (String.eqb k k2); [discriminate|]. intros H. rewrite IH by assumption.
    reflexivity.
Qed.

Lemma dict_get_last (k : string) (v : V) d :
  dict_get k d = None -> dict_get k (d ++ [(k, v)]) = Some v.
Proof.
  induction d as [|[k2 v2] d IH]; cbn [dict_get app].
  - rewrite String.eqb_refl. reflexivity.
  - destruct (String.eqb k k2); [discriminate|]. exact IH.
Qed.

Lemma dict_get_app_ne (k k' : string) (v : V) d :
  k' <> k -> dict_get k' (d ++ [(k, v)]) = dict_get k' d.
Proof.
  intros Hne. induction d as [|[k2 v2] d IH]; cbn [dict_get app].
  - apply String.eqb_neq in Hne. rewrite Hne. reflexivity.
  - destruct (String.eqb k' k2); auto.
Qed.

Lemma dict_get_None (k : string) (d : list (string * V)) :
  dict_get k d = None <-> ~ In k (map fst d).
Proof.
  induction d as [|[k2 v2] d IH]; cbn [dict_get map fst In]; [tauto|].
  destruct (String.eqb k k2) eqn:E.
  - apply String.eqb_eq in E. subst. split; [discriminate|]. intros H. exfalso. auto.
  - apply String.eqb_neq in E. rewrite IH. split; [intros H [H1|H1]; auto|tauto].
Qed.

Lemma dict_get_In (k : string) (v : V) d : dict_get k d = Some v -> In (k, v) d.
Proof.
  induction d as [|[k2 v2] d IH]; cbn [dict_get]; [discriminate|].
  destruct (String.eqb k k2) eqn:E.
  - apply String.eqb_eq in E. subst. intros [= ->]. left. reflexivity.
  - intros H. right. auto.
Qed.

Lemma dict_In_get (k : string) (v : V) d :
  NoDup (map fst d) -> In (k, v) d -> dict_get k d = Some v.
Proof.
  induction d as [|[k2 v2] d IH]; cbn [dict_get map fst]; [intros _ []|].
  intros Hnd [[= -> ->]|Hin].
  - rewrite String.eqb_refl. reflexivity.
  - apply NoDup_cons in Hnd as [Hk Hnd]. destruct (String.eqb k k2) eqn:E.
    + apply String.eqb_eq in E. subst. exfalso. apply Hk.
      apply list_elem_of_In. apply (in_map fst) in Hin. exact Hin.
    + auto.
Qed.
End Dicts.

Section Trees.
Import SIMPLIFIER_OT_bake.

Lemma update_absent (i : nat) (f : Node -> Node) l :
  Forall (fun x => (node_id x < i)%nat) l ->
  map (fun x => if node_is i x then f x else x) l = l.
Proof.
  induction 1 as [|x l Hx HF IH]; cbn [map]; [reflexivity|].
  unfold node_is at 1. destruct (Nat.eqb_spec (node_id x) i); [lia|]. rewrite IH. reflexivity.
Qed.

Lemma filter_old_below b l :
  Forall (fun x => (node_id x < b)%nat) l -> List.filter (old_node b) l = l.
Proof.
  induction 1 as [|x l Hx HF IH]; cbn [List.filter]; [reflexivity|].
  unfold old_node at 1. destruct (Nat.ltb_spec (node_id x) b); [|lia]. rewrite IH. reflexivity.
Qed.

Lemma baking_lookup b T0 w t nt :
  baking b T0 w -> trees (data w) !! t = Some nt ->
  exists nt0, T0 !! t = Some nt0 /\ old_graph b nt = graph_of nt0 /\
    new_ids b nt = recorded_ids t (texture_nodes (self w)) /\
    NoDup (new_ids b nt) /\
    Forall (fun n => (node_id n < next_node (data w))%nat /\
                     (old_node b n = false ->
                      node_type n = TEX_IMAGE /\ node_image n <> None))
      (nodes nt).
Proof.
  intros [_ H] Ht. specialize (H t). rewrite Ht in H.
  destruct (T0 !! t) as [nt0|]; [|contradiction]. exists nt0. auto.
Qed.

(** A step that leaves the trees' nodes and links, the counter and the
    records alone. *)
Lemma baking_frame b T0 w w' :
  (forall t, option_map graph_of (trees (data w') !! t) =
             option_map graph_of (trees (data w) !! t)) ->
  next_node (data w') = next_node (data w) ->
  texture_nodes (self w') = texture_nodes (self w) ->
  baking b T0 w -> baking b T0 w'.
Proof.
  intros Ht Hn Hs [Hb H]. split; [rewrite Hn; exact Hb|].
  intros t. specialize (H t). specialize (Ht t). rewrite Hn, Hs.
  destruct (trees (data w') !! t) as [nt'|], (trees (data w) !! t) as [nt|];
    cbn in Ht; try discriminate; [|exact H].
  injection Ht as Hnodes Hlinks.
  destruct (T0 !! t) as [nt0|]; [|exact H].
  unfold old_graph, new_ids in *. rewrite Hnodes, Hlinks. exact H.
Qed.

(** A step on one tree that adds or changes nothing but bake nodes. *)
Lemma baking_tree b T0 w t nt nt' tn' k :
  baking b T0 w -> trees (data w) !! t = Some nt ->
  old_graph b nt' = old_graph b nt ->
  (next_node (data w) <= k)%nat ->
  new_ids b nt' = recorded_ids t tn' ->
  (forall t', t' <> t -> recorded_ids t' tn' = recorded_ids t' (texture_nodes (self w))) ->
  NoDup (new_ids b nt') ->
  Forall (fun n => (node_id n < k)%nat /\
                   (old_node b n = false -> node_type n = TEX_IMAGE /\ node_image n <> None))
    (nodes nt') ->
  forall w',
    trees (data w') = <[t := nt']> (trees (data w)) -> next_node (data w') = k ->
    texture_nodes (self w') = tn' ->
    baking b T0 w'.
Proof.
  intros [Hb H] Ht Hold Hk Hnew Hother Hnd HF w' Htrees Hnext Htn.
  split; [lia|]. intros t'. rewrite Htrees, Hnext, Htn.
  destruct (decide (t' = t)) as [->|Hne].
  - rewrite lookup_insert_eq. specialize (H t). rewrite Ht in H.
    destruct (T0 !! t) as [nt0|]; [|contradiction].
    destruct H as (H1 & _). split_and!; try assumption. congruence.
  - rewrite lookup_insert_ne by congruence. specialize (H t').
    destruct (trees (data w) !! t') as [nt1|]; [|exact H].
    destruct (T0 !! t') as [nt0|]; [|exact H].
    destruct H as (H1 & H2 & H3 & H4). split_and!; try assumption.
    + rewrite Hother by assumption. exact H2.
    + eapply Forall_impl; [exact H4|]. cbn. intros n [Hn1 Hn2]. split; [lia|exact Hn2].
Qed.
End Trees.

Section Prepare.
Import SIMPLIFIER_OT_bake.

Lemma find_update_image name f imgs :
  (forall i, img_name (f i) = img_name i) ->
  map img_name (update_image name f imgs) = map img_name imgs.
Proof.
  intros Hf. induction imgs as [|i imgs IH]; cbn [update_image map]; [reflexivity|].
  destruct (img_named name i); cbn [map]; [rewrite Hf; reflexivity|]. rewrite IH. reflexivity.
Qed.

Lemma find_by_names name imgs imgs' :
  map img_name imgs' = map img_name imgs ->
  List.find (img_named name) imgs <> None -> List.find (img_named name) imgs' <> None.
Proof.
  revert imgs'. induction imgs as [|i imgs IH]; intros [|i' imgs'] Hm; cbn in *;
    try discriminate; try tauto.
  injection Hm as Hn Hm. unfold img_named at 1 3. rewrite Hn.
  destruct (String.eqb (img_name i) name); [discriminate|]. apply IH. exact Hm.
Qed.

(** One pass of the loop that creates the image nodes of a tree. *)
Lemma new_texture_node_step b T0 t map_name w d :
  baking b T0 w ->
  is_Some (trees (data w) !! t) ->
  dict_get t (texture_nodes (self w)) = Some d ->
  dict_get map_name d = None ->
  existing_image w (baker_texture_name (baker (scene w)) +:+ "_" +:+ map_name) <> None ->
  exists w',
    new_texture_node t map_name w = (w', Ret tt) /\
    baking b T0 w' /\
    scene w' = scene w /\ env w' = env w /\
    textures_to_create (self w') = textures_to_create (self w) /\
    texture_nodes (self w') =
      dict_set t (d ++ [(map_name, next_node (data w))]) (texture_nodes (self w)) /\
    map img_name (images (data w')) = map img_name (images (data w)).
Proof.
  intros Hb [nt Ht] Hd Hm Himg.
  destruct (baking_lookup _ _ _ _ _ Hb Ht) as (nt0 & Ht0 & Hold & Hnew & Hnd & HF).
  set (i := next_node (data w)).
  set (node := {| node_id := i; node_type := TEX_IMAGE; node_location := (0, 0);
                  node_image := None |}).
  destruct (existing_image w _) as [img|] eqn:Eimg; [|contradiction]. clear Himg.
  set (node' := {| node_id := i; node_type := TEX_IMAGE; node_location := (0, 0);
                   node_image := Some (img_name img) |}).
  set (nt' := {| nodes := nodes nt ++ [node']; links := links nt;
                 nodes_active := nodes_active nt |}).
  assert (Hbelow : Forall (fun x => (node_id x < i)%nat) (nodes nt)).
  { eapply Forall_impl; [exact HF|]. cbn. intros x [Hx _]. exact Hx. }
  assert (Hrun : exists imgs', map img_name imgs' = map img_name (images (data w)) /\
            new_texture_node t map_name w =
              ({| scene := scene w;
                  data := {| images := imgs'; trees := <[t := nt']> (trees (data w));
                             next_node := S i |};
                  env := env w;
                  self := set_texture_nodes
                            (dict_set t (d ++ [(map_name, i)]) (texture_nodes (self w)))
                            (self w) |}, Ret tt)).
  { unfold new_texture_node, nodes_new, get_tree.
    rewrite !bind_assoc, bind_gets. cbn beta. rewrite Ht, bind_ret_l.
    rewrite !bind_assoc, bind_gets. cbn beta. fold i.
    unfold put_tree. rewrite !bind_assoc, bind_modify. cbn beta.
    rewrite !bind_assoc, bind_modify. cbn beta. rewrite bind_ret_l.
    unfold tn_set. rewrite !bind_assoc, bind_gets. cbn beta.
    cbn [self on_data]. rewrite Hd, bind_modify. cbn beta.
    rewrite (dict_set_new map_name i d Hm).
    rewrite bind_gets. cbn beta.
    unfold images_get. rewrite !bind_assoc, bind_gets. cbn beta.
    cbn [scene on_self on_data data images set_trees set_next_node].
    unfold existing_image in Eimg. rewrite Eimg, bind_ret_l.
    unfold tn_get. rewrite !bind_assoc, bind_gets. cbn beta.
    cbn [self on_self set_texture_nodes texture_nodes].
    rewrite dict_get_set, dict_get_last by assumption. rewrite bind_ret_l.
    unfold set_node_image, update_node, get_node, get_tree.
    rewrite !bind_assoc, bind_gets. cbn beta.
    cbn [data on_self on_data trees set_trees set_next_node].
    rewrite lookup_insert_eq, bind_ret_l. cbn [nodes].
    assert (Hfind : List.find (node_is i) (nodes nt ++ [node]) = Some node).
    { rewrite find_app_r.
      - cbn. unfold node_is. cbn. rewrite Nat.eqb_refl. reflexivity.
      - clear -Hbelow. induction Hbelow as [|x l Hx HF IH]; cbn; [reflexivity|].
        unfold node_is at 1. destruct (Nat.eqb_spec (node_id x) i); [lia|exact IH]. }
    fold node. rewrite Hfind, bind_ret_l, !bind_assoc, bind_gets. cbn beta.
    cbn [data on_self on_data trees set_trees set_next_node].
    rewrite lookup_insert_eq, bind_ret_l. unfold put_tree. rewrite bind_modify. cbn beta.
    cbn [nodes links nodes_active].
    rewrite map_app, (update_absent i _ (nodes nt) Hbelow). cbn [map].
    unfold node_is at 1. cbn [node_id node]. rewrite Nat.eqb_refl.
    destruct (negb (String.eqb map_name "diffuse")); cbn [when];
      unfold set_image, modify, ret, on_data, on_self;
      cbn [set_trees set_images set_next_node set_texture_nodes data scene env self
           images trees next_node texture_nodes textures_to_create];
      rewrite insert_insert_eq.
    - eexists. split; [|reflexivity]. apply find_update_image. reflexivity.
    - eexists. split; [|reflexivity]. reflexivity. }
  destruct Hrun as (imgs' & Himgs & Hrun). rewrite Hrun.
  eexists. split; [reflexivity|]. cbn [scene env self data images textures_to_create
    texture_nodes set_texture_nodes]. split_and!; try reflexivity; try assumption.
  assert (Hi : (b <= i)%nat) by (destruct Hb as [Hb _]; exact Hb).
  assert (Hnode : old_node b node' = false).
  { unfold old_node. cbn. apply Nat.ltb_ge. exact Hi. }
  eapply (baking_tree b T0 w t nt nt'
            (dict_set t (d ++ [(map_name, i)]) (texture_nodes (self w))) (S i) Hb Ht);
    try reflexivity.
  - unfold old_graph, nt'. cbn [nodes links]. rewrite List.filter_app. cbn [List.filter].
    rewrite Hnode. rewrite app_nil_r. reflexivity.
  - lia.
  - unfold new_ids, nt'. cbn [nodes]. rewrite List.filter_app, map_app. cbn [List.filter].
    rewrite Hnode. cbn [negb map node_id node'].
    fold (new_ids b nt). rewrite Hnew. unfold recorded_ids.
    rewrite dict_get_set, Hd. unfold dict_values. rewrite map_app. reflexivity.
  - intros t' Hne. unfold recorded_ids. rewrite dict_get_set_ne by assumption. reflexivity.
  - unfold new_ids, nt'. cbn [nodes]. rewrite List.filter_app, map_app. cbn [List.filter].
    rewrite Hnode. cbn [negb map node_id node'].
    fold (new_ids b nt). apply NoDup_app. split; [exact Hnd|]. split; [|apply NoDup_singleton].
    intros x Hx Hx'. apply list_elem_of_In in Hx'. destruct Hx' as [<-|[]].
    apply list_elem_of_In in Hx. unfold new_ids in Hx. apply in_map_iff in Hx as (y & Hy & Hin).
    apply filter_In in Hin as [Hin _]. rewrite List.Forall_forall in Hbelow.
    specialize (Hbelow y Hin). lia.
  - unfold nt'. cbn [nodes]. apply Forall_app. split.
    + eapply Forall_impl; [exact HF|]. cbn. intros x [Hx1 Hx2]. split; [fold i in Hx1; lia|exact Hx2].
    + constructor; [|constructor]. cbn. split; [lia|]. intros _. split; [reflexivity|discriminate].
Qed.
End Prepare.

Section PrepareAll.
Import SIMPLIFIER_OT_bake.

Lemma dict_set_set {V} (k : string) (v v' : V) d :
  dict_set k v (dict_set k v' d) = dict_set k v d.
Proof.
  induction d as [|[k2 v2] d IH]; cbn [dict_set].
  - rewrite String.eqb_refl. reflexivity.
  - destruct (String.eqb k k2) eqn:E; cbn [dict_set]; rewrite ?String.eqb_refl, ?E; [reflexivity|].
    rewrite IH. reflexivity.
Qed.

Lemma baking_dom b T0 w t :
  baking b T0 w -> (is_Some (trees (data w) !! t) <-> is_Some (T0 !! t)).
Proof.
  intros [_ H]. specialize (H t).
  destruct (trees (data w) !! t), (T0 !! t); try contradiction;
    split; intros [? ?]; try discriminate; eauto.
Qed.

Lemma baking_records b T0 w w' :
  trees (data w') = trees (data w) -> next_node (data w') = next_node (data w) ->
  (forall t, recorded_ids t (texture_nodes (self w')) =
             recorded_ids t (texture_nodes (self w))) ->
  baking b T0 w -> baking b T0 w'.
Proof.
  intros Ht Hn Hr [Hb H]. split; [rewrite Hn; exact Hb|].
  intros t. specialize (H t). rewrite Ht, Hn, Hr. exact H.
Qed.

Lemma allocated_names maps w w' :
  scene w' = scene w -> map img_name (images (data w')) = map img_name (images (data w)) ->
  allocated maps w -> allocated maps w'.
Proof.
  intros Hs Hn H m Hm. specialize (H m Hm). unfold existing_image in *. rewrite Hs.
  eapply find_by_names; [exact Hn|exact H].
Qed.

(** The loop that creates the image nodes of one tree. *)
Lemma texture_nodes_loop b T0 t rest : forall w d,
  baking b T0 w -> is_Some (T0 !! t) ->
  dict_get t (texture_nodes (self w)) = Some d ->
  NoDup (map fst d ++ rest) -> allocated rest w ->
  exists w' d',
    for_ rest (new_texture_node t) w = (w', Ret tt) /\
    baking b T0 w' /\ scene w' = scene w /\ env w' = env w /\
    textures_to_create (self w') = textures_to_create (self w) /\
    texture_nodes (self w') = dict_set t d' (texture_nodes (self w)) /\
    map fst d' = map fst d ++ rest /\
    map img_name (images (data w')) = map img_name (images (data w)).
Proof.
  induction rest as [|m rest IH]; intros w d Hb Ht Hd Hnd Hal; cbn [for_].
  - exists w, d. rewrite app_nil_r. split_and!; try reflexivity; try assumption.
    clear -Hd. induction (texture_nodes (self w)) as [|[k v] l IH]; cbn in *; [discriminate|].
    destruct (String.eqb t k) eqn:E.
    + injection Hd as ->. apply String.eqb_eq in E. subst. reflexivity.
    + rewrite <- IH at 1 by assumption. reflexivity.
  - assert (Hm : dict_get m d = None).
    { apply dict_get_None. intros Hin. apply NoDup_app in Hnd as (_ & Hdis & _).
      apply (Hdis m); [apply list_elem_of_In; exact Hin|].
      apply list_elem_of_In. left. reflexivity. }
    destruct (new_texture_node_step b T0 t m w d Hb) as (w1 & Hrun & Hb1 & Hs1 & He1 & Hc1 & Htn1 & Hi1);
      try assumption.
    { apply (baking_dom b T0 w t Hb). exact Ht. }
    { apply Hal. left. reflexivity. }
    destruct (IH w1 (d ++ [(m, next_node (data w))])) as (w2 & d2 & Hrun2 & Hb2 & Hs2 & He2 & Hc2 & Htn2 & Hk2 & Hi2);
      try assumption.
    { rewrite Htn1. apply dict_get_set. }
    { rewrite map_app. cbn [map fst]. rewrite <- app_assoc. exact Hnd. }
    { apply (allocated_names rest w w1 Hs1 Hi1). intros x Hx. apply Hal. right. exact Hx. }
    exists w2, d2. unfold bind. rewrite Hrun. split_and!; try congruence.
    + rewrite Htn2, Htn1. apply dict_set_set.
    + rewrite Hk2, map_app. cbn [map fst]. rewrite <- app_assoc. reflexivity.
Qed.

Lemma new_ids_nil b nt : new_ids b nt = [] -> List.filter (old_node b) (nodes nt) = nodes nt.
Proof.
  unfold new_ids. induction (nodes nt) as [|x l IH]; cbn [List.filter map]; [reflexivity|].
  destruct (old_node b x); cbn [negb map]; [|discriminate]. intros H. rewrite IH by assumption.
  reflexivity.
Qed.

(** [prepare_new_nodes] on a wired material that is not on record yet,
    when the textures are neither connected nor exported. *)
Lemma prepare_new_nodes_run b T0 t c w :
  baking b T0 w -> wired T0 t ->
  dict_get t (texture_nodes (self w)) = None ->
  baker_use_texture (baker (scene w)) = false ->
  baker_export_after (baker (scene w)) = false ->
  NoDup (textures_to_create (self w)) -> allocated (textures_to_create (self w)) w ->
  exists w' d,
    prepare_new_nodes t c w = (w', Ret (true, c)) /\
    baking b T0 w' /\ scene w' = scene w /\ env w' = env w /\
    textures_to_create (self w') = textures_to_create (self w) /\
    texture_nodes (self w') = texture_nodes (self w) ++ [(t, d)] /\
    map fst d = textures_to_create (self w) /\
    map img_name (images (data w')) = map img_name (images (data w)).
Proof.
  intros Hb (nt0 & o & Ht0 & Ho & Hl) Hd Hu He Hnd Hal.
  assert (Ht : is_Some (trees (data w) !! t)).
  { apply (baking_dom b T0 w t Hb). eauto. }
  destruct Ht as [nt Ht].
  destruct (baking_lookup _ _ _ _ _ Hb Ht) as (nt0' & Ht0' & Hold & Hnew & _ & _).
  rewrite Ht0 in Ht0'. injection Ht0' as <-.
  unfold recorded_ids in Hnew. rewrite Hd in Hnew.
  unfold old_graph, graph_of in Hold. rewrite (new_ids_nil b nt Hnew) in Hold.
  injection Hold as Hnodes Hlinks.
  unfold prepare_new_nodes, get_tree. rewrite !bind_assoc, bind_gets. cbn beta.
  rewrite Ht, bind_ret_l, bind_gets. cbn beta zeta.
  rewrite Hnodes, Hlinks. fold (output_of nt0). rewrite Ho.
  fold (surface_links nt0 o). destruct (surface_links nt0 o) as [|link ?]; [contradiction|].
  rewrite bind_modify. cbn beta.
  set (w0 := on_self _ w).
  assert (Hb0 : baking b T0 w0).
  { apply (baking_records b T0 w); try reflexivity; [|exact Hb].
    intros t'. subst w0. cbn [self on_self texture_nodes set_texture_nodes].
    rewrite (dict_set_new t [] _ Hd). unfold recorded_ids.
    destruct (decide (t' = t)) as [->|Hne].
    - rewrite dict_get_last, Hd by assumption. reflexivity.
    - rewrite dict_get_app_ne by assumption. reflexivity. }
  destruct (texture_nodes_loop b T0 t (textures_to_create (self w)) w0 []) as
    (w1 & d1 & Hrun & Hb1 & Hs1 & He1 & Hc1 & Htn1 & Hk1 & Hi1); try assumption.
  { eauto. }
  { subst w0. cbn [self on_self texture_nodes set_texture_nodes]. apply dict_get_set. }
  unfold bind at 1. rewrite Hrun. rewrite Hu, He. cbn [orb andb].
  rewrite bind_ret_l.
  exists w1, d1. split; [reflexivity|]. split_and!; try assumption.
  rewrite Htn1. subst w0. cbn [self on_self texture_nodes set_texture_nodes].
  rewrite (dict_set_new t [] _ Hd). apply dict_set_last. exact Hd.
Qed.

(** The first loop of [bake_textures]. *)
Lemma prepare_all_run b T0 c mats : forall w,
  baking b T0 w -> Forall (wired T0) mats -> NoDup mats ->
  Forall (fun t => dict_get t (texture_nodes (self w)) = None) mats ->
  baker_use_texture (baker (scene w)) = false ->
  baker_export_after (baker (scene w)) = false ->
  NoDup (textures_to_create (self w)) -> allocated (textures_to_create (self w)) w ->
  exists w' recs,
    prepare_all mats c w = (w', Ret (None, c)) /\
    baking b T0 w' /\ scene w' = scene w /\ env w' = env w /\
    textures_to_create (self w') = textures_to_create (self w) /\
    texture_nodes (self w') = texture_nodes (self w) ++ recs /\
    map fst recs = mats /\
    Forall (fun td => map fst (snd td) = textures_to_create (self w)) recs /\
    map img_name (images (data w')) = map img_name (images (data w)).
Proof.
  induction mats as [|t mats IH]; intros w Hb Hw Hnd Hfresh Hu He Hmaps Hal;
    cbn [prepare_all].
  - exists w, []. rewrite app_nil_r. split_and!; try reflexivity; try assumption. constructor.
  - inversion Hw as [|? ? Hwt Hw']; subst. apply NoDup_cons in Hnd as [Hnt Hnd].
    inversion Hfresh as [|? ? Hft Hfresh']; subst.
    unfold material_use_nodes. rewrite !bind_assoc, bind_gets. cbn beta.
    assert (Ht : is_Some (trees (data w) !! t)).
    { apply (baking_dom b T0 w t Hb). destruct Hwt as (nt0 & o & H1 & _). eauto. }
    destruct Ht as [nt Ht]. rewrite Ht, bind_ret_l.
    destruct (prepare_new_nodes_run b T0 t c w) as
      (w1 & d & Hrun & Hb1 & Hs1 & He1 & Hc1 & Htn1 & Hk1 & Hi1); try assumption.
    unfold bind at 1. rewrite Hrun. cbn [fst snd negb].
    destruct (IH w1) as (w2 & recs & Hrun2 & Hb2 & Hs2 & He2 & Hc2 & Htn2 & Hk2 & HF2 & Hi2);
      try assumption; try (rewrite ?Hs1, ?Hc1; assumption).
    { rewrite Htn1. apply Forall_forall. intros t' Ht'.
      rewrite dict_get_app_ne.
      - rewrite Forall_forall in Hfresh'. apply Hfresh'. exact Ht'.
      - intros ->. apply Hnt. exact Ht'. }
    { rewrite Hc1. apply (allocated_names _ w w1 Hs1 Hi1). exact Hal. }
    exists w2, ((t, d) :: recs). split; [exact Hrun2|].
    split_and!; try congruence.
    + rewrite Htn2, Htn1, <- app_assoc. reflexivity.
    + cbn [map fst]. rewrite Hk2. reflexivity.
    + constructor; [exact Hk1|]. rewrite <- Hc1. exact HF2.
Qed.
End PrepareAll.

Section BakeLoop.
Import SIMPLIFIER_OT_bake.

Lemma recorded_present b T0 w t d i :
  baking b T0 w -> is_Some (T0 !! t) ->
  dict_get t (texture_nodes (self w)) = Some d -> In i (dict_values d) ->
  exists nt n, trees (data w) !! t = Some nt /\
    List.find (node_is i) (nodes nt) = Some n /\
    node_type n = TEX_IMAGE /\ node_image n <> None.
Proof.
  intros Hb Ht Hd Hi.
  apply (baking_dom b T0 w t Hb) in Ht as [nt Ht].
  destruct (baking_lookup _ _ _ _ _ Hb Ht) as (nt0 & Ht0 & Hold & Hnew & Hnd & HF).
  unfold recorded_ids in Hnew. rewrite Hd in Hnew. rewrite <- Hnew in Hi.
  unfold new_ids in Hi. apply in_map_iff in Hi as (x & Hx & Hin).
  apply filter_In in Hin as [Hin Hnew'].
  destruct (List.find (node_is i) (nodes nt)) as [n|] eqn:E.
  - exists nt, n. split; [exact Ht|]. split; [exact E|].
    apply find_some in E as [Hn Hid]. unfold node_is in Hid. apply Nat.eqb_eq in Hid.
    rewrite List.Forall_forall in HF. destruct (HF n Hn) as [_ Hn'].
    apply Hn'. unfold old_node in *. rewrite Hid, <- Hx. apply negb_true_iff. exact Hnew'.
  - exfalso. apply (find_none _ _ E) in Hin. unfold node_is in Hin. rewrite Hx in Hin.
    rewrite Nat.eqb_refl in Hin. discriminate.
Qed.

Lemma same_graphs_refl w : same_graphs w w.
Proof. unfold same_graphs. auto 10. Qed.

Lemma same_graphs_trans w1 w2 w3 :
  same_graphs w1 w2 -> same_graphs w2 w3 -> same_graphs w1 w3.
Proof.
  intros (A1 & A2 & A3 & A4 & A5 & A6) (B1 & B2 & B3 & B4 & B5 & B6).
  unfold same_graphs. split_and!; try congruence.
Qed.

Lemma baking_same_graphs b T0 w w' : same_graphs w w' -> baking b T0 w -> baking b T0 w'.
Proof.
  intros (_ & _ & Hs & _ & Hn & Ht). apply baking_frame; [exact Ht|exact Hn|].
  rewrite Hs. reflexivity.
Qed.

Lemma set_nodes_active_run t i w nt n :
  trees (data w) !! t = Some nt -> List.find (node_is i) (nodes nt) = Some n ->
  exists w', set_nodes_active t i w = (w', Ret tt) /\ same_graphs w w'.
Proof.
  intros Ht Hn. unfold set_nodes_active, get_node, get_tree.
  rewrite !bind_assoc, bind_gets. cbn beta. rewrite Ht, bind_ret_l, Hn, bind_ret_l.
  rewrite bind_assoc, bind_gets. cbn beta. rewrite Ht, bind_ret_l.
  eexists. split; [reflexivity|]. unfold same_graphs. cbn. split_and!; try reflexivity.
  intros t'. destruct (decide (t' = t)) as [->|Hne].
  - rewrite lookup_insert_eq, Ht. reflexivity.
  - rewrite lookup_insert_ne by congruence. reflexivity.
Qed.

Lemma set_nodes_as_active_loop b T0 m recs : forall w,
  baking b T0 w ->
  Forall (fun td => is_Some (T0 !! fst td) /\
                    dict_get (fst td) (texture_nodes (self w)) = Some (snd td) /\
                    In m (map fst (snd td))) recs ->
  exists w',
    for_ recs (fun '(node_tree, tex_nodes) =>
      match dict_get m tex_nodes with
      | Some texture_node => set_nodes_active node_tree texture_node
      | None => raise KeyError
      end) w = (w', Ret tt) /\ same_graphs w w'.
Proof.
  induction recs as [|[t d] recs IH]; intros w Hb HF; cbn [for_].
  - exists w. split; [reflexivity|apply same_graphs_refl].
  - inversion HF as [|? ? Hhd HF']; subst. destruct Hhd as (Ht & Hd & Hm).
    cbn [fst snd] in *.
    destruct (dict_get m d) as [i|] eqn:Ei.
    2: { apply dict_get_None in Ei. contradiction. }
    destruct (recorded_present b T0 w t d i Hb Ht Hd) as (nt & n & Hnt & Hn & _).
    { apply dict_get_In in Ei. apply (in_map snd) in Ei. exact Ei. }
    destruct (set_nodes_active_run t i w nt n Hnt Hn) as (w1 & Hrun & Hsame).
    destruct (IH w1) as (w2 & Hrun2 & Hsame2).
    { apply (baking_same_graphs b T0 w w1 Hsame Hb). }
    { destruct Hsame as (_ & _ & Hs & _). rewrite Hs. exact HF'. }
    exists w2. unfold bind. rewrite Hrun. split; [exact Hrun2|].
    eapply same_graphs_trans; eassumption.
Qed.

Lemma on_record_each T0 maps w m :
  on_record T0 maps w -> In m maps ->
  Forall (fun td => is_Some (T0 !! fst td) /\
                    dict_get (fst td) (texture_nodes (self w)) = Some (snd td) /\
                    In m (map fst (snd td))) (texture_nodes (self w)).
Proof.
  intros [Hnd HF] Hm. apply Forall_forall. intros [t d] Hin.
  rewrite Forall_forall in HF. destruct (HF _ Hin) as [Ht Hk]. cbn [fst snd] in *.
  split_and!; [exact Ht| |rewrite Hk; exact Hm].
  apply dict_In_get; [exact Hnd|]. apply list_elem_of_In. exact Hin.
Qed.

(** The bake loop: every channel is baked, and nothing but the active
    nodes and the bake log changes. *)
Lemma bake_loop_run b T0 maps0 maps : forall w,
  baking b T0 w -> on_record T0 maps0 w -> (forall m, In m maps -> In m maps0) ->
  Forall (fun m => bake_kwargs (baker_width (baker (scene w)))
                     (baker_height (baker (scene w))) m <> None) maps ->
  bake_failing (env w) = [] ->
  exists w' kws,
    for_ maps bake_one w = (w', Ret tt) /\
    scene w' = scene w /\ self w' = self w /\
    env w' = set_bake_log (bake_log (env w) ++ kws) (env w) /\
    List.length kws = List.length maps /\
    images (data w') = images (data w) /\ next_node (data w') = next_node (data w) /\
    (forall t, option_map graph_of (trees (data w') !! t) =
               option_map graph_of (trees (data w) !! t)).
Proof.
  induction maps as [|m maps IH]; intros w Hb Hrec Hsub Hkw Hfail; cbn [for_].
  - exists w, []. rewrite app_nil_r. split_and!; try reflexivity.
    destruct (env w); reflexivity.
  - inversion Hkw as [|? ? Hk Hkw']; subst.
    unfold bake_one at 1. unfold set_nodes_as_active. rewrite !bind_assoc, bind_gets. cbn beta.
    destruct (set_nodes_as_active_loop b T0 m (texture_nodes (self w)) w Hb)
      as (w1 & Hrun & (Hs1 & He1 & Hself1 & Hi1 & Hn1 & Ht1)).
    { apply (on_record_each T0 maps0); [exact Hrec|]. apply Hsub. left. reflexivity. }
    unfold bind at 1. rewrite Hrun. cbn beta iota. rewrite !bind_assoc, bind_gets.
    cbn beta. rewrite Hs1.
    destruct (bake_kwargs _ _ m) as [kw|] eqn:Ekw; [|contradiction].
    unfold ops_object_bake. rewrite bind_assoc, bind_gets. cbn beta.
    rewrite He1, Hfail. cbn [str_in existsb]. rewrite bind_modify. cbn beta.
    set (w2 := on_env _ w1).
    destruct (IH w2) as (w3 & kws & Hrun3 & Hs3 & Hself3 & He3 & Hl3 & Hi3 & Hn3 & Ht3).
    { apply (baking_frame b T0 w); [exact Ht1|exact Hn1| |exact Hb].
      subst w2. cbn. rewrite Hself1. reflexivity. }
    { unfold on_record. subst w2. cbn [self on_env]. rewrite Hself1. exact Hrec. }
    { intros x Hx. apply Hsub. right. exact Hx. }
    { subst w2. cbn [scene on_env]. rewrite Hs1. exact Hkw'. }
    { subst w2. cbn. rewrite He1. exact Hfail. }
    exists w3, (kw :: kws). split; [exact Hrun3|].
    split_and!.
    + rewrite Hs3. subst w2. cbn. exact Hs1.
    + rewrite Hself3. subst w2. cbn. exact Hself1.
    + rewrite He3. subst w2. cbn. rewrite He1, <- app_assoc. reflexivity.
    + cbn. rewrite Hl3. reflexivity.
    + rewrite Hi3. subst w2. cbn. exact Hi1.
    + rewrite Hn3. subst w2. cbn. exact Hn1.
    + intros t. rewrite Ht3. subst w2. cbn. apply Ht1.
Qed.
End BakeLoop.

Section SaveAndClean.
Import SIMPLIFIER_OT_bake.

Lemma settled_refl w : settled w w.
Proof. unfold settled. auto 10. Qed.

Lemma settled_trans w1 w2 w3 : settled w1 w2 -> settled w2 w3 -> settled w1 w3.
Proof.
  intros (A1 & A2 & A3 & A4 & A5 & A6 & A7) (B1 & B2 & B3 & B4 & B5 & B6 & B7).
  unfold settled. split_and!; congruence.
Qed.

Lemma path_join_nonempty p n : n <> "" -> String.eqb (path_join p n) "" = false.
Proof.
  intros Hn. apply String.eqb_neq. unfold path_join.
  destruct (String.prefix "/" n); [exact Hn|].
  destruct (String.eqb p ""); [exact Hn|].
  destruct p as [|c p]; [|destruct (ends_with_slash _); discriminate].
  destruct (ends_with_slash ""); [exact Hn|discriminate].
Qed.

Lemma create_subdir_writable name dir w :
  fs_readonly (env w) = [] -> name <> "" ->
  exists w' s,
    create_subdir name (Some dir) w = (w', Ret s) /\ String.eqb s "" = false /\
    settled w w' /\ trees (data w') = trees (data w) /\
    fs_readonly (env w') = [] /\ fs_files (env w') = fs_files (env w).
Proof.
  intros Hr Hn. rewrite create_subdir_cases, Hr. cbn [str_in existsb].
  assert (Hp : String.eqb (subdir_path name (Some dir) w) "" = false).
  { unfold subdir_path. apply path_join_nonempty. exact Hn. }
  destruct (str_in _ (fs_exists (env w))).
  - exists w, (subdir_path name (Some dir) w). split_and!; try reflexivity; try assumption.
    apply settled_refl.
  - eexists _, _. split; [reflexivity|]. split_and!; try reflexivity; try assumption.
    unfold settled, directory_added. cbn. auto 10.
Qed.

(** The loop that saves the images of the first tree's nodes. *)
Lemma save_loop b T0 t d texture_dir ids : forall w,
  baking b T0 w -> is_Some (T0 !! t) ->
  dict_get t (texture_nodes (self w)) = Some d ->
  (forall i, In i ids -> In i (dict_values d)) ->
  exists w',
    for_ ids (save_one t texture_dir) w = (w', Ret tt) /\
    settled w w' /\ trees (data w') = trees (data w) /\
    fs_readonly (env w') = fs_readonly (env w) /\
    List.length (fs_files (env w')) = (List.length (fs_files (env w)) + List.length ids)%nat.
Proof.
  induction ids as [|i ids IH]; intros w Hb Ht Hd Hsub; cbn [for_].
  - exists w. split_and!; try reflexivity; [apply settled_refl|cbn; lia].
  - destruct (recorded_present b T0 w t d i Hb Ht Hd) as (nt & n & Hnt & Hn & Hty & Him).
    { apply Hsub. left. reflexivity. }
    unfold save_one at 1, get_node, get_tree. rewrite !bind_assoc, bind_gets. cbn beta.
    rewrite Hnt, bind_ret_l, Hn, bind_ret_l, Hty.
    destruct (node_image n) as [img|]; [|contradiction].
    unfold set_image. rewrite !bind_assoc, bind_modify. cbn beta.
    rewrite bind_modify. cbn beta.
    match goal with |- context [for_ ids _ ?x] => set (w1 := x) end.
    assert (Hs1 : settled w w1).
    { unfold settled. subst w1. cbn. split_and!; try reflexivity.
      apply find_update_image. reflexivity. }
    destruct (IH w1) as (w2 & Hrun & Hs2 & Ht2 & Hr2 & Hf2).
    { apply (baking_frame b T0 w); try reflexivity. exact Hb. }
    { exact Ht. }
    { exact Hd. }
    { intros x Hx. apply Hsub. right. exact Hx. }
    exists w2. split; [exact Hrun|]. split_and!.
    + eapply settled_trans; eassumption.
    + rewrite Ht2. reflexivity.
    + rewrite Hr2. reflexivity.
    + rewrite Hf2. subst w1. cbn. rewrite length_app. cbn. lia.
Qed.

Lemma save_textures_run b T0 maps w o others :
  baking b T0 w -> on_record T0 maps w -> texture_nodes (self w) <> [] ->
  selected_objects w = o :: others -> obj_name o <> "" ->
  fs_readonly (env w) = [] ->
  exists w',
    save_textures w = (w', Ret true) /\
    settled w w' /\ trees (data w') = trees (data w) /\
    List.length (fs_files (env w')) =
      (List.length (fs_files (env w)) + List.length maps)%nat.
Proof.
  intros Hb Hrec Hne Hsel Hname Hro.
  unfold save_textures. rewrite bind_gets. cbn beta.
  destruct (texture_nodes (self w)) as [|[first first_nodes] recs] eqn:Etn; [contradiction|].
  rewrite Hsel.
  destruct (create_subdir_writable (obj_name o) (simplifier_export_dir (simplifier (scene w)))
              w Hro Hname) as (w1 & obj_dir & Hrun1 & Hd1 & Hs1 & Ht1 & Hr1 & Hf1).
  unfold bind at 1. rewrite Hrun1, Hd1.
  destruct (create_subdir_writable "baked_textures" obj_dir w1 Hr1)
    as (w2 & texture_dir & Hrun2 & Hd2 & Hs2 & Ht2 & Hr2 & Hf2); [discriminate|].
  unfold bind at 1. rewrite Hrun2, Hd2.
  pose proof (settled_trans _ _ _ Hs1 Hs2) as Hs12.
  assert (Hself : self w2 = self w) by apply Hs12.
  assert (Hb2 : baking b T0 w2).
  { apply (baking_frame b T0 w); [|apply Hs12|rewrite Hself; reflexivity|exact Hb].
    intros t. rewrite Ht2, Ht1. reflexivity. }
  destruct Hrec as [Hnd HF]. rewrite Etn in Hnd, HF.
  inversion HF as [|? ? Hhd _]; subst. destruct Hhd as (Hfirst & Hkeys).
  cbn [fst snd] in *.
  destruct (save_loop b T0 first first_nodes texture_dir (dict_values first_nodes) w2 Hb2 Hfirst)
    as (w3 & Hrun3 & Hs3 & Ht3 & Hr3 & Hf3).
  { rewrite Hself, Etn. cbn [dict_get]. rewrite String.eqb_refl. reflexivity. }
  { auto. }
  unfold bind at 1. rewrite Hrun3.
  exists w3. split; [reflexivity|]. split_and!.
  - eapply settled_trans; eassumption.
  - rewrite Ht3, Ht2, Ht1. reflexivity.
  - rewrite Hf3, Hf2, Hf1. unfold dict_values. rewrite length_map, <- (length_map fst), Hkeys.
    reflexivity.
Qed.
End SaveAndClean.

Section CleanAll.
Import SIMPLIFIER_OT_bake.

Lemma filter_old_without b i l :
  (b <= i)%nat ->
  List.filter (old_node b) (List.filter (fun n => negb (node_is i n)) l) =
  List.filter (old_node b) l.
Proof.
  intros Hi. induction l as [|x l IH]; cbn [List.filter]; [reflexivity|].
  destruct (node_is i x) eqn:E; cbn [negb List.filter].
  - unfold node_is in E. apply Nat.eqb_eq in E. unfold old_node at 2.
    destruct (Nat.ltb_spec (node_id x) b); [lia|]. exact IH.
  - destruct (old_node b x); rewrite IH; reflexivity.
Qed.

Lemma new_ids_without b i nt :
  map node_id (List.filter (fun n => negb (old_node b n))
                 (List.filter (fun n => negb (node_is i n)) (nodes nt))) =
  List.filter (fun j => negb (Nat.eqb j i)) (new_ids b nt).
Proof.
  unfold new_ids. induction (nodes nt) as [|x l IH]; cbn [List.filter map]; [reflexivity|].
  unfold node_is at 1. destruct (Nat.eqb (node_id x) i) eqn:E; cbn [negb List.filter].
  - destruct (old_node b x); cbn [negb map List.filter]; [exact IH|].
    rewrite E. cbn [negb]. exact IH.
  - destruct (old_node b x); cbn [negb map List.filter]; [exact IH|].
    rewrite E. cbn [negb]. rewrite IH. reflexivity.
Qed.

Lemma filter_not_in (i : nat) l :
  ~ In i l -> List.filter (fun j => negb (Nat.eqb j i)) l = l.
Proof.
  induction l as [|x l IH]; cbn [List.filter]; [reflexivity|].
  intros Hn. destruct (Nat.eqb_spec x i) as [->|Hne]; cbn [negb].
  - exfalso. apply Hn. left. reflexivity.
  - rewrite IH; [reflexivity|]. intros H. apply Hn. right. exact H.
Qed.

Lemma links_untouched b i (l : list Link) :
  (b <= i)%nat -> Forall (fun k => (from_node k < b)%nat /\ (to_node k < b)%nat) l ->
  List.filter (fun k => negb (Nat.eqb (from_node k) i || Nat.eqb (to_node k) i)) l = l.
Proof.
  intros Hi. induction 1 as [|k l [Hf Ht] HF IH]; cbn [List.filter]; [reflexivity|].
  destruct (Nat.eqb_spec (from_node k) i); [lia|].
  destruct (Nat.eqb_spec (to_node k) i); [lia|]. cbn [orb negb]. rewrite IH. reflexivity.
Qed.

(** The inner loop of the cleanup: the bake nodes of one tree go. *)
Lemma remove_loop b t ids : forall w nt,
  trees (data w) !! t = Some nt -> new_ids b nt = ids -> NoDup ids ->
  Forall (fun k => (from_node k < b)%nat /\ (to_node k < b)%nat) (links nt) ->
  exists w' nt',
    for_ ids (nodes_remove t) w = (w', Ret tt) /\
    trees (data w') !! t = Some nt' /\
    old_graph b nt' = old_graph b nt /\ new_ids b nt' = [] /\
    only_tree t w w'.
Proof.
  induction ids as [|i ids IH]; intros w nt Ht Hids Hnd Hl; cbn [for_].
  - exists w, nt. split_and!; try reflexivity; try assumption.
    unfold only_tree. split_and!; try reflexivity. apply settled_refl.
  - apply NoDup_cons in Hnd as [Hi Hnd].
    assert (Hin : In i (new_ids b nt)) by (rewrite Hids; left; reflexivity).
    unfold new_ids in Hin. apply in_map_iff in Hin as (x & Hx & Hxin).
    apply filter_In in Hxin as [Hxin Hxnew].
    assert (Hbi : (b <= i)%nat).
    { unfold old_node in Hxnew. apply negb_true_iff, Nat.ltb_ge in Hxnew. lia. }
    pose proof (nodes_remove_spec t i w) as S. rewrite Ht in S.
    destruct (List.find (node_is i) (nodes nt)) as [n|] eqn:E.
    2: { exfalso. apply (find_none _ _ E) in Hxin. unfold node_is in Hxin.
         rewrite Hx, Nat.eqb_refl in Hxin. discriminate. }
    clear S.
    assert (Hrun : nodes_remove t i w =
              (on_data (fun d0 => set_trees
                 (<[t := {| nodes := List.filter (fun n => negb (node_is i n)) (nodes nt);
                            links := links nt;
                            nodes_active := match nodes_active nt with
                                            | Some a => if Nat.eqb a i then None else Some a
                                            | None => None
                                            end |}]> (trees d0)) d0) w, Ret tt)).
    { unfold nodes_remove, get_node, get_tree.
      rewrite !bind_assoc, bind_gets. cbn beta. rewrite Ht, bind_ret_l, E, bind_ret_l.
      rewrite bind_assoc, bind_gets. cbn beta. rewrite Ht, bind_ret_l.
      unfold put_tree, modify. rewrite (links_untouched b i (links nt) Hbi Hl). reflexivity. }
    set (nt1 := {| nodes := List.filter (fun n => negb (node_is i n)) (nodes nt);
                   links := links nt; nodes_active := _ |}) in Hrun.
    set (w1 := on_data _ w) in Hrun.
    assert (Ht1 : trees (data w1) !! t = Some nt1).
    { subst w1. cbn. apply lookup_insert_eq. }
    destruct (IH w1 nt1 Ht1) as (w2 & nt2 & Hrun2 & Ht2 & Hold2 & Hnew2 & Honly2).
    { unfold new_ids, nt1. cbn [nodes]. rewrite new_ids_without, Hids.
      cbn [List.filter]. rewrite Nat.eqb_refl. cbn [negb].
      apply filter_not_in. intros H. apply Hi. apply list_elem_of_In. exact H. }
    { exact Hnd. }
    { exact Hl. }
    exists w2, nt2. unfold bind. rewrite Hrun. split; [exact Hrun2|].
    split_and!; try assumption.
    + rewrite Hold2. unfold old_graph, nt1. cbn [nodes links].
      rewrite (filter_old_without b i _ Hbi). reflexivity.
    + destruct Honly2 as (Hs & He & Hi2 & Ho). unfold only_tree. split_and!.
      * eapply settled_trans; [|exact Hs]. unfold settled. subst w1. cbn. auto 10.
      * rewrite He. reflexivity.
      * rewrite Hi2. reflexivity.
      * intros t' Hne. rewrite (Ho t' Hne). subst w1. cbn.
        apply lookup_insert_ne. congruence.
Qed.

(** The cleanup removes every recorded node and brings every tree back to
    its old graph. *)
Lemma clean_loop b T0 recs : forall w,
  well_formed b T0 -> cleaning b T0 recs w -> NoDup (map fst recs) ->
  Forall (fun td => is_Some (T0 !! fst td)) recs ->
  exists w',
    for_ recs (fun '(node_tree, node_dict) =>
      if negb (truthy None) then for_ (dict_values node_dict) (nodes_remove node_tree)
      else match dict_get (default "" None) node_dict with
           | Some node => nodes_remove node_tree node
           | None => raise KeyError
           end) w = (w', Ret tt) /\
    cleaning b T0 [] w' /\ settled w w' /\ env w' = env w /\
    images (data w') = images (data w).
Proof.
  induction recs as [|[t d] recs IH]; intros w Hwf Hc Hnd HF; cbn [for_].
  - exists w. split_and!; try reflexivity; [exact Hc|apply settled_refl].
  - cbn [map fst] in Hnd. apply NoDup_cons in Hnd as [Ht Hnd].
    inversion HF as [|? ? [nt0 Ht0] HF']; subst. cbn [fst] in Ht0.
    cbn [truthy negb].
    pose proof (Hc t) as Hct. rewrite Ht0 in Hct.
    destruct (trees (data w) !! t) as [nt|] eqn:Etree; [|contradiction].
    destruct Hct as (Hold & Hnew & Hnodup).
    unfold recorded_ids in Hnew. cbn [dict_get] in Hnew. rewrite String.eqb_refl in Hnew.
    destruct (Hwf t nt0 Ht0) as [_ Hlinks].
    assert (Hl : links nt = links nt0).
    { unfold old_graph, graph_of in Hold. congruence. }
    destruct (remove_loop b t (dict_values d) w nt Etree Hnew) as
      (w1 & nt1 & Hrun & Ht1 & Hold1 & Hnew1 & (Hs1 & He1 & Hi1 & Ho1)).
    { rewrite <- Hnew. exact Hnodup. }
    { rewrite Hl. exact Hlinks. }
    destruct (IH w1 Hwf) as (w2 & Hrun2 & Hc2 & Hs2 & He2 & Hi2).
    { intros t'. destruct (decide (t' = t)) as [->|Hne].
      - rewrite Ht1, Ht0. split_and!.
        + rewrite Hold1. exact Hold.
        + rewrite Hnew1. unfold recorded_ids.
          assert (Hg : dict_get t recs = None).
          { apply dict_get_None. intros H. apply Ht. apply list_elem_of_In. exact H. }
          rewrite Hg. reflexivity.
        + rewrite Hnew1. constructor.
      - rewrite (Ho1 t' Hne). specialize (Hc t').
        destruct (trees (data w) !! t') as [nt'|]; [|exact Hc].
        destruct (T0 !! t') as [nt0'|]; [|exact Hc].
        destruct Hc as (H1 & H2 & H3). split_and!; try assumption.
        rewrite H2. unfold recorded_ids. cbn [dict_get].
        apply String.eqb_neq in Hne. rewrite Hne. reflexivity. }
    { exact Hnd. }
    { exact HF'. }
    exists w2. unfold bind. rewrite Hrun. split; [exact Hrun2|].
    split_and!; try assumption.
    + eapply settled_trans; eassumption.
    + rewrite He2. exact He1.
    + rewrite Hi2. exact Hi1.
Qed.

Lemma cleaning_done b T0 w :
  cleaning b T0 [] w ->
  forall t, option_map graph_of (trees (data w) !! t) = option_map graph_of (T0 !! t).
Proof.
  intros Hc t. specialize (Hc t).
  destruct (trees (data w) !! t) as [nt|], (T0 !! t) as [nt0|]; try contradiction;
    [|reflexivity].
  destruct Hc as (Hold & Hnew & _). cbn [option_map]. f_equal.
  unfold recorded_ids in Hnew. cbn [dict_get] in Hnew.
  unfold old_graph in Hold. rewrite (new_ids_nil b nt Hnew) in Hold. exact Hold.
Qed.

Lemma clean_up_run b T0 maps w :
  well_formed b T0 -> baking b T0 w -> on_record T0 maps w ->
  exists w',
    clean_up None w = (w', Ret tt) /\ settled w w' /\ env w' = env w /\
    images (data w') = images (data w) /\
    forall t, option_map graph_of (trees (data w') !! t) = option_map graph_of (T0 !! t).
Proof.
  intros Hwf [_ Hb] [Hnd HF]. unfold clean_up. rewrite bind_gets. cbn beta.
  destruct (clean_loop b T0 (texture_nodes (self w)) w Hwf) as (w' & Hrun & Hc & Hs & He & Hi).
  - intros t. specialize (Hb t).
    destruct (trees (data w) !! t); [|exact Hb]. destruct (T0 !! t); [|exact Hb].
    destruct Hb as (H1 & H2 & H3 & _). auto.
  - exact Hnd.
  - eapply Forall_impl; [exact HF|]. cbn. intros td [H _]. exact H.
  - exists w'. split; [exact Hrun|]. split_and!; try assumption.
    apply (cleaning_done b T0 w' Hc).
Qed.
End CleanAll.

Section BakeTextures.
Import SIMPLIFIER_OT_bake.

Lemma baking_start w :
  well_formed (next_node (data w)) (trees (data w)) ->
  baking (next_node (data w)) (trees (data w)) (on_self (set_texture_nodes []) w).
Proof.
  intros Hwf. split; [cbn; lia|]. intros t. cbn [data on_self self texture_nodes
    set_texture_nodes].
  destruct (trees (data w) !! t) as [nt|] eqn:E; [|exact I].
  destruct (Hwf t nt E) as [Hn _].
  assert (Hf : List.filter (old_node (next_node (data w))) (nodes nt) = nodes nt).
  { apply filter_old_below. exact Hn. }
  assert (Hnew : new_ids (next_node (data w)) nt = []).
  { unfold new_ids. clear -Hn. induction Hn as [|x l Hx HF IH]; cbn [List.filter map];
      [reflexivity|].
    unfold old_node at 1. destruct (Nat.ltb_spec (node_id x) (next_node (data w))); [|lia].
    exact IH. }
  split_and!.
  - unfold old_graph, graph_of. rewrite Hf. reflexivity.
  - rewrite Hnew. reflexivity.
  - rewrite Hnew. constructor.
  - eapply Forall_impl; [exact Hn|]. cbn. intros x Hx. split; [exact Hx|].
    unfold old_node. intros H. apply Nat.ltb_ge in H. lia.
Qed.

Lemma after_bake_run b T0 maps c w o others :
  well_formed b T0 -> baking b T0 w -> on_record T0 maps w ->
  texture_nodes (self w) <> [] ->
  textures_to_create (self w) = maps ->
  baker_use_texture (baker (scene w)) = false ->
  baker_export_after (baker (scene w)) = false ->
  selected_objects w = o :: others -> obj_name o <> "" -> fs_readonly (env w) = [] ->
  exists w',
    after_bake c w = (w', Ret true) /\ settled w w' /\
    List.length (fs_files (env w')) =
      (List.length (fs_files (env w)) + List.length maps)%nat /\
    forall t, option_map graph_of (trees (data w') !! t) = option_map graph_of (T0 !! t).
Proof.
  intros Hwf Hb Hrec Hne Hmaps Hu He Hsel Hname Hro.
  unfold after_bake. rewrite bind_gets. cbn beta zeta. rewrite Hu, He.
  destruct (save_textures_run b T0 maps w o others Hb Hrec Hne Hsel Hname Hro)
    as (w1 & Hrun & Hs1 & Ht1 & Hf1).
  unfold bind at 1. rewrite Hrun. cbn [negb orb when]. rewrite !bind_ret_l.
  assert (Hself : self w1 = self w) by apply Hs1.
  destruct (clean_up_run b T0 maps w1 Hwf) as (w2 & Hrun2 & Hs2 & He2 & Hi2 & Hg2).
  { apply (baking_frame b T0 w); [|apply Hs1|rewrite Hself; reflexivity|exact Hb].
    intros t. rewrite Ht1. reflexivity. }
  { unfold on_record. rewrite Hself. exact Hrec. }
  unfold bind at 1. rewrite Hrun2. rewrite andb_false_r. cbn [when]. rewrite bind_ret_l.
  exists w2. split; [reflexivity|]. split_and!.
  - eapply settled_trans; eassumption.
  - rewrite He2. exact Hf1.
  - exact Hg2.
Qed.

Lemma bake_stage_run b T0 maps c w o others :
  well_formed b T0 -> baking b T0 w -> on_record T0 maps w ->
  texture_nodes (self w) <> [] ->
  textures_to_create (self w) = maps ->
  Forall (fun m => bake_kwargs (baker_width (baker (scene w)))
                     (baker_height (baker (scene w))) m <> None) maps ->
  baker_use_texture (baker (scene w)) = false ->
  baker_export_after (baker (scene w)) = false ->
  selected_objects w = o :: others -> obj_name o <> "" ->
  fs_readonly (env w) = [] -> bake_failing (env w) = [] ->
  exists w',
    bake_stage c w = (w', Ret true) /\
    (forall t, option_map graph_of (trees (data w') !! t) = option_map graph_of (T0 !! t)) /\
    objects (scene w') = objects (scene w) /\
    render_engine (scene w') = render_engine (scene w) /\
    reports (env w') = reports (env w) /\
    List.length (bake_log (env w')) =
      (List.length (bake_log (env w)) + List.length maps)%nat /\
    List.length (fs_files (env w')) =
      (List.length (fs_files (env w)) + List.length maps)%nat /\
    map img_name (images (data w')) = map img_name (images (data w)).
Proof.
  intros Hwf Hb Hrec Hne Hmaps Hkw Hu He Hsel Hname Hro Hfail.
  unfold bake_stage. rewrite bind_gets. cbn beta zeta.
  rewrite bind_modify. cbn beta. rewrite bind_modify. cbn beta.
  set (w1 := on_scene (set_cycles_device _) (on_scene (set_render_engine CYCLES) w)).
  assert (Hb1 : baking b T0 w1).
  { apply (baking_frame b T0 w); try reflexivity. exact Hb. }
  destruct (bake_loop_run b T0 maps maps w1 Hb1) as
    (w2 & kws & Hrun & Hs2 & Hself2 & He2 & Hl2 & Hi2 & Hn2 & Ht2); try assumption.
  { auto. }
  set (w3 := on_scene (set_render_engine (render_engine (scene w))) w2).
  match goal with |- context [try_except ?m ?h] =>
    assert (Htry : try_except m h w1 = (w2, Ret None)) end.
  { unfold try_except, bind. rewrite Hmaps, Hrun. reflexivity. }
  unfold bind at 1. rewrite try_finally_modify, Htry. cbn [fst snd]. fold w3.
  assert (Hself3 : self w3 = self w) by exact Hself2.
  assert (Henv3 : env w3 = set_bake_log (bake_log (env w) ++ kws) (env w)) by exact He2.
  assert (Hobj3 : objects (scene w3) = objects (scene w)).
  { subst w3. cbn. rewrite Hs2. reflexivity. }
  assert (Hbaker3 : baker (scene w3) = baker (scene w)).
  { subst w3. cbn. rewrite Hs2. reflexivity. }
  assert (Hengine3 : render_engine (scene w3) = render_engine (scene w)) by reflexivity.
  destruct (after_bake_run b T0 maps c w3 o others Hwf) as (w4 & Hrun4 & Hs4 & Hf4 & Hg4).
  { apply (baking_frame b T0 w1);
      [exact Ht2|exact Hn2|exact (f_equal texture_nodes Hself2)|exact Hb1]. }
  { unfold on_record. rewrite Hself3. exact Hrec. }
  { rewrite Hself3. exact Hne. }
  { rewrite Hself3. exact Hmaps. }
  { rewrite Hbaker3. exact Hu. }
  { rewrite Hbaker3. exact He. }
  { unfold selected_objects. rewrite Hobj3. exact Hsel. }
  { exact Hname. }
  { rewrite Henv3. exact Hro. }
  exists w4. split; [exact Hrun4|].
  destruct Hs4 as (A1 & A2 & A3 & A4 & A5 & A6 & A7).
  split_and!.
  - exact Hg4.
  - rewrite A1. exact Hobj3.
  - rewrite A1. exact Hengine3.
  - rewrite A4, Henv3. reflexivity.
  - rewrite A5, Henv3. cbn. rewrite length_app. lia.
  - rewrite Hf4, Henv3. reflexivity.
  - rewrite A7. change (images (data w3)) with (images (data w2)). rewrite Hi2. reflexivity.
Qed.

Lemma bake_textures_run materials w :
  bakeable materials w ->
  exists w',
    bake_textures materials w = (w', Ret true) /\
    (forall t, option_map graph_of (trees (data w') !! t) =
               option_map graph_of (trees (data w) !! t)) /\
    objects (scene w') = objects (scene w) /\
    render_engine (scene w') = render_engine (scene w) /\
    reports (env w') = reports (env w) /\
    List.length (bake_log (env w')) =
      (List.length (bake_log (env w)) + List.length (textures_to_create (self w)))%nat /\
    List.length (fs_files (env w')) =
      (List.length (fs_files (env w)) + List.length (textures_to_create (self w)))%nat /\
    map img_name (images (data w')) = map img_name (images (data w)).
Proof.
  intros (Hne & Hnd & Hwired & Hwf & Hu & He & Hmaps & Hal & Hkw & Hfail & Hro &
          o & Hsel & Hname).
  unfold bake_textures. rewrite bind_modify. cbn beta.
  set (w0 := on_self (set_texture_nodes []) w).
  destruct (prepare_all_run (next_node (data w)) (trees (data w))
              {| connect_new := []; connect_old := [] |} materials w0)
    as (w1 & recs & Hrun & Hb1 & Hs1 & He1 & Hc1 & Htn1 & Hk1 & HF1 & Hi1); try assumption.
  { apply baking_start. exact Hwf. }
  { apply Forall_forall. intros t _. reflexivity. }
  unfold bind at 1. rewrite Hrun. cbn [fst snd].
  subst w0.
  cbn [self on_self texture_nodes textures_to_create set_texture_nodes app scene env data]
    in Htn1, Hc1, HF1, Hs1, He1, Hi1.
  destruct (selected_objects w) as [|o' others] eqn:Eo; [discriminate|].
  injection Hsel as ->.
  destruct (bake_stage_run (next_node (data w)) (trees (data w)) (textures_to_create (self w))
              {| connect_new := []; connect_old := [] |} w1 o others Hwf Hb1)
    as (w2 & Hrun2 & Hg & H1 & H2 & H3 & H4 & H5 & H6).
  { split.
    - rewrite Htn1, Hk1. exact Hnd.
    - rewrite Htn1. apply Forall_forall. intros [t d] Hin. cbn [fst snd]. split.
      + rewrite Forall_forall in Hwired.
        destruct (Hwired t) as (nt0 & out & Ht & _).
        * rewrite <- Hk1. apply list_elem_of_In, (in_map fst) in Hin. apply list_elem_of_In.
          exact Hin.
        * eauto.
      + rewrite Forall_forall in HF1. apply (HF1 _ Hin). }
  { rewrite Htn1. intros ->. destruct materials; [contradiction|discriminate]. }
  { exact Hc1. }
  { rewrite Hs1. exact Hkw. }
  { rewrite Hs1. exact Hu. }
  { rewrite Hs1. exact He. }
  { unfold selected_objects. rewrite Hs1. exact Eo. }
  { exact Hname. }
  { rewrite He1. exact Hro. }
  { rewrite He1. exact Hfail. }
  exists w2. split; [exact Hrun2|]. split_and!.
  - exact Hg.
  - rewrite H1, Hs1. reflexivity.
  - rewrite H2, Hs1. reflexivity.
  - rewrite H3, He1. reflexivity.
  - rewrite H4, He1. reflexivity.
  - rewrite H5, He1. reflexivity.
  - rewrite H6, Hi1. reflexivity.
Qed.
End BakeTextures.

(** ** The bake operator on the success path *)

Section BakeExecute.
Import SIMPLIFIER_OT_bake.




End BakeExecute.

(** X25: a bake that neither connects nor exports its textures, on wired
    materials and a host that does not fail, returns [True] and leaves
    every node tree with the nodes and links it had; the render engine is
    the one from before, and one bake and one written image file are on
    record for every channel. *)
Theorem bake_textures_restores_graphs (materials : list string) (w : World) :
  bakeable materials w ->
  snd (SIMPLIFIER_OT_bake.bake_textures materials w) = Ret true /\
  graphs_kept w (fst (SIMPLIFIER_OT_bake.bake_textures materials w)) /\
  render_engine (scene (fst (SIMPLIFIER_OT_bake.bake_textures materials w))) =
    render_engine (scene w) /\
  List.length (bake_log (env (fst (SIMPLIFIER_OT_bake.bake_textures materials w)))) =
    (List.length (bake_log (env w)) + List.length (textures_to_create (self w)))%nat /\
  List.length (fs_files (env (fst (SIMPLIFIER_OT_bake.bake_textures materials w)))) =
    (List.length (fs_files (env w)) + List.length (textures_to_create (self w)))%nat.
Proof.
  intros H. destruct (bake_textures_run materials w H)
    as (w' & -> & Hg & _ & He & _ & Hb & Hf & _).
  cbn [fst snd]. auto.
Qed.

(** X25 (witness): one wired material, the diffuse texture allocated. *)
Lemma bake_textures_restores_graphs_witness :
  bakeable ["Mat"] ready_to_bake /\
  snd (SIMPLIFIER_OT_bake.bake_textures ["Mat"] ready_to_bake) = Ret true /\
  graphs_kept ready_to_bake (fst (SIMPLIFIER_OT_bake.bake_textures ["Mat"] ready_to_bake)).
Proof.
  assert (E : trees (data ready_to_bake) = {[ "Mat" := default_tree ]}) by reflexivity.
  assert (H : bakeable ["Mat"] ready_to_bake).
  { split; [discriminate|]. split; [apply NoDup_singleton|].
    split.
    { constructor; [|constructor]. exists default_tree, 1%nat.
      split; [reflexivity|]. split; [reflexivity|]. vm_compute. discriminate. }
    split.
    { intros t nt0. rewrite E. intros [_ <-]%lookup_singleton_Some.
      split; repeat constructor. }
    split; [reflexivity|]. split; [reflexivity|].
    split; [apply NoDup_singleton|].
    split; [intros map_name [<-|[]]; vm_compute; discriminate|].
    split; [repeat constructor; vm_compute; discriminate|].
    split; [reflexivity|]. split; [reflexivity|].
    exists cube. split; [reflexivity|]. vm_compute. discriminate. }
  split; [exact H|].
  pose proof (bake_textures_restores_graphs ["Mat"] ready_to_bake H) as (H1 & H2 & _).
  split; [exact H1|exact H2].
Defined.



Section MissingLater.
Import SIMPLIFIER_OT_bake.

End MissingLater.



(** ** Operators that stop early *)

Section TesterEdges.
Import EXPORT_TESTER_OT_export_tester.


End TesterEdges.





Section NoUV.
Import SIMPLIFIER_OT_bake.


End NoUV.
